(** * Trading-Bot: order validation and multi-order execution strategies

    A shallow embedding of the order validator ([src/validator.py]), the
    primitive order executors ([src/market_orders.py], [src/limit_orders.py]),
    the three strategy coordinators ([src/advanced/oco.py],
    [src/advanced/twap.py], [src/advanced/grid_strategy.py]), the account
    operations of the bot ([src/bot.py]) and the configuration lookup
    ([src/config_loader.py]).

    Modelling conventions:
    - a Python [float] is an exact rational ([Q]); comparisons are the
      rational ones and [round(x, n)] is exact round-half-to-even on the
      decimal scale [10^n].  Non-finite floats (nan, inf) and binary
      representation error are outside the model;
    - a Python [str] is a [string] of ASCII characters;
    - a Python [dict] with string keys is a [gmap string pyval];
    - the exchange client is a deterministic oracle that sees the calls
      issued so far; every call the code makes is appended to the world's
      [calls], every log record to the world's [log];
    - a Python exception is the outcome [Raised]; [try/except] is [try_except];
    - log messages built from f-strings are recorded as their source
      template, without interpolation. *)

From Stdlib Require Import QArith Qround Qpower Qabs ZArith List String Ascii.
From Stdlib Require Import Lia Lqa.
From stdpp Require Import gmap strings list.

Set Default Proof Using "Type".

(* ===================================================================== *)
(** ** Python values and numbers *)
(* ===================================================================== *)

Inductive pyval : Type :=
| VNone
| VBool (b : bool)
| VInt (z : Z)
| VFloat (q : Q)
| VStr (s : string).

(** A Python dictionary with string keys. *)
Abbreviation pydict := (gmap string pyval).

(** Comparisons on floats, as booleans. *)
Definition Qltb (x y : Q) : bool := negb (Qle_bool y x).
Definition Qleb (x y : Q) : bool := Qle_bool x y.

(** Round-half-to-even to an integer. *)
Definition round_half_even (x : Q) : Z :=
  let f := Qfloor x in
  match (x - inject_Z f ?= 1 # 2)%Q with
  | Lt => f
  | Gt => (f + 1)%Z
  | Eq => if Z.even f then f else (f + 1)%Z
  end.

(** [round(x, ndigits)] on a float; the result is kept in lowest terms. *)
Definition py_round (x : Q) (ndigits : Z) : Q :=
  Qred (inject_Z (round_half_even (x * 10 ^ ndigits)) / 10 ^ ndigits)%Q.

(** One unit in the last kept decimal place. *)
Definition precision_unit (ndigits : Z) : Q := (/ 10 ^ ndigits)%Q.

(** Numbers as [sum] accumulates them: an int stays an int until a float
    is added. *)
Inductive pynum : Type :=
| NInt (z : Z)
| NFloat (q : Q).

Definition pynum_to_Q (n : pynum) : Q :=
  match n with
  | NInt z => inject_Z z
  | NFloat q => q
  end.

Definition pyval_num (v : pyval) : option pynum :=
  match v with
  | VBool b => Some (NInt (if b then 1 else 0))
  | VInt z => Some (NInt z)
  | VFloat q => Some (NFloat q)
  | VNone | VStr _ => None
  end.

Definition pynum_add (a b : pynum) : pynum :=
  match a, b with
  | NInt x, NInt y => NInt (x + y)
  | _, _ => NFloat (pynum_to_Q a + pynum_to_Q b)
  end.

(** [sum(vs)]: starts from the int [0]; adding a value that is not a number
    (a [str], [None]) raises [TypeError], modelled as [None]. *)
Fixpoint py_sum_from (acc : pynum) (vs : list pyval) : option pynum :=
  match vs with
  | [] => Some acc
  | v :: vs' =>
      match pyval_num v with
      | Some n => py_sum_from (pynum_add acc n) vs'
      | None => None
      end
  end.

Definition py_sum (vs : list pyval) : option pynum := py_sum_from (NInt 0) vs.


(** Truth value of a dictionary: empty is falsy. *)
Definition dict_truthy (d : pydict) : bool := negb (bool_decide (d = ∅)).

(** Truth value of an [Optional[Dict]]. *)
Definition truthy (o : option pydict) : bool :=
  match o with
  | Some d => dict_truthy d
  | None => false
  end.

(** The dictionary behind a truthy [Optional[Dict]]: [None] when the value
    is [None] or an empty dictionary ([if not order]). *)
Definition if_truthy (o : option pydict) : option pydict :=
  match o with
  | Some d => if dict_truthy d then Some d else None
  | None => None
  end.

(** Truth value of a Python value. *)
Definition pyval_truthy (v : pyval) : bool :=
  match v with
  | VNone => false
  | VBool b => b
  | VInt z => negb (z =? 0)%Z
  | VFloat q => negb (Qeq_bool q 0)
  | VStr s => negb (String.eqb s "")
  end.

(** [x or default] on an optional int: [None] and [0] are falsy. *)
Definition int_or (x : option Z) (default : Z) : Z :=
  match x with
  | Some v => if (v =? 0)%Z then default else v
  | None => default
  end.

(** [range(n)]. *)
Definition range (n : Z) : list Z := map Z.of_nat (seq 0 (Z.to_nat n)).

(** [d.get(key, default)]. *)
Definition dict_get (d : pydict) (key : string) (default : pyval) : pyval :=
  match d !! key with
  | Some v => v
  | None => default
  end.

(* ===================================================================== *)
(** ** Strings *)
(* ===================================================================== *)

Definition upper_ascii (c : ascii) : ascii :=
  let n := nat_of_ascii c in
  if (97 <=? n)%nat && (n <=? 122)%nat then ascii_of_nat (n - 32) else c.

(** [s.upper()]. *)
Fixpoint upper (s : string) : string :=
  match s with
  | EmptyString => EmptyString
  | String c s' => String (upper_ascii c) (upper s')
  end.

(** [s.endswith(suffix)]. *)
Definition endswith (s suffix : string) : bool :=
  let n := String.length s in
  let k := String.length suffix in
  (k <=? n)%nat && String.eqb (substring (n - k) k s) suffix.

(** Membership in the character class [[A-Z0-9]]. *)
Definition upper_alnum (c : ascii) : bool :=
  let n := nat_of_ascii c in
  ((65 <=? n)%nat && (n <=? 90)%nat) || ((48 <=? n)%nat && (n <=? 57)%nat).

Fixpoint all_upper_alnum (s : string) : bool :=
  match s with
  | EmptyString => true
  | String c s' => upper_alnum c && all_upper_alnum s'
  end.

Definition newline : ascii := ascii_of_nat 10.

(** [re.match(r'^[A-Z0-9]+$', s)]: one or more characters of the class,
    then the end of the string; Python's [$] also matches just before a
    final newline. *)
Fixpoint re_match_symbol (s : string) : bool :=
  match s with
  | EmptyString => false
  | String c s' =>
      upper_alnum c &&
      match s' with
      | EmptyString => true
      | String d EmptyString =>
          if Ascii.eqb d newline then true else upper_alnum d
      | _ => re_match_symbol s'
      end
  end.

(* ===================================================================== *)
(** ** Validator ([src/validator.py]) *)
(* ===================================================================== *)

Record ValidatorConfig : Type := {
  min_order_size : Q;
  max_order_size : Q;
  min_price : Q;
  max_price : Q;
  price_precision : Z;
  quantity_precision : Z
}.

(** The defaults of [OrderValidator.__init__]. *)
Definition default_validator_config : ValidatorConfig := {|
  min_order_size := 5;
  max_order_size := 100000;
  min_price := 0.01;
  max_price := 1000000;
  price_precision := 2;
  quantity_precision := 3
|}.

(** The result of a check: [(is_valid, error_message)]. *)
Definition check : Type := bool * option string.

Definition valid : check := (true, None).
Definition invalid (reason : string) : check := (false, Some reason).

Definition validate_symbol (symbol : string) : check :=
  if String.eqb symbol "" then invalid "Symbol cannot be empty"
  else if negb (re_match_symbol symbol) then
    invalid "Symbol must contain only uppercase letters and numbers"
  else if negb (endswith symbol "USDT") then
    invalid "Symbol must end with USDT for USDT-M futures"
  else if (String.length symbol <? 6)%nat then invalid "Symbol too short"
  else valid.

Section Validator.

Variable cfg : ValidatorConfig.

Definition validate_quantity (quantity : Q) (price : option Q) : check :=
  if Qleb quantity 0 then invalid "Quantity must be greater than 0"
  else
    match price with
    | Some p =>
        let notional_value := (quantity * p)%Q in
        if Qltb notional_value (min_order_size cfg) then
          invalid "Order value ({notional_value:.2f} USDT) below minimum ({self.min_order_size} USDT)"
        else if Qltb (max_order_size cfg) notional_value then
          invalid "Order value ({notional_value:.2f} USDT) exceeds maximum ({self.max_order_size} USDT)"
        else valid
    | None => valid
    end.

Definition validate_price (price : Q) : check :=
  if Qleb price 0 then invalid "Price must be greater than 0"
  else if Qltb price (min_price cfg) then
    invalid "Price ({price}) below minimum ({self.min_price})"
  else if Qltb (max_price cfg) price then
    invalid "Price ({price}) exceeds maximum ({self.max_price})"
  else valid.

Definition validate_side (side : string) : check :=
  let side_upper := upper side in
  if negb (String.eqb side_upper "BUY" || String.eqb side_upper "SELL") then
    invalid "Side must be one of {valid_sides}"
  else valid.

Definition validate_time_in_force (time_in_force : string) : check :=
  let tif_upper := upper time_in_force in
  if negb (String.eqb tif_upper "GTC" || String.eqb tif_upper "IOC"
           || String.eqb tif_upper "FOK") then
    invalid "Time in force must be one of {valid_tif}"
  else valid.

Definition validate_grid_parameters
    (lower_price upper_price : Q) (grid_levels : Z) : check :=
  match validate_price lower_price with
  | (false, _) => invalid "Lower price invalid: {error}"
  | (true, _) =>
      match validate_price upper_price with
      | (false, _) => invalid "Upper price invalid: {error}"
      | (true, _) =>
          if Qleb upper_price lower_price then
            invalid "Upper price must be greater than lower price"
          else if (grid_levels <? 2)%Z then
            invalid "Grid levels must be at least 2"
          else if (100 <? grid_levels)%Z then
            invalid "Grid levels cannot exceed 100"
          else valid
      end
  end.

Definition validate_twap_parameters
    (total_quantity : Q) (chunks interval_seconds : Z) : check :=
  match validate_quantity total_quantity None with
  | (false, error) => (false, error)
  | (true, _) =>
      if (chunks <? 2)%Z then invalid "TWAP must have at least 2 chunks"
      else if (100 <? chunks)%Z then invalid "TWAP chunks cannot exceed 100"
      else if (interval_seconds <? 1)%Z then
        invalid "Interval must be at least 1 second"
      else if (3600 <? interval_seconds)%Z then
        invalid "Interval cannot exceed 1 hour (3600 seconds)"
      else
        let chunk_size := (total_quantity / inject_Z chunks)%Q in
        if Qleb chunk_size 0 then invalid "Chunk size too small"
        else valid
  end.

Definition format_price (price : Q) : Q :=
  py_round price (price_precision cfg).

Definition format_quantity (quantity : Q) : Q :=
  py_round quantity (quantity_precision cfg).

End Validator.

(* ===================================================================== *)
(** ** The world: exchange calls, log, exceptions *)
(* ===================================================================== *)

Inductive exn : Type :=
| BinanceAPIException (code : Z) (message : string)
| KeyError (key : string)
| TypeError
| ValueError
| OtherError.

Inductive outcome (A : Type) : Type :=
| Done (a : A)
| Raised (e : exn).
Arguments Done {A} a.
Arguments Raised {A} e.

(** The effects the engine has on the outside. *)
Inductive call : Type :=
| CreateOrder (params : pydict)
| CancelOrder (symbol : string) (orderId : pyval)
| SymbolTicker (symbol : string)
| Sleep (seconds : Z).

Inductive level : Type := DEBUG | INFO | WARNING | ERROR.

Record World : Type := {
  calls : list call;
  log : list (level * string)
}.

(** The exchange client: each operation answers from the calls issued
    before it, with a response or an exception. *)
Record Client : Type := {
  futures_create_order : list call -> pydict -> outcome pydict;
  futures_cancel_order : list call -> string -> pyval -> outcome pydict;
  futures_symbol_ticker : list call -> string -> outcome pydict
}.

(** Computations over a state [S] that may raise. *)
Definition M (S A : Type) : Type := S -> outcome A * S.

Definition ret {S A : Type} (a : A) : M S A := fun s => (Done a, s).

Definition raise {S A : Type} (e : exn) : M S A := fun s => (Raised e, s).

Definition bind {S A B : Type} (m : M S A) (k : A -> M S B) : M S B :=
  fun s =>
    match m s with
    | (Done a, s') => k a s'
    | (Raised e, s') => (Raised e, s')
    end.

Definition try_except {S A : Type} (body : M S A) (handler : exn -> M S A)
    : M S A :=
  fun s =>
    match body s with
    | (Done a, s') => (Done a, s')
    | (Raised e, s') => handler e s'
    end.

Declare Scope M_scope.
Delimit Scope M_scope with M.
Notation "x ← y ; z" := (bind y (fun x => z))
  (at level 20, y at level 100, z at level 200, only parsing) : M_scope.
Notation "x ;; z" := (bind x (fun _ => z))
  (at level 100, z at level 200, only parsing, right associativity) : M_scope.

Definition get {S : Type} : M S S := fun s => (Done s, s).
Definition put {S : Type} (s : S) : M S unit := fun _ => (Done tt, s).

(** Sequencing of computations that touch no state. *)
Definition and_then {A B : Type} (o : outcome A) (k : A -> outcome B)
    : outcome B :=
  match o with
  | Done a => k a
  | Raised e => Raised e
  end.

(** A computation that touches no state, run inside [M]. *)
Definition pure {S A : Type} (o : outcome A) : M S A := fun s => (o, s).

(** Lift an [option] whose [None] stands for the exception [e]. *)
Definition or_raise {S A : Type} (o : option A) (e : exn) : M S A :=
  match o with
  | Some a => ret a
  | None => raise e
  end.

(** [d[key]]. *)
Definition dict_item {S : Type} (d : pydict) (key : string) : M S pyval :=
  or_raise (d !! key) (KeyError key).

(* ===================================================================== *)
(** ** Logger and client operations on the world *)
(* ===================================================================== *)

Definition logger (l : level) (text : string) : M World unit :=
  fun w => (Done tt, {| calls := calls w; log := log w ++ [(l, text)] |}).

(** [log_order]: an INFO record naming action, order type and symbol. *)
Definition log_order (action order_type symbol : string) : M World unit :=
  logger INFO ("[" ++ action ++ "] " ++ order_type ++ " | " ++ symbol).

(** [log_error_trace]: an ERROR record naming the context. *)
Definition log_error_trace (context : string) : M World unit :=
  logger ERROR ("Error in " ++ context).

(** [log_api_call]: DEBUG on success, WARNING otherwise. *)
Definition log_api_call (endpoint method status : string) : M World unit :=
  logger (if String.eqb status "SUCCESS" then DEBUG else WARNING)
         ("[API] " ++ method ++ " " ++ endpoint ++ " | Status: " ++ status).

(** Issue [c] to the exchange: the answer is computed from the calls made
    so far, and [c] is recorded. *)
Definition perform {A : Type} (c : call) (answer : list call -> outcome A)
    : M World A :=
  fun w => (answer (calls w), {| calls := calls w ++ [c]; log := log w |}).

(** [time.sleep(seconds)]. *)
Definition sleep (seconds : Z) : M World unit :=
  perform (Sleep seconds) (fun _ => Done tt).

(** Run [m] on the world component of a state that also holds the local
    variables of a loop. *)
Definition in_world {L A : Type} (m : M World A) : M (World * L) A :=
  fun s =>
    match m (fst s) with
    | (r, w') => (r, (w', snd s))
    end.

Definition locals {L : Type} : M (World * L) L := fun s => (Done (snd s), s).

Definition set_locals {L : Type} (l : L) : M (World * L) unit :=
  fun s => (Done tt, (fst s, l)).

(** [for x in xs: body(x)]; an exception leaves the loop. *)
Fixpoint for_each {S A : Type} (xs : list A) (body : A -> M S unit)
    : M S unit :=
  match xs with
  | [] => ret tt
  | x :: xs' => bind (body x) (fun _ => for_each xs' body)
  end.

(** The [twap] and [grid] entries of the execution configuration. *)
Record TwapConfig : Type := {
  default_chunks : Z;
  default_interval : Z
}.

Record GridConfig : Type := {
  default_grid_levels : Z;
  min_spacing : Q;
  max_spacing : Q
}.

Definition default_twap_config : TwapConfig :=
  {| default_chunks := 5; default_interval := 60 |}.

Definition default_grid_config : GridConfig :=
  {| default_grid_levels := 10; min_spacing := 0.5; max_spacing := 5 |}.

(** Local variables of the TWAP loop. *)
Record TwapLocals : Type := {
  chunk_size : Q;
  executed_orders : list pydict
}.

(** The dictionary returned by [create_grid_orders]. *)
Record GridResult : Type := {
  gr_symbol : string;
  gr_mode : string;
  gr_grid_levels : Z;
  gr_lower_price : Q;
  gr_upper_price : Q;
  gr_current_price : Q;
  gr_grid_prices : list Q;
  gr_buy_orders : list pydict;
  gr_sell_orders : list pydict;
  gr_total_orders : Z
}.

Section Engine.

Variable cl : Client.
Variable cfg : ValidatorConfig.
Variable tcfg : TwapConfig.
Variable gcfg : GridConfig.

(** [float(s)] on a [str]: [None] when Python raises [ValueError]. *)
Variable float_of_str : string -> option Q.

Local Open Scope M_scope.

(** [float(v)]. *)
Definition py_float (v : pyval) : outcome Q :=
  match v with
  | VFloat q => Done q
  | VInt z => Done (inject_Z z)
  | VBool b => Done (if b then 1%Q else 0%Q)
  | VStr s =>
      match float_of_str s with
      | Some q => Done q
      | None => Raised ValueError
      end
  | VNone => Raised TypeError
  end.

Definition client_create_order (params : pydict) : M World pydict :=
  perform (CreateOrder params) (fun h => futures_create_order cl h params).

Definition client_cancel_order (symbol : string) (orderId : pyval)
    : M World pydict :=
  perform (CancelOrder symbol orderId)
          (fun h => futures_cancel_order cl h symbol orderId).

Definition client_symbol_ticker (symbol : string) : M World pydict :=
  perform (SymbolTicker symbol) (fun h => futures_symbol_ticker cl h symbol).

(* ------------------------------------------------------------------- *)
(** *** [MarketOrderExecutor] ([src/market_orders.py]) *)
(* ------------------------------------------------------------------- *)

Definition market_order_params
    (symbol side : string) (quantity : Q) (reduce_only : bool) : pydict :=
  list_to_map [("symbol", VStr symbol); ("side", VStr (upper side));
               ("type", VStr "MARKET"); ("quantity", VFloat quantity);
               ("reduceOnly", VBool reduce_only)].

Definition place_market_order
    (symbol side : string) (quantity : Q) (reduce_only : bool)
    : M World (option pydict) :=
  if negb (fst (validate_symbol symbol)) then
    logger ERROR "Invalid symbol: {error}";; ret None
  else if negb (fst (validate_side side)) then
    logger ERROR "Invalid side: {error}";; ret None
  else if negb (fst (validate_quantity cfg quantity None)) then
    logger ERROR "Invalid quantity: {error}";; ret None
  else
    let quantity := format_quantity cfg quantity in
    try_except
      (log_order "PLACING" "MARKET" symbol;;
       order ← client_create_order
                 (market_order_params symbol side quantity reduce_only);
       log_order "PLACED" "MARKET" symbol;;
       log_api_call "/fapi/v1/order" "POST" "SUCCESS";;
       ret (Some order))
      (fun e =>
         match e with
         | BinanceAPIException _ _ =>
             log_error_trace "place_market_order";;
             log_api_call "/fapi/v1/order" "POST" "FAILED";;
             ret None
         | _ => log_error_trace "place_market_order";; ret None
         end).

Definition limit_order_params
    (symbol side : string) (quantity price : Q) (time_in_force : string)
    (reduce_only post_only : bool) : pydict :=
  let order_params : pydict :=
    list_to_map [("symbol", VStr symbol); ("side", VStr (upper side));
                 ("type", VStr "LIMIT"); ("quantity", VFloat quantity);
                 ("price", VFloat price);
                 ("timeInForce", VStr (upper time_in_force));
                 ("reduceOnly", VBool reduce_only)] in
  if post_only then <["postOnly" := VBool true]> order_params
  else order_params.

Definition place_limit_order
    (symbol side : string) (quantity price : Q) (time_in_force : string)
    (reduce_only post_only : bool) : M World (option pydict) :=
  if negb (fst (validate_symbol symbol)) then
    logger ERROR "Invalid symbol: {error}";; ret None
  else if negb (fst (validate_side side)) then
    logger ERROR "Invalid side: {error}";; ret None
  else if negb (fst (validate_price cfg price)) then
    logger ERROR "Invalid price: {error}";; ret None
  else if negb (fst (validate_quantity cfg quantity (Some price))) then
    logger ERROR "Invalid quantity: {error}";; ret None
  else if negb (fst (validate_time_in_force time_in_force)) then
    logger ERROR "Invalid time in force: {error}";; ret None
  else
    let price := format_price cfg price in
    let quantity := format_quantity cfg quantity in
    try_except
      (log_order "PLACING" "LIMIT" symbol;;
       order ← client_create_order
                 (limit_order_params symbol side quantity price
                    time_in_force reduce_only post_only);
       log_order "PLACED" "LIMIT" symbol;;
       log_api_call "/fapi/v1/order" "POST" "SUCCESS";;
       ret (Some order))
      (fun e =>
         match e with
         | BinanceAPIException _ _ =>
             log_error_trace "place_limit_order";;
             log_api_call "/fapi/v1/order" "POST" "FAILED";;
             ret None
         | _ => log_error_trace "place_limit_order";; ret None
         end).

Definition cancel_order (symbol : string) (order_id : pyval)
    : M World bool :=
  try_except
    (logger INFO "Cancelling order {order_id} for {symbol}";;
     _ ← client_cancel_order symbol order_id;
     logger INFO "Order {order_id} cancelled successfully";;
     log_api_call "/fapi/v1/order" "DELETE" "SUCCESS";;
     ret true)
    (fun e =>
       match e with
       | BinanceAPIException _ _ =>
           log_error_trace "cancel_order";;
           log_api_call "/fapi/v1/order" "DELETE" "FAILED";;
           ret false
       | _ => log_error_trace "cancel_order";; ret false
       end).

(* ------------------------------------------------------------------- *)
(** *** [LimitOrderExecutor] ([src/limit_orders.py]) *)
(* ------------------------------------------------------------------- *)

Definition stop_market_order_params
    (symbol side : string) (quantity stop_price : Q) (reduce_only : bool)
    : pydict :=
  list_to_map [("symbol", VStr symbol); ("side", VStr (upper side));
               ("type", VStr "STOP_MARKET"); ("quantity", VFloat quantity);
               ("stopPrice", VFloat stop_price);
               ("reduceOnly", VBool reduce_only)].

Definition place_stop_market_order
    (symbol side : string) (quantity stop_price : Q) (reduce_only : bool)
    : M World (option pydict) :=
  if negb (fst (validate_symbol symbol)) then
    logger ERROR "Invalid symbol: {error}";; ret None
  else if negb (fst (validate_side side)) then
    logger ERROR "Invalid side: {error}";; ret None
  else if negb (fst (validate_price cfg stop_price)) then
    logger ERROR "Invalid stop price: {error}";; ret None
  else if negb (fst (validate_quantity cfg quantity None)) then
    logger ERROR "Invalid quantity: {error}";; ret None
  else
    let stop_price := format_price cfg stop_price in
    let quantity := format_quantity cfg quantity in
    try_except
      (log_order "PLACING" "STOP_MARKET" symbol;;
       order ← client_create_order
                 (stop_market_order_params symbol side quantity stop_price
                    reduce_only);
       log_order "PLACED" "STOP_MARKET" symbol;;
       ret (Some order))
      (fun _ => log_error_trace "place_stop_market_order";; ret None).

Definition take_profit_order_params
    (symbol side : string) (quantity stop_price : Q) (price : option Q)
    (reduce_only : bool) : pydict :=
  let order_type :=
    match price with None => "TAKE_PROFIT_MARKET" | Some _ => "TAKE_PROFIT" end in
  let order_params : pydict :=
    list_to_map [("symbol", VStr symbol); ("side", VStr (upper side));
                 ("type", VStr order_type); ("quantity", VFloat quantity);
                 ("stopPrice", VFloat stop_price);
                 ("reduceOnly", VBool reduce_only)] in
  match price with
  | Some p =>
      <["timeInForce" := VStr "GTC"]>
        (<["price" := VFloat (format_price cfg p)]> order_params)
  | None => order_params
  end.

Definition place_take_profit_order
    (symbol side : string) (quantity stop_price : Q) (price : option Q)
    (reduce_only : bool) : M World (option pydict) :=
  if negb (fst (validate_symbol symbol)) then
    logger ERROR "Invalid symbol: {error}";; ret None
  else if negb (fst (validate_side side)) then
    logger ERROR "Invalid side: {error}";; ret None
  else if negb (fst (validate_price cfg stop_price)) then
    logger ERROR "Invalid stop price: {error}";; ret None
  else if negb (fst (validate_quantity cfg quantity None)) then
    logger ERROR "Invalid quantity: {error}";; ret None
  else
    let stop_price := format_price cfg stop_price in
    let quantity := format_quantity cfg quantity in
    try_except
      (let order_type :=
         match price with
         | None => "TAKE_PROFIT_MARKET"
         | Some _ => "TAKE_PROFIT"
         end in
       log_order "PLACING" order_type symbol;;
       order ← client_create_order
                 (take_profit_order_params symbol side quantity stop_price
                    price reduce_only);
       log_order "PLACED" order_type symbol;;
       ret (Some order))
      (fun _ => log_error_trace "place_take_profit_order";; ret None).

(* ------------------------------------------------------------------- *)
(** *** [OCOOrderExecutor] ([src/advanced/oco.py]) *)
(* ------------------------------------------------------------------- *)

(** The two placements of [place_oco_order] (its [try] block). *)
Definition place_oco_legs
    (symbol side : string) (quantity take_profit_price stop_loss_price : Q)
    : M World (option (pydict * pydict)) :=
  try_except
    (logger INFO "Placing OCO order for {symbol}: TP={take_profit_price}, SL={stop_loss_price}";;
     tp_order ← place_take_profit_order symbol side quantity
                  take_profit_price None true;
     match if_truthy tp_order with
     | None =>
         logger ERROR "Failed to place take profit order";; ret None
     | Some tp_order =>
         sl_order ← place_stop_market_order symbol side quantity
                      stop_loss_price true;
         match if_truthy sl_order with
         | None =>
             logger ERROR "Failed to place stop loss order, cancelling take profit";;
             tp_id ← dict_item tp_order "orderId";
             cancel_order symbol tp_id;;
             ret None
         | Some sl_order =>
             dict_item tp_order "orderId";;
             dict_item sl_order "orderId";;
             logger INFO "OCO order placed successfully: TP Order ID: {tp_order['orderId']}, SL Order ID: {sl_order['orderId']}";;
             ret (Some (tp_order, sl_order))
         end
     end)
    (fun _ => log_error_trace "place_oco_order";; ret None).

Definition place_oco_order
    (symbol side : string) (quantity take_profit_price stop_loss_price : Q)
    : M World (option (pydict * pydict)) :=
  if negb (fst (validate_symbol symbol)) then
    logger ERROR "Invalid symbol: {error}";; ret None
  else if negb (fst (validate_side side)) then
    logger ERROR "Invalid side: {error}";; ret None
  else if negb (fst (validate_quantity cfg quantity None)) then
    logger ERROR "Invalid quantity: {error}";; ret None
  else if negb (fst (validate_price cfg take_profit_price)) then
    logger ERROR "Invalid take profit price: {error}";; ret None
  else if negb (fst (validate_price cfg stop_loss_price)) then
    logger ERROR "Invalid stop loss price: {error}";; ret None
  else
    let side_upper := upper side in
    if String.eqb side_upper "SELL" then
      if Qleb take_profit_price stop_loss_price then
        logger ERROR "For SELL orders: take profit must be above stop loss";;
        ret None
      else
        place_oco_legs symbol side quantity take_profit_price stop_loss_price
    else
      if Qleb stop_loss_price take_profit_price then
        logger ERROR "For BUY orders: stop loss must be above take profit";;
        ret None
      else
        place_oco_legs symbol side quantity take_profit_price stop_loss_price.

(* ------------------------------------------------------------------- *)
(** *** [TWAPExecutor] ([src/advanced/twap.py]) *)
(* ------------------------------------------------------------------- *)

(** [sum(float(v) for v in vs)]. *)
Fixpoint sum_floats (acc : Q) (vs : list pyval) : outcome Q :=
  match vs with
  | [] => Done acc
  | v :: vs' => and_then (py_float v) (fun q => sum_floats (acc + q)%Q vs')
  end.

Definition executed_qtys (orders : list pydict) : list pyval :=
  map (fun order => dict_get order "executedQty" (VInt 0)) orders.

(** The loop of [_calculate_average_price], on [(total_qty, total_value)].
    The totals are exact sums here; the code's carry the rounding error of
    float addition and multiplication, so nothing below is stated about
    their exact value. *)
Fixpoint average_price_loop
    (orders : list pydict) (total_qty total_value : Q) : outcome (Q * Q) :=
  match orders with
  | [] => Done (total_qty, total_value)
  | order :: rest =>
      and_then (py_float (dict_get order "executedQty" (VInt 0))) (fun qty =>
      and_then (py_float (dict_get order "avgPrice" (VInt 0))) (fun price =>
      average_price_loop rest (total_qty + qty)%Q
                         (total_value + qty * price)%Q))
  end.

Definition calculate_average_price (orders : list pydict) : outcome Q :=
  and_then (average_price_loop orders 0%Q 0%Q) (fun totals =>
  let '(total_qty, total_value) := totals in
  if Qltb 0 total_qty then Done (total_value / total_qty)%Q else Done 0%Q).

Definition append_order (order : pydict) : M (World * TwapLocals) unit :=
  l ← locals;
  set_locals {| chunk_size := chunk_size l;
                executed_orders := executed_orders l ++ [order] |}.

Definition set_chunk_size (q : Q) : M (World * TwapLocals) unit :=
  l ← locals;
  set_locals {| chunk_size := q; executed_orders := executed_orders l |}.

(** One iteration of the loop of [execute_twap_order]. *)
Definition twap_chunk
    (symbol side : string) (total_quantity : Q) (chunks interval_seconds : Z)
    (use_limit : bool) (limit_offset_percent : Q) (i : Z)
    : M (World * TwapLocals) unit :=
  (if (i =? chunks - 1)%Z then
     l ← locals;
     executed_qty ← or_raise (py_sum (executed_qtys (executed_orders l)))
                      TypeError;
     set_chunk_size
       (format_quantity cfg (total_quantity - pynum_to_Q executed_qty)%Q)
   else ret tt);;
  l ← locals;
  in_world (logger INFO "Executing TWAP chunk {i+1}/{chunks}: {chunk_size} {symbol}");;
  order ← (if use_limit then
             ticker ← in_world (client_symbol_ticker symbol);
             ticker_price ← dict_item ticker "price";
             current_price ← pure (py_float ticker_price);
             let limit_price :=
               if String.eqb (upper side) "BUY" then
                 (current_price * (1 - limit_offset_percent / 100))%Q
               else
                 (current_price * (1 + limit_offset_percent / 100))%Q in
             let limit_price := format_price cfg limit_price in
             in_world (place_limit_order symbol side (chunk_size l)
                         limit_price "IOC" false false)
           else
             in_world (place_market_order symbol side (chunk_size l) false));
  match if_truthy order with
  | Some order =>
      append_order order;;
      dict_item order "orderId";;
      dict_item order "status";;
      in_world (logger INFO "TWAP chunk {i+1}/{chunks} executed: Order ID: {order['orderId']}, Status: {order['status']}")
  | None =>
      in_world (logger ERROR "Failed to execute TWAP chunk {i+1}/{chunks}")
  end;;
  if (i <? chunks - 1)%Z then
    in_world (logger DEBUG "Waiting {interval_seconds}s before next chunk");;
    in_world (sleep interval_seconds)
  else ret tt.

(** [return executed_orders if executed_orders else None]. *)
Definition orders_or_none (orders : list pydict) : option (list pydict) :=
  match orders with
  | [] => None
  | _ => Some orders
  end.

(** Run a loop with its local variables, starting from [init]. *)
Definition with_locals {L A : Type} (init : L) (m : M (World * L) A)
    : M World A :=
  fun w =>
    match m (w, init) with
    | (r, (w', _)) => (r, w')
    end.

Definition execute_twap_order
    (symbol side : string) (total_quantity : Q)
    (chunks interval_seconds : option Z)
    (use_limit : bool) (limit_offset_percent : Q)
    : M World (option (list pydict)) :=
  let chunks := int_or chunks (default_chunks tcfg) in
  let interval_seconds := int_or interval_seconds (default_interval tcfg) in
  if negb (fst (validate_twap_parameters cfg total_quantity chunks
                  interval_seconds)) then
    logger ERROR "Invalid TWAP parameters: {error}";; ret None
  else if negb (fst (validate_symbol symbol)) then
    logger ERROR "Invalid symbol: {error}";; ret None
  else if negb (fst (validate_side side)) then
    logger ERROR "Invalid side: {error}";; ret None
  else
    let chunk_size := format_quantity cfg (total_quantity / inject_Z chunks) in
    logger INFO "Starting TWAP execution: {symbol} {side} Total: {total_quantity}, Chunks: {chunks}, Chunk Size: {chunk_size}, Interval: {interval_seconds}s";;
    with_locals {| chunk_size := chunk_size; executed_orders := [] |}
      (try_except
         (for_each (range chunks)
            (twap_chunk symbol side total_quantity chunks interval_seconds
               use_limit limit_offset_percent);;
          l ← locals;
          pure (sum_floats 0%Q (executed_qtys (executed_orders l)));;
          pure (calculate_average_price (executed_orders l));;
          in_world (logger INFO "TWAP execution completed: Executed {total_executed}/{total_quantity}, Average Price: {avg_price:.2f}, Orders: {len(executed_orders)}/{chunks}");;
          ret (Some (executed_orders l)))
         (fun _ =>
            in_world (log_error_trace "execute_twap_order");;
            l ← locals;
            ret (orders_or_none (executed_orders l)))).

(** One iteration of the loop of [execute_twap_order_async]. *)
Definition twap_chunk_async
    (symbol side : string) (total_quantity : Q) (chunks interval_seconds : Z)
    (i : Z) : M (World * TwapLocals) unit :=
  (if (i =? chunks - 1)%Z then
     l ← locals;
     executed_qty ← pure (sum_floats 0%Q (executed_qtys (executed_orders l)));
     set_chunk_size (format_quantity cfg (total_quantity - executed_qty)%Q)
   else ret tt);;
  l ← locals;
  order ← in_world (place_market_order symbol side (chunk_size l) false);
  match if_truthy order with
  | Some order => append_order order
  | None => ret tt
  end;;
  if (i <? chunks - 1)%Z then in_world (sleep interval_seconds) else ret tt.

Definition execute_twap_order_async
    (symbol side : string) (total_quantity : Q)
    (chunks interval_seconds : option Z)
    : M World (option (list pydict)) :=
  let chunks := int_or chunks (default_chunks tcfg) in
  let interval_seconds := int_or interval_seconds (default_interval tcfg) in
  if negb (fst (validate_twap_parameters cfg total_quantity chunks
                  interval_seconds)) then
    logger ERROR "Invalid TWAP parameters: {error}";; ret None
  else
    let chunk_size := format_quantity cfg (total_quantity / inject_Z chunks) in
    logger INFO "Starting async TWAP: {chunks} chunks of {chunk_size} every {interval_seconds}s";;
    with_locals {| chunk_size := chunk_size; executed_orders := [] |}
      (try_except
         (for_each (range chunks)
            (twap_chunk_async symbol side total_quantity chunks
               interval_seconds);;
          l ← locals;
          ret (Some (executed_orders l)))
         (fun _ =>
            in_world (log_error_trace "execute_twap_order_async");;
            l ← locals;
            ret (orders_or_none (executed_orders l)))).

(** [[float(order.get('avgPrice', 0)) for order in orders
      if order.get('avgPrice')]]. *)
Fixpoint observed_prices (orders : list pydict) : outcome (list Q) :=
  match orders with
  | [] => Done []
  | order :: rest =>
      if pyval_truthy (dict_get order "avgPrice" VNone) then
        and_then (py_float (dict_get order "avgPrice" (VInt 0))) (fun p =>
        and_then (observed_prices rest) (fun ps => Done (p :: ps)))
      else observed_prices rest
  end.

Definition Qmin_list (p : Q) (ps : list Q) : Q :=
  fold_left (fun a b => if Qltb b a then b else a) ps p.

Definition Qmax_list (p : Q) (ps : list Q) : Q :=
  fold_left (fun a b => if Qltb a b then b else a) ps p.

(** [get_twap_summary].  As for the average price, [total_quantity],
    [average_price], [price_range] and [total_value] are exact here and
    carry float rounding error in the code; [min_price] and [max_price] are
    selected, not computed. *)
Definition get_twap_summary (orders : list pydict) : outcome pydict :=
  match orders with
  | [] => Done ∅
  | _ =>
      and_then (sum_floats 0%Q (executed_qtys orders)) (fun total_qty =>
      and_then (calculate_average_price orders) (fun avg_price =>
      and_then (observed_prices orders) (fun prices =>
      let '(min_price, max_price, price_range) :=
        match prices with
        | [] => (VInt 0, VInt 0, VInt 0)
        | p :: ps =>
            (VFloat (Qmin_list p ps), VFloat (Qmax_list p ps),
             VFloat (Qmax_list p ps - Qmin_list p ps)%Q)
        end in
      Done (list_to_map
              [("total_orders", VInt (Z.of_nat (length orders)));
               ("total_quantity", VFloat total_qty);
               ("average_price", VFloat avg_price);
               ("min_price", min_price);
               ("max_price", max_price);
               ("price_range", price_range);
               ("total_value", VFloat (total_qty * avg_price)%Q)]))))
  end.

(* ------------------------------------------------------------------- *)
(** *** [GridTradingExecutor] ([src/advanced/grid_strategy.py]) *)
(* ------------------------------------------------------------------- *)

(** [order = place_limit_order(...); if order: orders.append(order)]. *)
Definition place_grid_order
    (symbol side : string) (qty_per_level price : Q) (orders : list pydict)
    : M World (list pydict) :=
  order ← place_limit_order symbol side qty_per_level price "GTC" false true;
  match if_truthy order with
  | Some order => ret (orders ++ [order])
  | None => ret orders
  end.

(** The loop of mode ['neutral'], on [(buy_orders, sell_orders)]. *)
Fixpoint grid_neutral
    (symbol : string) (qty_per_level current_price : Q)
    (grid_prices : list Q) (buy_orders sell_orders : list pydict)
    : M World (list pydict * list pydict) :=
  match grid_prices with
  | [] => ret (buy_orders, sell_orders)
  | price :: rest =>
      if Qltb price current_price then
        buy_orders ← place_grid_order symbol "BUY" qty_per_level price
                       buy_orders;
        grid_neutral symbol qty_per_level current_price rest
                     buy_orders sell_orders
      else if Qltb current_price price then
        sell_orders ← place_grid_order symbol "SELL" qty_per_level price
                        sell_orders;
        grid_neutral symbol qty_per_level current_price rest
                     buy_orders sell_orders
      else
        grid_neutral symbol qty_per_level current_price rest
                     buy_orders sell_orders
  end.

(** The loop of mode ['long']. *)
Fixpoint grid_long
    (symbol : string) (qty_per_level current_price : Q)
    (grid_prices : list Q) (buy_orders : list pydict)
    : M World (list pydict) :=
  match grid_prices with
  | [] => ret buy_orders
  | price :: rest =>
      if Qleb price current_price then
        buy_orders ← place_grid_order symbol "BUY" qty_per_level price
                       buy_orders;
        grid_long symbol qty_per_level current_price rest buy_orders
      else grid_long symbol qty_per_level current_price rest buy_orders
  end.

(** The loop of mode ['short']. *)
Fixpoint grid_short
    (symbol : string) (qty_per_level current_price : Q)
    (grid_prices : list Q) (sell_orders : list pydict)
    : M World (list pydict) :=
  match grid_prices with
  | [] => ret sell_orders
  | price :: rest =>
      if Qleb current_price price then
        sell_orders ← place_grid_order symbol "SELL" qty_per_level price
                        sell_orders;
        grid_short symbol qty_per_level current_price rest sell_orders
      else grid_short symbol qty_per_level current_price rest sell_orders
  end.

(** [grid_prices]: the price of every level, formatted. *)
Definition generate_grid_prices
    (lower_price grid_spacing : Q) (grid_levels : Z) : list Q :=
  map (fun i => format_price cfg (lower_price + inject_Z i * grid_spacing)%Q)
      (range grid_levels).

Definition place_grid_by_mode
    (symbol mode : string) (qty_per_level current_price : Q)
    (grid_prices : list Q) : M World (list pydict * list pydict) :=
  if String.eqb mode "neutral" then
    grid_neutral symbol qty_per_level current_price grid_prices [] []
  else if String.eqb mode "long" then
    buy_orders ← grid_long symbol qty_per_level current_price grid_prices [];
    ret (buy_orders, [])
  else if String.eqb mode "short" then
    sell_orders ← grid_short symbol qty_per_level current_price
                    grid_prices [];
    ret ([], sell_orders)
  else ret ([], []).

Definition create_grid_orders
    (symbol : string) (lower_price upper_price total_quantity : Q)
    (grid_levels : option Z) (mode : string)
    : M World (option GridResult) :=
  let grid_levels := int_or grid_levels (default_grid_levels gcfg) in
  if negb (fst (validate_grid_parameters cfg lower_price upper_price
                  grid_levels)) then
    logger ERROR "Invalid grid parameters: {error}";; ret None
  else if negb (fst (validate_symbol symbol)) then
    logger ERROR "Invalid symbol: {error}";; ret None
  else
    let price_range := (upper_price - lower_price)%Q in
    let grid_spacing := (price_range / inject_Z (grid_levels - 1))%Q in
    let spacing_percent := (grid_spacing / lower_price * 100)%Q in
    if Qltb spacing_percent (min_spacing gcfg) then
      logger ERROR "Grid spacing ({spacing_percent:.2f}%) below minimum ({self.min_spacing}%)";;
      ret None
    else
      (if Qltb (max_spacing gcfg) spacing_percent then
         logger WARNING "Grid spacing ({spacing_percent:.2f}%) above recommended maximum ({self.max_spacing}%)"
       else ret tt);;
      let qty_per_level :=
        format_quantity cfg (total_quantity / inject_Z grid_levels) in
      logger INFO "Creating grid for {symbol}: Range: {lower_price}-{upper_price}, Levels: {grid_levels}, Spacing: {grid_spacing:.2f} ({spacing_percent:.2f}%), Qty/Level: {qty_per_level}";;
      let grid_prices :=
        generate_grid_prices lower_price grid_spacing grid_levels in
      fetched ← try_except
                  (ticker ← client_symbol_ticker symbol;
                   ticker_price ← dict_item ticker "price";
                   current_price ← pure (py_float ticker_price);
                   logger INFO "Current price: {current_price}";;
                   ret (Some current_price))
                  (fun _ => log_error_trace "get_current_price";; ret None);
      match fetched with
      | None => ret None
      | Some current_price =>
          try_except
            (placed ← place_grid_by_mode symbol mode qty_per_level
                        current_price grid_prices;
             let '(buy_orders, sell_orders) := placed in
             logger INFO "Grid created: {len(buy_orders)} buy orders, {len(sell_orders)} sell orders";;
             ret (Some {|
               gr_symbol := symbol;
               gr_mode := mode;
               gr_grid_levels := grid_levels;
               gr_lower_price := lower_price;
               gr_upper_price := upper_price;
               gr_current_price := current_price;
               gr_grid_prices := grid_prices;
               gr_buy_orders := buy_orders;
               gr_sell_orders := sell_orders;
               gr_total_orders :=
                 Z.of_nat (length buy_orders + length sell_orders)
             |}))
            (fun _ => log_error_trace "create_grid_orders";; ret None)
      end.

End Engine.

(* ===================================================================== *)
(** ** The rest of the validator and of the order executors *)
(* ===================================================================== *)

Section ValidatorRest.

Variable cfg : ValidatorConfig.

Definition validate_order_type (order_type : string) : check :=
  let valid_types :=
    ["MARKET"; "LIMIT"; "STOP"; "STOP_MARKET"; "TAKE_PROFIT";
     "TAKE_PROFIT_MARKET"] in
  let order_type_upper := upper order_type in
  if negb (existsb (String.eqb order_type_upper) valid_types) then
    invalid "Order type must be one of {valid_types}"
  else valid.

(** [max_leverage] defaults to 125. *)
Definition validate_leverage (leverage max_leverage : Z) : check :=
  if (leverage <? 1)%Z then invalid "Leverage must be at least 1"
  else if (max_leverage <? leverage)%Z then
    invalid "Leverage ({leverage}) exceeds maximum ({max_leverage})"
  else valid.

Definition validate_stop_price (stop_price current_price : Q) (side : string)
    : check :=
  match validate_price cfg stop_price with
  | (false, error) => (false, error)
  | (true, _) =>
      let side_upper := upper side in
      if String.eqb side_upper "BUY" && Qleb stop_price current_price then
        invalid "Stop price ({stop_price}) must be above current price ({current_price}) for BUY orders"
      else if String.eqb side_upper "SELL" && Qleb current_price stop_price then
        invalid "Stop price ({stop_price}) must be below current price ({current_price}) for SELL orders"
      else valid
  end.

(** [min_pct] defaults to 0.1, [max_pct] to 100.0. *)
Definition validate_percentage (percentage min_pct max_pct : Q) : check :=
  if Qltb percentage min_pct then
    invalid "Percentage ({percentage}%) below minimum ({min_pct}%)"
  else if Qltb max_pct percentage then
    invalid "Percentage ({percentage}%) exceeds maximum ({max_pct}%)"
  else valid.

End ValidatorRest.

Section Operations.

Variable cl : Client.
Variable cfg : ValidatorConfig.

Local Open Scope M_scope.

(* ------------------------------------------------------------------- *)
(** *** [LimitOrderExecutor.place_stop_limit_order] *)
(* ------------------------------------------------------------------- *)

Definition stop_limit_order_params
    (symbol side : string) (quantity price stop_price : Q)
    (time_in_force : string) (reduce_only : bool) : pydict :=
  list_to_map [("symbol", VStr symbol); ("side", VStr (upper side));
               ("type", VStr "STOP"); ("quantity", VFloat quantity);
               ("price", VFloat price); ("stopPrice", VFloat stop_price);
               ("timeInForce", VStr (upper time_in_force));
               ("reduceOnly", VBool reduce_only)].

Definition place_stop_limit_order
    (symbol side : string) (quantity price stop_price : Q)
    (time_in_force : string) (reduce_only : bool)
    : M World (option pydict) :=
  if negb (fst (validate_symbol symbol)) then
    logger ERROR "Invalid symbol: {error}";; ret None
  else if negb (fst (validate_side side)) then
    logger ERROR "Invalid side: {error}";; ret None
  else if negb (fst (validate_price cfg price)) then
    logger ERROR "Invalid price: {error}";; ret None
  else if negb (fst (validate_price cfg stop_price)) then
    logger ERROR "Invalid stop price: {error}";; ret None
  else if negb (fst (validate_quantity cfg quantity (Some price))) then
    logger ERROR "Invalid quantity: {error}";; ret None
  else
    let price := format_price cfg price in
    let stop_price := format_price cfg stop_price in
    let quantity := format_quantity cfg quantity in
    try_except
      (log_order "PLACING" "STOP_LIMIT" symbol;;
       order ← client_create_order cl
                 (stop_limit_order_params symbol side quantity price
                    stop_price time_in_force reduce_only);
       log_order "PLACED" "STOP_LIMIT" symbol;;
       ret (Some order))
      (fun _ => log_error_trace "place_stop_limit_order";; ret None).

(* ------------------------------------------------------------------- *)
(** *** [OCOOrderExecutor.place_oco_with_entry] *)
(* ------------------------------------------------------------------- *)

(** The dictionary it returns maps each key to an order response or to
    [None]. *)
Definition place_oco_with_entry
    (symbol entry_side : string) (quantity : Q) (entry_price : option Q)
    (take_profit_price stop_loss_price : Q)
    : M World (option (gmap string (option pydict))) :=
  try_except
    (let exit_side :=
       if String.eqb (upper entry_side) "BUY" then "SELL" else "BUY" in
     entry_order ← match entry_price with
                   | None =>
                       place_market_order cl cfg symbol entry_side quantity
                         false
                   | Some price =>
                       place_limit_order cl cfg symbol entry_side quantity
                         price "GTC" false false
                   end;
     match if_truthy entry_order with
     | None => logger ERROR "Failed to place entry order";; ret None
     | Some entry_order =>
         dict_item entry_order "orderId";;
         logger INFO "Entry order placed: {entry_order['orderId']}";;
         oco_orders ← place_oco_order cl cfg symbol exit_side quantity
                        take_profit_price stop_loss_price;
         match oco_orders with
         | None =>
             logger WARNING "Failed to place OCO orders, but entry order is active";;
             ret (Some (<["entry_order" := Some entry_order]>
                          (<["oco_orders" := None]> ∅)))
         | Some (take_profit_order, stop_loss_order) =>
             ret (Some (<["entry_order" := Some entry_order]>
                          (<["take_profit_order" := Some take_profit_order]>
                             (<["stop_loss_order" := Some stop_loss_order]>
                                ∅))))
         end
     end)
    (fun _ => log_error_trace "place_oco_with_entry";; ret None).

End Operations.

(* ===================================================================== *)
(** ** Queries, monitoring and account operations *)
(* ===================================================================== *)


(** Everything the bot asks of the exchange: the order calls above, and
    the queries and account operations of the rest of the API. *)
Inductive request : Type :=
| OrderCall (c : call)
| GetOrder (symbol : string) (orderId : pyval)
| GetOpenOrders (symbol : option string)
| CancelAllOpenOrders (symbol : string)
| ChangeLeverage (symbol : string) (leverage : Z)
| PositionInformation (symbol : string)
| FuturesAccount.

(** The state of a session: the requests issued so far and the log. *)
Record Desk : Type := {
  requests : list request;
  journal : list (level * string)
}.

(** The whole exchange: each operation answers from the requests issued
    before it; [order_client h] is the order client as it answers once the
    requests [h] have been made. *)
Record Exchange : Type := {
  order_client : list request -> Client;
  futures_get_order : list request -> string -> pyval -> outcome pydict;
  futures_get_open_orders :
    list request -> option string -> outcome (list pydict);
  futures_cancel_all_open_orders : list request -> string -> outcome pydict;
  futures_change_leverage : list request -> string -> Z -> outcome pydict;
  futures_position_information :
    list request -> string -> outcome (list pydict);
  futures_account : list request -> outcome pydict
}.

(** Run an order operation in a session: its calls join the requests, its
    records the log. *)
Definition on_orders {A : Type} (ex : Exchange) (m : Client -> M World A)
    : M Desk A :=
  fun d =>
    match m (order_client ex (requests d))
            {| calls := []; log := journal d |} with
    | (r, w') =>
        (r, {| requests := requests d ++ map OrderCall (calls w');
               journal := log w' |})
    end.

(** Issue a request that is not an order call. *)
Definition ask {A : Type} (q : request) (answer : list request -> outcome A)
    : M Desk A :=
  fun d => (answer (requests d),
            {| requests := requests d ++ [q]; journal := journal d |}).

Definition desk_logger (l : level) (text : string) : M Desk unit :=
  fun d => (Done tt, {| requests := requests d;
                        journal := journal d ++ [(l, text)] |}).

Definition desk_log_error_trace (context : string) : M Desk unit :=
  desk_logger ERROR ("Error in " ++ context).

Definition desk_log_api_call (endpoint method status : string)
    : M Desk unit :=
  desk_logger (if String.eqb status "SUCCESS" then DEBUG else WARNING)
              ("[API] " ++ method ++ " " ++ endpoint ++ " | Status: " ++ status).

(** [v == 'FILLED']. *)
Definition is_filled (v : pyval) : bool :=
  match v with
  | VStr s => String.eqb s "FILLED"
  | _ => false
  end.

(** The dictionary returned by [get_account_balance]. *)
Record Balance : Type := {
  total_wallet_balance : Q;
  total_unrealized_profit : Q;
  total_margin_balance : Q;
  available_balance : Q;
  max_withdraw_amount : Q
}.

(** The dictionary returned by [get_position]. *)
Record Position : Type := {
  position_symbol : pyval;
  position_amount : Q;
  entry_price : Q;
  unrealized_profit : Q;
  position_leverage : Z;
  margin_type : pyval
}.

Record RiskConfig : Type := {
  max_position_size_usdt : Q;
  max_open_orders : Z
}.

(** The defaults [check_risk_limits] falls back on. *)
Definition default_risk_config : RiskConfig :=
  {| max_position_size_usdt := 1000; max_open_orders := 10 |}.

Section Session.

Variable ex : Exchange.
Variable cfg : ValidatorConfig.
Variable rcfg : RiskConfig.

(** [trading_config.get('max_leverage', 20)]. *)
Variable max_leverage : Z.

Variable float_of_str : string -> option Q.

(** [int(s)] on a [str]: [None] when Python raises [ValueError]. *)
Variable int_of_str : string -> option Z.

Local Open Scope M_scope.

(** [float(d[key])]. *)
Definition float_item {S : Type} (d : pydict) (key : string) : M S Q :=
  v ← dict_item d key; pure (py_float float_of_str v).

(* ------------------------------------------------------------------- *)
(** *** The queries of [MarketOrderExecutor] *)
(* ------------------------------------------------------------------- *)

Definition get_order_status (symbol : string) (order_id : pyval)
    : M Desk (option pydict) :=
  try_except
    (order ← ask (GetOrder symbol order_id)
               (fun h => futures_get_order ex h symbol order_id);
     desk_log_api_call "/fapi/v1/order" "GET" "SUCCESS";;
     ret (Some order))
    (fun _ => desk_log_error_trace "get_order_status";; ret None).

(** [if symbol:] an empty symbol asks for the orders of all symbols. *)
Definition get_open_orders (symbol : option string) : M Desk (list pydict) :=
  try_except
    (let asked :=
       match symbol with
       | Some s => if String.eqb s "" then None else Some s
       | None => None
       end in
     orders ← ask (GetOpenOrders asked)
                (fun h => futures_get_open_orders ex h asked);
     desk_log_api_call "/fapi/v1/openOrders" "GET" "SUCCESS";;
     ret orders)
    (fun _ => desk_log_error_trace "get_open_orders";; ret []).

Definition cancel_all_orders (symbol : string) : M Desk bool :=
  try_except
    (desk_logger INFO "Cancelling all orders for {symbol}";;
     _ ← ask (CancelAllOpenOrders symbol)
           (fun h => futures_cancel_all_open_orders ex h symbol);
     desk_logger INFO "All orders cancelled for {symbol}";;
     desk_log_api_call "/fapi/v1/allOpenOrders" "DELETE" "SUCCESS";;
     ret true)
    (fun _ => desk_log_error_trace "cancel_all_orders";; ret false).

(* ------------------------------------------------------------------- *)
(** *** [OCOOrderExecutor.monitor_oco_orders] *)
(* ------------------------------------------------------------------- *)

(** [status and status['status'] == 'FILLED']. *)
Definition reports_filled (status : option pydict) : M Desk bool :=
  match if_truthy status with
  | Some status => v ← dict_item status "status"; ret (is_filled v)
  | None => ret false
  end.

Definition monitor_oco_orders (symbol : string) (tp_order_id sl_order_id : pyval)
    : M Desk (option string) :=
  try_except
    (tp_status ← get_order_status symbol tp_order_id;
     tp_filled ← reports_filled tp_status;
     if tp_filled then
       desk_logger INFO "Take profit order {tp_order_id} filled, cancelling stop loss";;
       on_orders ex (fun cl => cancel_order cl symbol sl_order_id);;
       ret (Some "TP")
     else
       sl_status ← get_order_status symbol sl_order_id;
       sl_filled ← reports_filled sl_status;
       if sl_filled then
         desk_logger INFO "Stop loss order {sl_order_id} filled, cancelling take profit";;
         on_orders ex (fun cl => cancel_order cl symbol tp_order_id);;
         ret (Some "SL")
       else ret None)
    (fun _ => desk_log_error_trace "monitor_oco_orders";; ret None).


(* ------------------------------------------------------------------- *)
(** *** [GridTradingExecutor]: statistics and cancellation *)
(* ------------------------------------------------------------------- *)

(** One of the two loops of [get_grid_statistics], on
    [(filled, total_value)]. *)
Fixpoint filled_value_loop
    (symbol : string) (orders : list pydict) (filled : Z) (total_value : Q)
    : M Desk (Z * Q) :=
  match orders with
  | [] => ret (filled, total_value)
  | order :: rest =>
      order_id ← dict_item order "orderId";
      status ← get_order_status symbol order_id;
      match if_truthy status with
      | Some status =>
          v ← dict_item status "status";
          if is_filled v then
            qty ← float_item status "executedQty";
            price ← float_item status "avgPrice";
            filled_value_loop symbol rest (filled + 1)%Z
              (total_value + qty * price)%Q
          else filled_value_loop symbol rest filled total_value
      | None => filled_value_loop symbol rest filled total_value
      end
  end.

Definition get_grid_statistics (symbol : string) (grid_config : GridResult)
    : M Desk pydict :=
  try_except
    (let buy_orders := gr_buy_orders grid_config in
     let sell_orders := gr_sell_orders grid_config in
     buys ← filled_value_loop symbol buy_orders 0 0;
     sells ← filled_value_loop symbol sell_orders 0 0;
     let '(filled_buys, total_buy_value) := buys in
     let '(filled_sells, total_sell_value) := sells in
     let profit := (total_sell_value - total_buy_value)%Q in
     ret (list_to_map
            [("total_buy_orders", VInt (Z.of_nat (length buy_orders)));
             ("total_sell_orders", VInt (Z.of_nat (length sell_orders)));
             ("filled_buys", VInt filled_buys);
             ("filled_sells", VInt filled_sells);
             ("total_buy_value", VFloat total_buy_value);
             ("total_sell_value", VFloat total_sell_value);
             ("realized_profit", VFloat profit)]))
    (fun _ => desk_log_error_trace "get_grid_statistics";; ret ∅).

Definition cancel_grid (symbol : string) (grid_config : GridResult)
    : M Desk bool :=
  try_except
    (desk_logger INFO "Cancelling grid for {symbol}";;
     result ← cancel_all_orders symbol;
     (if result then desk_logger INFO "Grid cancelled for {symbol}"
      else ret tt);;
     ret result)
    (fun _ => desk_log_error_trace "cancel_grid";; ret false).

(* ------------------------------------------------------------------- *)
(** *** [BinanceFuturesBot] ([src/bot.py]) *)
(* ------------------------------------------------------------------- *)

Definition set_leverage (symbol : string) (leverage : Z) : M Desk bool :=
  if negb (fst (validate_leverage leverage max_leverage)) then
    desk_logger ERROR "Invalid leverage: {error}";; ret false
  else
    try_except
      (ask (ChangeLeverage symbol leverage)
           (fun h => futures_change_leverage ex h symbol leverage);;
       desk_logger INFO "Leverage set to {leverage}x for {symbol}";;
       ret true)
      (fun _ => desk_log_error_trace "set_leverage";; ret false).

Definition get_account_balance : M Desk (option Balance) :=
  try_except
    (account ← ask FuturesAccount (fun h => futures_account ex h);
     wallet ← float_item account "totalWalletBalance";
     unrealized ← float_item account "totalUnrealizedProfit";
     margin ← float_item account "totalMarginBalance";
     available ← float_item account "availableBalance";
     withdraw ← float_item account "maxWithdrawAmount";
     desk_logger INFO "Account Balance: {balance['available_balance']:.2f} USDT available, Total: {balance['total_wallet_balance']:.2f} USDT";;
     ret (Some {| total_wallet_balance := wallet;
                  total_unrealized_profit := unrealized;
                  total_margin_balance := margin;
                  available_balance := available;
                  max_withdraw_amount := withdraw |}))
    (fun _ => desk_log_error_trace "get_account_balance";; ret None).

Definition check_risk_limits (symbol : string) (quantity price : Q)
    : M Desk check :=
  try_except
    (let order_value := (quantity * price)%Q in
     if Qltb (max_position_size_usdt rcfg) order_value then
       ret (invalid "Order value ({order_value:.2f} USDT) exceeds max position size ({max_position} USDT)")
     else
       balance ← get_account_balance;
       if match balance with
          | Some balance => Qltb (available_balance balance) order_value
          | None => false
          end
       then
         ret (invalid "Insufficient balance: {available:.2f} USDT available, {order_value:.2f} USDT required")
       else
         open_orders ← get_open_orders (Some symbol);
         if (max_open_orders rcfg <=? Z.of_nat (length open_orders))%Z then
           ret (invalid "Maximum open orders ({max_orders}) reached")
         else ret valid)
    (fun _ =>
       desk_log_error_trace "check_risk_limits";;
       ret (invalid "Error checking risk limits")).

(** [int(v)]. *)
Definition py_int (v : pyval) : outcome Z :=
  match v with
  | VInt z => Done z
  | VBool b => Done (if b then 1 else 0)%Z
  | VFloat q => Done (Z.quot (Qnum q) (Z.pos (Qden q)))
  | VStr s =>
      match int_of_str s with
      | Some z => Done z
      | None => Raised ValueError
      end
  | VNone => Raised TypeError
  end.

(** The loop of [get_position]: the first entry with a non-zero amount. *)
Fixpoint first_open_position (positions : list pydict)
    : M Desk (option Position) :=
  match positions with
  | [] => ret None
  | pos :: rest =>
      amount ← float_item pos "positionAmt";
      if negb (Qeq_bool amount 0) then
        sym ← dict_item pos "symbol";
        amount ← float_item pos "positionAmt";
        entry ← float_item pos "entryPrice";
        unrealized ← float_item pos "unRealizedProfit";
        lev ← dict_item pos "leverage";
        lev ← pure (py_int lev);
        margin ← dict_item pos "marginType";
        desk_logger INFO "Position: {position['position_amount']} {symbol} @ {position['entry_price']}, PnL: {position['unrealized_profit']:.2f} USDT";;
        ret (Some {| position_symbol := sym;
                     position_amount := amount;
                     entry_price := entry;
                     unrealized_profit := unrealized;
                     position_leverage := lev;
                     margin_type := margin |})
      else first_open_position rest
  end.

Definition get_position (symbol : string) : M Desk (option Position) :=
  try_except
    (positions ← ask (PositionInformation symbol)
                   (fun h => futures_position_information ex h symbol);
     found ← first_open_position positions;
     match found with
     | Some position => ret (Some position)
     | None =>
         desk_logger INFO "No open position for {symbol}";; ret None
     end)
    (fun _ => desk_log_error_trace "get_position";; ret None).

(** [percentage] defaults to 100.0. *)
Definition close_position (symbol : string) (percentage : Q) : M Desk bool :=
  try_except
    (position ← get_position symbol;
     match position with
     | None =>
         desk_logger WARNING "No position to close for {symbol}";; ret false
     | Some position =>
         let position_amt := position_amount position in
         let close_qty := (Qabs position_amt * (percentage / 100))%Q in
         let close_qty := format_quantity cfg close_qty in
         let side := if Qltb 0 position_amt then "SELL" else "BUY" in
         desk_logger INFO "Closing {percentage}% of position: {close_qty} {symbol}";;
         order ← on_orders ex (fun cl =>
                    place_market_order cl cfg symbol side close_qty true);
         match if_truthy order with
         | Some order =>
             dict_item order "orderId";;
             desk_logger INFO "Position closed successfully: Order ID {order['orderId']}";;
             ret true
         | None => ret false
         end
     end)
    (fun _ => desk_log_error_trace "close_position";; ret false).

End Session.

(* ------------------------------------------------------------------- *)
(** *** [GridTradingExecutor.monitor_and_refill_grid] *)
(* ------------------------------------------------------------------- *)

Section Refill.

Variable ex : Exchange.
Variable cfg : ValidatorConfig.
Variable float_of_str : string -> option Q.

Local Open Scope M_scope.

(** The body of the two loops of [monitor_and_refill_grid].  For a filled
    buy order the new order is a SELL one spacing above its price
    ([above] is [true]); for a filled sell order a BUY one spacing below
    it. *)
Definition refill_order
    (symbol : string) (grid_config : GridResult) (new_side : string)
    (above : bool) (order : pydict) : M Desk unit :=
  order_id ← dict_item order "orderId";
  status ← get_order_status ex symbol order_id;
  filled ← reports_filled status;
  if filled then
    dict_item order "price";;
    desk_logger INFO (if above then "Buy order {order_id} filled at {order['price']}"
                      else "Sell order {order_id} filled at {order['price']}");;
    if String.eqb (gr_mode grid_config) "neutral" then
      (if (gr_grid_levels grid_config - 1 =? 0)%Z then raise OtherError
       else ret tt);;
      let grid_spacing :=
        ((gr_upper_price grid_config - gr_lower_price grid_config)
         / inject_Z (gr_grid_levels grid_config - 1))%Q in
      price ← float_item float_of_str order "price";
      let new_price :=
        format_price cfg (if above then price + grid_spacing
                          else price - grid_spacing)%Q in
      quantity ← float_item float_of_str order "origQty";
      new_order ← on_orders ex (fun cl =>
                    place_limit_order cl cfg symbol new_side quantity
                      new_price "GTC" false true);
      if truthy new_order then
        desk_logger INFO (if above then "Placed new sell order at {sell_price}"
                          else "Placed new buy order at {buy_price}")
      else ret tt
    else ret tt
  else ret tt.

Definition monitor_and_refill_grid (symbol : string) (grid_config : GridResult)
    : M Desk bool :=
  try_except
    (let buy_orders := gr_buy_orders grid_config in
     let sell_orders := gr_sell_orders grid_config in
     for_each buy_orders (refill_order symbol grid_config "SELL" true);;
     for_each sell_orders (refill_order symbol grid_config "BUY" false);;
     ret true)
    (fun _ => desk_log_error_trace "monitor_and_refill_grid";; ret false).

End Refill.

(* ===================================================================== *)
(** ** Configuration lookup ([src/config_loader.py]) *)
(* ===================================================================== *)


(** A value of the YAML configuration: a scalar or a mapping. *)
#[warnings="-register-all"] Inductive config : Type :=
| Scalar (v : pyval)
| Mapping (entries : gmap string config).

(** [s.split('.')]: the pieces between the dots; never empty. *)
Fixpoint split_dots (s : string) : list string :=
  match s with
  | EmptyString => [EmptyString]
  | String c s' =>
      if Ascii.eqb c "." then EmptyString :: split_dots s'
      else
        match split_dots s' with
        | piece :: pieces => String c piece :: pieces
        | [] => [String c EmptyString]
        end
  end.

(** The loop of [ConfigLoader.get]. *)
Fixpoint config_walk (keys : list string) (value default : config) : config :=
  match keys with
  | [] => value
  | key :: rest =>
      match value with
      | Mapping entries =>
          match entries !! key with
          | Some v => config_walk rest v default
          | None => default
          end
      | Scalar _ => default
      end
  end.

(** [ConfigLoader.get(key_path, default)] on the loaded configuration. *)
Definition config_get (loaded : config) (key_path : string) (default : config)
    : config :=
  config_walk (split_dots key_path) loaded default.

(* ===================================================================== *)
(** ** Vocabulary of the statements *)
(* ===================================================================== *)

(** The checks of a place-limit call, in the order the specification
    gives them; each is evaluated on the values the caller supplied. *)
Inductive limit_check : Type :=
| CheckSymbol
| CheckSide
| CheckPrice
| CheckQuantity
| CheckTimeInForce.

Definition limit_check_order : list limit_check :=
  [CheckSymbol; CheckSide; CheckPrice; CheckQuantity; CheckTimeInForce].

Definition limit_check_passes
    (cfg : ValidatorConfig) (symbol side : string) (quantity price : Q)
    (time_in_force : string) (c : limit_check) : bool :=
  match c with
  | CheckSymbol => fst (validate_symbol symbol)
  | CheckSide => fst (validate_side side)
  | CheckPrice => fst (validate_price cfg price)
  | CheckQuantity => fst (validate_quantity cfg quantity (Some price))
  | CheckTimeInForce => fst (validate_time_in_force time_in_force)
  end.

(** The error record that names a failed check. *)
Definition limit_check_error (c : limit_check) : level * string :=
  match c with
  | CheckSymbol => (ERROR, "Invalid symbol: {error}")
  | CheckSide => (ERROR, "Invalid side: {error}")
  | CheckPrice => (ERROR, "Invalid price: {error}")
  | CheckQuantity => (ERROR, "Invalid quantity: {error}")
  | CheckTimeInForce => (ERROR, "Invalid time in force: {error}")
  end.

(** What a place-* operation hands back for an exchange answer. *)
Definition response_result (r : outcome pydict) : option pydict :=
  match r with
  | Done order => Some order
  | Raised _ => None
  end.

(** What a leg of a compound order yielded: the order, or nothing when the
    placement returned [None] (or an empty response). *)
Definition leg_result (r : outcome (option pydict) * World) : option pydict :=
  match fst r with
  | Done o => if_truthy o
  | Raised _ => None
  end.

(** All the checks [place_oco_order] makes before it places a leg. *)
Definition oco_inputs_valid
    (cfg : ValidatorConfig) (symbol side : string)
    (quantity take_profit_price stop_loss_price : Q) : bool :=
  fst (validate_symbol symbol) && fst (validate_side side)
  && fst (validate_quantity cfg quantity None)
  && fst (validate_price cfg take_profit_price)
  && fst (validate_price cfg stop_loss_price)
  && (if String.eqb (upper side) "SELL"
      then Qltb stop_loss_price take_profit_price
      else Qltb take_profit_price stop_loss_price).

(** The world after one more log record. *)
Definition logged (w : World) (l : level) (text : string) : World :=
  {| calls := calls w; log := log w ++ [(l, text)] |}.

(** The checks a market placement of [size] makes. *)
Definition market_checks
    (cfg : ValidatorConfig) (symbol side : string) (size : Q) : bool :=
  fst (validate_symbol symbol) && fst (validate_side side)
  && fst (validate_quantity cfg size None).

(** The exchange calls of a market placement of [size]: one order creation
    when the checks pass, none otherwise. *)
Definition market_chunk_calls
    (cfg : ValidatorConfig) (symbol side : string) (size : Q) : list call :=
  if market_checks cfg symbol side size then
    [CreateOrder (market_order_params symbol side (format_quantity cfg size)
                    false)]
  else [].

(** The order a market placement of [size] yields when the calls so far
    are [h]. *)
Definition market_chunk_order
    (cl : Client) (cfg : ValidatorConfig) (symbol side : string) (size : Q)
    (h : list call) : option pydict :=
  if market_checks cfg symbol side size then
    if_truthy (response_result
                 (futures_create_order cl h
                    (market_order_params symbol side
                       (format_quantity cfg size) false)))
  else None.

(** [k] market placements of the same [size], each followed by a wait of
    [interval] seconds, starting from the calls [h]: the calls afterwards
    and the orders that were returned, in order. *)
Fixpoint twap_prior
    (cl : Client) (cfg : ValidatorConfig) (symbol side : string) (size : Q)
    (interval : Z) (k : nat) (h : list call) : list call * list pydict :=
  match k with
  | O => (h, [])
  | S k' =>
      let rest :=
        twap_prior cl cfg symbol side size interval k'
          (h ++ market_chunk_calls cfg symbol side size ++ [Sleep interval]) in
      (fst rest,
       option_list (market_chunk_order cl cfg symbol side size h) ++ snd rest)
  end.

(** The log record of a failed chunk, and how many a log holds. *)
Definition is_chunk_failure (r : level * string) : bool :=
  match r with
  | (ERROR, text) =>
      String.eqb text "Failed to execute TWAP chunk {i+1}/{chunks}"
  | _ => false
  end.

Definition chunk_failures (lg : list (level * string)) : nat :=
  length (List.filter is_chunk_failure lg).

(** Every order the exchange returns carries an identifier and a status. *)
Definition well_formed_responses (cl : Client) : Prop :=
  forall (h : list call) (params order : pydict),
    futures_create_order cl h params = Done order ->
    is_Some (order !! "orderId") /\ is_Some (order !! "status").

(** The quantities of the orders sent to the exchange, in order. *)
Definition order_quantities (cs : list call) : list Q :=
  omap (fun c =>
          match c with
          | CreateOrder params =>
              match params !! "quantity" with
              | Some (VFloat q) => Some q
              | _ => None
              end
          | _ => None
          end) cs.

(** [float(v)] succeeds. *)
Definition converts (float_of_str : string -> option Q) (v : pyval) : Prop :=
  exists q : Q, py_float float_of_str v = Done q.

(** The quantities an order reports convert to floats. *)
Definition order_converts
    (float_of_str : string -> option Q) (order : pydict) : Prop :=
  converts float_of_str (dict_get order "executedQty" (VInt 0))
  /\ converts float_of_str (dict_get order "avgPrice" (VInt 0)).

(** Orderings of a price list. *)
Definition strictly_increasing (l : list Q) : Prop :=
  forall (i j : nat) (x y : Q),
    (i < j)%nat -> l !! i = Some x -> l !! j = Some y -> (x < y)%Q.

Definition non_decreasing (l : list Q) : Prop :=
  forall (i j : nat) (x y : Q),
    (i < j)%nat -> l !! i = Some x -> l !! j = Some y -> (x <= y)%Q.

(** All the checks of a place-limit call. *)
Definition limit_checks
    (cfg : ValidatorConfig) (symbol side : string) (quantity price : Q)
    (time_in_force : string) : bool :=
  forallb (limit_check_passes cfg symbol side quantity price time_in_force)
          limit_check_order.

(** The exchange calls of one grid level: a maker-only (post-only) GTC
    limit order of [quantity] on [side] at [price] when the place-limit
    checks pass, nothing otherwise. *)
Definition grid_level_calls
    (cfg : ValidatorConfig) (symbol side : string) (quantity price : Q)
    : list call :=
  if limit_checks cfg symbol side quantity price "GTC" then
    [CreateOrder (limit_order_params symbol side quantity price "GTC"
                    false true)]
  else [].

(** The neutral policy for one level against the current price. *)
Definition neutral_level_calls
    (cfg : ValidatorConfig) (symbol : string) (quantity current_price : Q)
    (price : Q) : list call :=
  if Qltb price current_price then
    grid_level_calls cfg symbol "BUY" quantity price
  else if Qltb current_price price then
    grid_level_calls cfg symbol "SELL" quantity price
  else [].

(** The spacing between two levels, in percent of the lower bound. *)
Definition grid_spacing_percent (lower_price upper_price : Q) (levels : Z)
    : Q :=
  ((upper_price - lower_price) / inject_Z (levels - 1) / lower_price * 100)%Q.

(** The current price read from a ticker answer: [float(ticker['price'])],
    or nothing when the call, the lookup or the conversion raises. *)
Definition ticker_price
    (float_of_str : string -> option Q) (answer : outcome pydict)
    : option Q :=
  match answer with
  | Done ticker =>
      match ticker !! "price" with
      | Some v =>
          match py_float float_of_str v with
          | Done q => Some q
          | Raised _ => None
          end
      | None => None
      end
  | Raised _ => None
  end.

(** The records [create_grid_orders] logs before it places the levels. *)
Definition grid_preamble_log (gcfg : GridConfig) (spacing_percent : Q)
    : list (level * string) :=
  (if Qltb (max_spacing gcfg) spacing_percent then
     [(WARNING, "Grid spacing ({spacing_percent:.2f}%) above recommended maximum ({self.max_spacing}%)")]
   else [])
  ++ [(INFO, "Creating grid for {symbol}: Range: {lower_price}-{upper_price}, Levels: {grid_levels}, Spacing: {grid_spacing:.2f} ({spacing_percent:.2f}%), Qty/Level: {qty_per_level}");
      (INFO, "Current price: {current_price}")].

(** The limit price of a TWAP chunk placed with limit orders: the current
    price moved by the offset against the side, formatted. *)
Definition twap_limit_price
    (cfg : ValidatorConfig) (side : string) (limit_offset_percent : Q)
    (current_price : Q) : Q :=
  format_price cfg
    (if String.eqb (upper side) "BUY" then
       current_price * (1 - limit_offset_percent / 100)
     else current_price * (1 + limit_offset_percent / 100))%Q.

(** The exchange calls of the placement of one TWAP chunk of [size] when
    the calls so far are [h]: with market orders those of the market
    placement; with limit orders the ticker and then, when the ticker
    answers and the place-limit checks pass, an IOC limit order of [size]
    at the limit price. *)
Definition twap_place_calls
    (cl : Client) (cfg : ValidatorConfig) (float_of_str : string -> option Q)
    (symbol side : string) (use_limit : bool) (limit_offset_percent : Q)
    (size : Q) (h : list call) : list call :=
  if use_limit then
    SymbolTicker symbol
    :: match ticker_price float_of_str (futures_symbol_ticker cl h symbol) with
       | Some current_price =>
           let price :=
             twap_limit_price cfg side limit_offset_percent current_price in
           if limit_checks cfg symbol side size price "IOC" then
             [CreateOrder (limit_order_params symbol side
                             (format_quantity cfg size) price "IOC" false
                             false)]
           else []
       | None => []
       end
  else market_chunk_calls cfg symbol side size.

(** What that placement yields: [None] when reading the ticker raises
    (which leaves the loop), otherwise the order that came back, if any. *)
Definition twap_place_result
    (cl : Client) (cfg : ValidatorConfig) (float_of_str : string -> option Q)
    (symbol side : string) (use_limit : bool) (limit_offset_percent : Q)
    (size : Q) (h : list call) : option (option pydict) :=
  if use_limit then
    match ticker_price float_of_str (futures_symbol_ticker cl h symbol) with
    | Some current_price =>
        let price :=
          twap_limit_price cfg side limit_offset_percent current_price in
        Some (if limit_checks cfg symbol side size price "IOC" then
                if_truthy (response_result
                             (futures_create_order cl
                                (h ++ [SymbolTicker symbol])
                                (limit_order_params symbol side
                                   (format_quantity cfg size) price "IOC"
                                   false false)))
              else None)
    | None => None
    end
  else Some (market_chunk_order cl cfg symbol side size h).

(** [k] placements of the same [size] in either mode, each followed by a
    wait: the calls afterwards and the orders returned, or [None] when a
    ticker could not be read. *)
Fixpoint twap_prior_mode
    (cl : Client) (cfg : ValidatorConfig) (float_of_str : string -> option Q)
    (symbol side : string) (use_limit : bool) (limit_offset_percent : Q)
    (size : Q) (interval : Z) (k : nat) (h : list call)
    : option (list call * list pydict) :=
  match k with
  | O => Some (h, [])
  | S k' =>
      match twap_place_result cl cfg float_of_str symbol side use_limit
              limit_offset_percent size h with
      | Some placed =>
          match twap_prior_mode cl cfg float_of_str symbol side use_limit
                  limit_offset_percent size interval k'
                  (h ++ twap_place_calls cl cfg float_of_str symbol side
                          use_limit limit_offset_percent size h
                     ++ [Sleep interval]) with
          | Some (h', orders) => Some (h', option_list placed ++ orders)
          | None => None
          end
      | None => None
      end
  end.

(** The size [execute_twap_order] gives its last chunk after the orders
    [orders] came back: the total less the sum of their [executedQty]
    values taken as they are, formatted; [None] when that sum raises (a
    value that is not a number). *)
Definition twap_last_size
    (cfg : ValidatorConfig) (total_quantity : Q) (orders : list pydict)
    : option Q :=
  match py_sum (executed_qtys orders) with
  | Some e => Some (format_quantity cfg (total_quantity - pynum_to_Q e))
  | None => None
  end.

(** The placement of that last chunk when the calls so far are [h]:
    [None] when it is never reached or is cut short by the ticker. *)
Definition twap_last_placed
    (cl : Client) (cfg : ValidatorConfig) (float_of_str : string -> option Q)
    (symbol side : string) (use_limit : bool) (limit_offset_percent : Q)
    (total_quantity : Q) (orders : list pydict) (h : list call)
    : option (option pydict) :=
  match twap_last_size cfg total_quantity orders with
  | Some size =>
      twap_place_result cl cfg float_of_str symbol side use_limit
        limit_offset_percent size h
  | None => None
  end.

(** The exchange calls of the last chunk. *)
Definition twap_last_calls
    (cl : Client) (cfg : ValidatorConfig) (float_of_str : string -> option Q)
    (symbol side : string) (use_limit : bool) (limit_offset_percent : Q)
    (total_quantity : Q) (orders : list pydict) (h : list call)
    : list call :=
  match twap_last_size cfg total_quantity orders with
  | Some size =>
      twap_place_calls cl cfg float_of_str symbol side use_limit
        limit_offset_percent size h
  | None => []
  end.

(** The order of an optional placement result, as a list. *)
Definition placed_orders (last : option (option pydict)) : list pydict :=
  match last with
  | Some placed => option_list placed
  | None => []
  end.

(** An order that reports its executed quantity as text, the way the
    exchange sends it. *)
Definition reports_text_quantity (order : pydict) : Prop :=
  exists s : string, order !! "executedQty" = Some (VStr s).

(** The checks of [place_stop_limit_order]. *)
Definition stop_limit_checks
    (cfg : ValidatorConfig) (symbol side : string)
    (quantity price stop_price : Q) : bool :=
  fst (validate_symbol symbol) && fst (validate_side side)
  && fst (validate_price cfg price) && fst (validate_price cfg stop_price)
  && fst (validate_quantity cfg quantity (Some price)).

(** The side that closes a position opened on [entry_side]. *)
Definition exit_side_of (entry_side : string) : string :=
  if String.eqb (upper entry_side) "BUY" then "SELL" else "BUY".

(** The entry placement of [place_oco_with_entry]: a market order, or a
    GTC limit order when an entry price is given. *)
Definition place_entry
    (cl : Client) (cfg : ValidatorConfig) (symbol entry_side : string)
    (quantity : Q) (entry_price : option Q) : M World (option pydict) :=
  match entry_price with
  | None => place_market_order cl cfg symbol entry_side quantity false
  | Some price =>
      place_limit_order cl cfg symbol entry_side quantity price "GTC" false
        false
  end.

Definition is_creation (c : call) : bool :=
  match c with
  | CreateOrder _ => true
  | _ => false
  end.

(** How many orders a world has sent to the exchange. *)
Definition creations (w : World) : nat :=
  length (List.filter is_creation (calls w)).

(** [m] raises the measure [mu] of the state by at most [n], whatever its
    outcome. *)
Definition grows_by {S A : Type} (mu : S -> nat) (n : nat) (m : M S A)
    : Prop :=
  forall s : S, (mu (snd (m s)) <= mu s + n)%nat.

(** The orders a TWAP loop holds. *)
Definition held (s : World * TwapLocals) : nat :=
  length (executed_orders (snd s)).

(** The long policy for one level: a BUY at or below the current price. *)
Definition long_level_calls
    (cfg : ValidatorConfig) (symbol : string) (quantity current_price : Q)
    (price : Q) : list call :=
  if Qleb price current_price then
    grid_level_calls cfg symbol "BUY" quantity price
  else [].

(** The short policy for one level: a SELL at or above the current price. *)
Definition short_level_calls
    (cfg : ValidatorConfig) (symbol : string) (quantity current_price : Q)
    (price : Q) : list call :=
  if Qleb current_price price then
    grid_level_calls cfg symbol "SELL" quantity price
  else [].

(** The policy of [mode] for one level; a mode that is none of the three
    places nothing. *)
Definition mode_level_calls
    (cfg : ValidatorConfig) (symbol mode : string)
    (quantity current_price : Q) (price : Q) : list call :=
  if String.eqb mode "neutral" then
    neutral_level_calls cfg symbol quantity current_price price
  else if String.eqb mode "long" then
    long_level_calls cfg symbol quantity current_price price
  else if String.eqb mode "short" then
    short_level_calls cfg symbol quantity current_price price
  else [].

(** What a status query says about an order: filled, not filled (also when
    the query fails or answers nothing), or an answer without a status. *)
Inductive fill_report : Type := Filled | NotFilled | Unreadable.

Definition fill_report_of (answer : outcome pydict) : fill_report :=
  match if_truthy (response_result answer) with
  | Some status =>
      match status !! "status" with
      | Some v => if is_filled v then Filled else NotFilled
      | None => Unreadable
      end
  | None => NotFilled
  end.

Definition is_status_query (q : request) : bool :=
  match q with
  | GetOrder _ _ => true
  | _ => false
  end.

(** [float(d[key])], or nothing when the lookup or the conversion
    raises. *)
Definition float_field
    (float_of_str : string -> option Q) (d : pydict) (key : string)
    : option Q :=
  match d !! key with
  | Some v =>
      match py_float float_of_str v with
      | Done q => Some q
      | Raised _ => None
      end
  | None => None
  end.

(** The balance read from an account answer, or nothing when the call
    raises or one of the five amounts cannot be read. *)
Definition read_balance
    (float_of_str : string -> option Q) (answer : outcome pydict)
    : option Balance :=
  match answer with
  | Done account =>
      match float_field float_of_str account "totalWalletBalance",
            float_field float_of_str account "totalUnrealizedProfit",
            float_field float_of_str account "totalMarginBalance",
            float_field float_of_str account "availableBalance",
            float_field float_of_str account "maxWithdrawAmount" with
      | Some wallet, Some unrealized, Some margin, Some available,
        Some withdraw =>
          Some {| total_wallet_balance := wallet;
                  total_unrealized_profit := unrealized;
                  total_margin_balance := margin;
                  available_balance := available;
                  max_withdraw_amount := withdraw |}
      | _, _, _, _, _ => None
      end
  | Raised _ => None
  end.

(** The symbol [get_open_orders] asks for: none for an empty one. *)
Definition asked_symbol (symbol : string) : option string :=
  if String.eqb symbol "" then None else Some symbol.

(** How many open orders an answer reports; a failed query counts as
    none. *)
Definition open_order_count (answer : outcome (list pydict)) : Z :=
  match answer with
  | Done orders => Z.of_nat (length orders)
  | Raised _ => 0
  end.

(** [m] adds at most [n] requests, all of them status queries, whatever
    its outcome. *)
Definition queries_only {A : Type} (n : nat) (m : M Desk A) : Prop :=
  forall d : Desk,
  exists extra : list request,
    requests (snd (m d)) = requests d ++ extra
    /\ Forall (fun q => is_status_query q = true) extra
    /\ (length extra <= n)%nat.

(** The requests of one pass of a refill loop over [orders], starting from
    the requests [h]: a status query per order and, for an order reported
    FILLED, the replacement order when it passes the place-limit checks.
    [None] when an order or a status cannot be read. *)
Fixpoint refill_requests
    (ex : Exchange) (cfg : ValidatorConfig)
    (float_of_str : string -> option Q) (symbol : string)
    (grid_spacing : Q) (new_side : string) (above : bool)
    (orders : list pydict) (h : list request) : option (list request) :=
  match orders with
  | [] => Some h
  | order :: rest =>
      match order !! "orderId" with
      | Some order_id =>
          match fill_report_of (futures_get_order ex h symbol order_id) with
          | Filled =>
              match float_field float_of_str order "price",
                    float_field float_of_str order "origQty" with
              | Some price, Some quantity =>
                  let new_price :=
                    format_price cfg (if above then price + grid_spacing
                                      else price - grid_spacing)%Q in
                  refill_requests ex cfg float_of_str symbol grid_spacing
                    new_side above rest
                    (h ++ GetOrder symbol order_id
                       :: map OrderCall
                            (if limit_checks cfg symbol new_side quantity
                                  new_price "GTC" then
                               [CreateOrder
                                  (limit_order_params symbol new_side
                                     (format_quantity cfg quantity) new_price
                                     "GTC" false true)]
                             else []))
              | _, _ => None
              end
          | NotFilled =>
              refill_requests ex cfg float_of_str symbol grid_spacing
                new_side above rest (h ++ [GetOrder symbol order_id])
          | Unreadable => None
          end
      | None => None
      end
  end.

(** Whether a key contains a dot. *)
Fixpoint has_dot (s : string) : bool :=
  match s with
  | EmptyString => false
  | String c s' => Ascii.eqb c "." || has_dot s'
  end.

(* ===================================================================== *)
(** ** Sample exchanges for the closed examples *)
(* ===================================================================== *)

Definition digit_of (c : ascii) : option Z :=
  let n := nat_of_ascii c in
  if (48 <=? n)%nat && (n <=? 57)%nat then Some (Z.of_nat (n - 48)) else None.

(** Reads the digits of a plain decimal literal: [num / den] so far,
    whether the point was passed, whether a digit was seen. *)
Fixpoint read_decimal
    (s : string) (num : Z) (den : positive) (after_point any : bool)
    : option Q :=
  match s with
  | EmptyString => if any then Some (num # den) else None
  | String c s' =>
      if Ascii.eqb c "." then
        if after_point then None else read_decimal s' num den true any
      else
        match digit_of c with
        | Some d =>
            read_decimal s' (10 * num + d)%Z
              (if after_point then (10 * den)%positive else den)
              after_point true
        | None => None
        end
  end.

(** [float(s)] on the plain decimal literals an exchange sends
    (["50000"], ["0.001"], ["-1.5"]); the closed examples instantiate the
    engine's [float_of_str] with it. *)
Definition decimal_float (s : string) : option Q :=
  match s with
  | String c s' =>
      if Ascii.eqb c "-" then
        match read_decimal s' 0 1 false false with
        | Some q => Some (- q)%Q
        | None => None
        end
      else if Ascii.eqb c "+" then read_decimal s' 0 1 false false
      else read_decimal s 0 1 false false
  | EmptyString => None
  end.

Definition empty_world : World := {| calls := []; log := [] |}.

(** An order response as the exchange sends it: numbers other than the
    identifier are decimal text. *)
Definition order_response (order_id : Z) (status executed_qty avg_price : string)
    : pydict :=
  list_to_map [("orderId", VInt order_id); ("status", VStr status);
               ("executedQty", VStr executed_qty);
               ("avgPrice", VStr avg_price)].

Definition ticker_response (price : string) : pydict :=
  list_to_map [("symbol", VStr "BTCUSDT"); ("price", VStr price)].

(** Fills every order in full at 50000; order identifiers count the calls
    made before. *)
Definition filling_client : Client := {|
  futures_create_order := fun h params =>
    Done (order_response (Z.of_nat (length h)) "FILLED" "0.001" "50000");
  futures_cancel_order := fun h symbol order_id =>
    Done (list_to_map [("orderId", order_id); ("status", VStr "CANCELED")]);
  futures_symbol_ticker := fun h symbol => Done (ticker_response "50000")
|}.

(** Accepts every order without filling it (status NEW, nothing executed). *)
Definition resting_client : Client := {|
  futures_create_order := fun h params =>
    Done (order_response (Z.of_nat (length h)) "NEW" "0" "0");
  futures_cancel_order := fun h symbol order_id =>
    Done (list_to_map [("orderId", order_id); ("status", VStr "CANCELED")]);
  futures_symbol_ticker := fun h symbol => Done (ticker_response "50000")
|}.


(** Rejects the orders sent before the fourth call, fills the later ones. *)
Definition late_filling_client : Client := {|
  futures_create_order := fun h params =>
    if (length h <? 4)%nat then
      Raised (BinanceAPIException (-1001) "Internal error; unable to process your request.")
    else Done (order_response (Z.of_nat (length h)) "FILLED" "0.003" "50000");
  futures_cancel_order := fun h symbol order_id =>
    Done (list_to_map [("orderId", order_id); ("status", VStr "CANCELED")]);
  futures_symbol_ticker := fun h symbol => Done (ticker_response "50000")
|}.

(** Rejects stop-market orders, accepts the others. *)
Definition stop_rejecting_client : Client := {|
  futures_create_order := fun h params =>
    match params !! "type" with
    | Some (VStr "STOP_MARKET") =>
        Raised (BinanceAPIException (-2021) "Order would immediately trigger.")
    | _ => Done (order_response (Z.of_nat (length h)) "NEW" "0" "0")
    end;
  futures_cancel_order := fun h symbol order_id =>
    Done (list_to_map [("orderId", order_id); ("status", VStr "CANCELED")]);
  futures_symbol_ticker := fun h symbol => Done (ticker_response "50000")
|}.

(** Accepts a take-profit order with a response that carries no
    identifier, rejects every other order. *)
Definition unidentified_client : Client := {|
  futures_create_order := fun h params =>
    match params !! "type" with
    | Some (VStr "TAKE_PROFIT_MARKET") =>
        Done (list_to_map [("status", VStr "NEW")])
    | _ => Raised (BinanceAPIException (-2021) "Order would immediately trigger.")
    end;
  futures_cancel_order := fun h symbol order_id =>
    Done (list_to_map [("orderId", order_id); ("status", VStr "CANCELED")]);
  futures_symbol_ticker := fun h symbol => Done (ticker_response "50000")
|}.

(** Fills every order, answers no ticker. *)
Definition blind_client : Client := {|
  futures_create_order := fun h params =>
    Done (order_response (Z.of_nat (length h)) "FILLED" "0.001" "50000");
  futures_cancel_order := fun h symbol order_id =>
    Done (list_to_map [("orderId", order_id); ("status", VStr "CANCELED")]);
  futures_symbol_ticker := fun h symbol =>
    Raised (BinanceAPIException (-1003) "Too many requests.")
|}.



(** Reports every order it is asked about as FILLED and fills every order
    sent; answers no account query. *)
Definition filled_exchange : Exchange := {|
  order_client := fun _ => filling_client;
  futures_get_order := fun h symbol order_id =>
    Done (list_to_map [("orderId", order_id); ("status", VStr "FILLED")]);
  futures_get_open_orders := fun h symbol => Done [];
  futures_cancel_all_open_orders := fun h symbol =>
    Done (list_to_map [("code", VInt 200)]);
  futures_change_leverage := fun h symbol leverage =>
    Done (list_to_map [("symbol", VStr symbol); ("leverage", VInt leverage)]);
  futures_position_information := fun h symbol => Done [];
  futures_account := fun h =>
    Raised (BinanceAPIException (-1003) "Too many requests.")
|}.

Definition empty_desk : Desk := {| requests := []; journal := [] |}.

(** A grid of three levels between 49000 and 51000 around 50000, with one
    buy order resting at 49000. *)
Definition sample_grid (mode : string) : GridResult := {|
  gr_symbol := "BTCUSDT";
  gr_mode := mode;
  gr_grid_levels := 3;
  gr_lower_price := 49000;
  gr_upper_price := 51000;
  gr_current_price := 50000;
  gr_grid_prices := [49000; 50000; 51000]%Q;
  gr_buy_orders :=
    [list_to_map [("orderId", VInt 7); ("status", VStr "NEW");
                  ("price", VStr "49000"); ("origQty", VStr "0.003")]];
  gr_sell_orders := [];
  gr_total_orders := 1
|}.

(** A configuration with a [trading] section. *)
Definition sample_entries : gmap string config :=
  list_to_map
    [("trading",
      Mapping (list_to_map [("default_symbol", Scalar (VStr "BTCUSDT"));
                            ("default_leverage", Scalar (VInt 1))]))].

(* ===================================================================== *)
(** ** Properties of the validator *)
(* ===================================================================== *)

Lemma Qltb_lt (x y : Q) : Qltb x y = true <-> (x < y)%Q.
Proof.
  unfold Qltb. rewrite negb_true_iff, <- not_true_iff_false, Qle_bool_iff.
  split; [apply Qnot_le_lt | apply Qlt_not_le].
Qed.

Lemma Qltb_ge (x y : Q) : Qltb x y = false <-> (y <= x)%Q.
Proof. unfold Qltb. rewrite negb_false_iff. apply Qle_bool_iff. Qed.

Lemma Qleb_le (x y : Q) : Qleb x y = true <-> (x <= y)%Q.
Proof. apply Qle_bool_iff. Qed.

Lemma Qleb_gt (x y : Q) : Qleb x y = false <-> (y < x)%Q.
Proof.
  unfold Qleb. rewrite <- not_true_iff_false, Qle_bool_iff.
  split; [apply Qnot_le_lt | apply Qlt_not_le].
Qed.

Lemma string_eqb_empty (s : string) : String.eqb s "" = false <-> s <> "".
Proof. apply String.eqb_neq. Qed.

(** C9. The symbol validator accepts exactly the non-empty strings that
    match [^[A-Z0-9]+$], end with the quote-asset suffix ["USDT"] and have
    at least 6 characters; every other string is answered with
    [(False, reason)].  It accepts ["BTCUSDT"] and rejects ["btcusdt"],
    ["BTC"] and ["BTC-USDT"]. *)
Theorem validate_symbol_accepts_iff :
  (forall s : string,
      validate_symbol s = (true, None) <->
      s <> "" /\ re_match_symbol s = true /\ endswith s "USDT" = true
      /\ (6 <= String.length s)%nat)
  /\ (forall s : string,
        validate_symbol s = (true, None)
        \/ exists reason, validate_symbol s = (false, Some reason))
  /\ validate_symbol "BTCUSDT" = (true, None)
  /\ validate_symbol "btcusdt"
     = (false, Some "Symbol must contain only uppercase letters and numbers")
  /\ validate_symbol "BTC"
     = (false, Some "Symbol must end with USDT for USDT-M futures")
  /\ validate_symbol "BTC-USDT"
     = (false, Some "Symbol must contain only uppercase letters and numbers").
Proof.
  split; [| split; [| repeat split; reflexivity]].
  - intros s. unfold validate_symbol, valid, invalid.
    destruct (String.eqb s "") eqn:He.
    + apply String.eqb_eq in He. split; [discriminate | intros [Hne _]; contradiction].
    + apply string_eqb_empty in He.
      destruct (re_match_symbol s); simpl;
        [| split; [discriminate | intros (_ & Hr & _); discriminate]].
      destruct (endswith s "USDT"); simpl;
        [| split; [discriminate | intros (_ & _ & Hs & _); discriminate]].
      destruct (Nat.ltb_spec (String.length s) 6).
      * split; [discriminate | intros (_ & _ & _ & Hl); lia].
      * split; [intros _; repeat split; auto | reflexivity].
  - intros s. unfold validate_symbol, valid, invalid.
    destruct (String.eqb s ""); [right; eauto |].
    destruct (re_match_symbol s); simpl; [| right; eauto].
    destruct (endswith s "USDT"); simpl; [| right; eauto].
    destruct (String.length s <? 6)%nat; [right; eauto | left; reflexivity].
Qed.

(* ===================================================================== *)
(** ** Properties of the primitive executors *)
(* ===================================================================== *)

Section PrimitiveExecutor.

Variable cl : Client.
Variable cfg : ValidatorConfig.

(** C6. A place-limit call evaluates its checks in the order symbol, side,
    price, quantity, time-in-force, on the values the caller supplied.  At
    the first check that fails it returns no result, records that check's
    error and issues no exchange call.  When all pass, exactly one order
    creation is issued, carrying the formatted price and quantity, and the
    exchange's response is returned as it is (no result when the exchange
    raises). *)
Theorem place_limit_order_checks_then_formats
    (symbol side : string) (quantity price : Q) (time_in_force : string)
    (reduce_only post_only : bool) (w : World) :
  let r := place_limit_order cl cfg symbol side quantity price time_in_force
             reduce_only post_only w in
  match find (fun c => negb (limit_check_passes cfg symbol side quantity price
                               time_in_force c)) limit_check_order with
  | Some c =>
      r = (Done None,
           {| calls := calls w; log := log w ++ [limit_check_error c] |})
  | None =>
      let params :=
        limit_order_params symbol side (format_quantity cfg quantity)
          (format_price cfg price) time_in_force reduce_only post_only in
      fst r = Done (response_result (futures_create_order cl (calls w) params))
      /\ calls (snd r) = calls w ++ [CreateOrder params]
  end.
Proof.
  unfold place_limit_order, limit_check_order. simpl find.
  destruct (fst (validate_symbol symbol)); simpl; [| reflexivity].
  destruct (fst (validate_side side)); simpl; [| reflexivity].
  destruct (fst (validate_price cfg price)); simpl; [| reflexivity].
  destruct (fst (validate_quantity cfg quantity (Some price))); simpl;
    [| reflexivity].
  destruct (fst (validate_time_in_force time_in_force)); simpl;
    [| reflexivity].
  unfold try_except, bind, client_create_order, perform; simpl.
  destruct (futures_create_order cl (calls w) _) as [order | e]; simpl.
  - split; reflexivity.
  - destruct e; simpl; split; reflexivity.
Qed.

(** A leg placed with valid arguments reaches the exchange exactly once and
    hands back what the exchange answered. *)
Lemma place_take_profit_order_valid
    (symbol side : string) (quantity stop_price : Q) (reduce_only : bool)
    (w : World) :
  fst (validate_symbol symbol) = true ->
  fst (validate_side side) = true ->
  fst (validate_price cfg stop_price) = true ->
  fst (validate_quantity cfg quantity None) = true ->
  let params :=
    take_profit_order_params cfg symbol side (format_quantity cfg quantity)
      (format_price cfg stop_price) None reduce_only in
  let r := place_take_profit_order cl cfg symbol side quantity stop_price None
             reduce_only w in
  fst r = Done (response_result (futures_create_order cl (calls w) params))
  /\ calls (snd r) = calls w ++ [CreateOrder params].
Proof.
  intros H1 H2 H3 H4. unfold place_take_profit_order.
  rewrite H1, H2, H3, H4. simpl.
  unfold try_except, bind, client_create_order, perform; simpl.
  destruct (futures_create_order cl (calls w) _) as [order | e]; simpl;
    split; reflexivity.
Qed.

Lemma place_stop_market_order_valid
    (symbol side : string) (quantity stop_price : Q) (reduce_only : bool)
    (w : World) :
  fst (validate_symbol symbol) = true ->
  fst (validate_side side) = true ->
  fst (validate_price cfg stop_price) = true ->
  fst (validate_quantity cfg quantity None) = true ->
  let params :=
    stop_market_order_params symbol side (format_quantity cfg quantity)
      (format_price cfg stop_price) reduce_only in
  let r := place_stop_market_order cl cfg symbol side quantity stop_price
             reduce_only w in
  fst r = Done (response_result (futures_create_order cl (calls w) params))
  /\ calls (snd r) = calls w ++ [CreateOrder params].
Proof.
  intros H1 H2 H3 H4. unfold place_stop_market_order.
  rewrite H1, H2, H3, H4. simpl.
  unfold try_except, bind, client_create_order, perform; simpl.
  destruct (futures_create_order cl (calls w) _) as [order | e]; simpl;
    split; reflexivity.
Qed.

(** Cancelling never raises and issues exactly the cancel call. *)
Lemma cancel_order_calls (symbol : string) (order_id : pyval) (w : World) :
  exists b w',
    cancel_order cl symbol order_id w = (Done b, w')
    /\ calls w' = calls w ++ [CancelOrder symbol order_id].
Proof.
  unfold cancel_order, try_except, bind, client_cancel_order, perform; simpl.
  destruct (futures_cancel_order cl (calls w) symbol order_id) as [a | e];
    simpl; [| destruct e; simpl]; eauto.
Qed.

End PrimitiveExecutor.

(* ===================================================================== *)
(** ** Properties of the OCO coordinator *)
(* ===================================================================== *)

Section OCO.

Variable cl : Client.
Variable cfg : ValidatorConfig.

Lemma oco_inputs_valid_inv
    (symbol side : string) (quantity take_profit_price stop_loss_price : Q) :
  oco_inputs_valid cfg symbol side quantity take_profit_price stop_loss_price
  = true ->
  fst (validate_symbol symbol) = true
  /\ fst (validate_side side) = true
  /\ fst (validate_quantity cfg quantity None) = true
  /\ fst (validate_price cfg take_profit_price) = true
  /\ fst (validate_price cfg stop_loss_price) = true
  /\ (if String.eqb (upper side) "SELL"
      then Qltb stop_loss_price take_profit_price
      else Qltb take_profit_price stop_loss_price) = true.
Proof.
  unfold oco_inputs_valid. rewrite !andb_true_iff. tauto.
Qed.

Lemma Qltb_Qleb_flip (x y : Q) : Qltb x y = true -> Qleb y x = false.
Proof. rewrite Qltb_lt, Qleb_gt. auto. Qed.

(** With valid inputs the call is its two placements. *)
Lemma place_oco_order_valid
    (symbol side : string) (quantity take_profit_price stop_loss_price : Q)
    (w : World) :
  oco_inputs_valid cfg symbol side quantity take_profit_price stop_loss_price
  = true ->
  place_oco_order cl cfg symbol side quantity take_profit_price
    stop_loss_price w
  = place_oco_legs cl cfg symbol side quantity take_profit_price
      stop_loss_price w.
Proof.
  intros Hv. apply oco_inputs_valid_inv in Hv
    as (H1 & H2 & H3 & H4 & H5 & H6).
  unfold place_oco_order. rewrite H1, H2, H3, H4, H5. simpl.
  destruct (String.eqb (upper side) "SELL");
    apply Qltb_Qleb_flip in H6; rewrite H6; reflexivity.
Qed.

(** C4. The price ordering is checked before any leg is placed: a SELL exit
    whose take-profit price is not above its stop-loss price, and a BUY
    exit whose stop-loss price is not above its take-profit price, return
    no result and issue no exchange call. *)
Theorem place_oco_order_rejects_misordered_prices
    (symbol side : string) (quantity take_profit_price stop_loss_price : Q)
    (w : World) :
  (upper side = "SELL" /\ ~ (stop_loss_price < take_profit_price)%Q)
  \/ (upper side = "BUY" /\ ~ (take_profit_price < stop_loss_price)%Q) ->
  let r := place_oco_order cl cfg symbol side quantity take_profit_price
             stop_loss_price w in
  fst r = Done None /\ calls (snd r) = calls w.
Proof.
  intros Hside. unfold place_oco_order.
  destruct (fst (validate_symbol symbol)); simpl; [| split; reflexivity].
  destruct (fst (validate_side side)); simpl; [| split; reflexivity].
  destruct (fst (validate_quantity cfg quantity None)); simpl;
    [| split; reflexivity].
  destruct (fst (validate_price cfg take_profit_price)); simpl;
    [| split; reflexivity].
  destruct (fst (validate_price cfg stop_loss_price)); simpl;
    [| split; reflexivity].
  destruct Hside as [[Hs Hord] | [Hs Hord]]; rewrite Hs; simpl.
  - assert (Qleb take_profit_price stop_loss_price = true) as ->.
    { apply Qleb_le. apply Qnot_lt_le. exact Hord. }
    split; reflexivity.
  - assert (Qleb stop_loss_price take_profit_price = true) as ->.
    { apply Qleb_le. apply Qnot_lt_le. exact Hord. }
    split; reflexivity.
Qed.

Lemma if_truthy_Some (o : option pydict) (d : pydict) :
  if_truthy o = Some d -> o = Some d /\ dict_truthy d = true.
Proof.
  destruct o as [d' |]; simpl; [| discriminate].
  destruct (dict_truthy d') eqn:Ht; [| discriminate].
  intros [= <-]. auto.
Qed.

(** C1. With valid inputs, the call places the take-profit leg first.  If
    that leg yields no result, the call returns no result and its exchange
    calls are those of the take-profit leg alone (no stop-loss order).  If
    the take-profit leg succeeds and the stop-loss leg yields no result, the
    take-profit order is cancelled by its order identifier and the call
    returns no result.  The pair (take-profit order, stop-loss order) is
    returned when both legs succeed, and only then. *)
Theorem place_oco_order_legs
    (symbol side : string) (quantity take_profit_price stop_loss_price : Q)
    (w : World) :
  oco_inputs_valid cfg symbol side quantity take_profit_price stop_loss_price
  = true ->
  let w0 := logged w INFO "Placing OCO order for {symbol}: TP={take_profit_price}, SL={stop_loss_price}" in
  let tp := place_take_profit_order cl cfg symbol side quantity
              take_profit_price None true w0 in
  let sl := place_stop_market_order cl cfg symbol side quantity
              stop_loss_price true (snd tp) in
  let r := place_oco_order cl cfg symbol side quantity take_profit_price
             stop_loss_price w in
  calls (snd tp)
  = calls w ++ [CreateOrder
                  (take_profit_order_params cfg symbol side
                     (format_quantity cfg quantity)
                     (format_price cfg take_profit_price) None true)]
  /\ (leg_result tp = None ->
      fst r = Done None /\ calls (snd r) = calls (snd tp))
  /\ (forall (tp_order : pydict) (tp_id : pyval),
        leg_result tp = Some tp_order ->
        tp_order !! "orderId" = Some tp_id ->
        leg_result sl = None ->
        fst r = Done None
        /\ calls (snd r) = calls (snd sl) ++ [CancelOrder symbol tp_id])
  /\ (forall tp_order sl_order : pydict,
        leg_result tp = Some tp_order ->
        leg_result sl = Some sl_order ->
        is_Some (tp_order !! "orderId") ->
        is_Some (sl_order !! "orderId") ->
        fst r = Done (Some (tp_order, sl_order))
        /\ calls (snd r) = calls (snd sl))
  /\ (forall pair : pydict * pydict,
        fst r = Done (Some pair) ->
        leg_result tp = Some (fst pair) /\ leg_result sl = Some (snd pair)).
Proof.
  intros Hv w0 tp sl r.
  assert (Hr : r = place_oco_legs cl cfg symbol side quantity
                     take_profit_price stop_loss_price w)
    by (apply place_oco_order_valid; exact Hv).
  apply oco_inputs_valid_inv in Hv as (H1 & H2 & H3 & H4 & H5 & _).
  destruct (place_take_profit_order_valid cl cfg symbol side quantity
              take_profit_price true w0 H1 H2 H4 H3) as [Htp Htpc].
  fold tp in Htp, Htpc.
  destruct (place_stop_market_order_valid cl cfg symbol side quantity
              stop_loss_price true (snd tp) H1 H2 H5 H3) as [Hsl Hslc].
  fold sl in Hsl, Hslc.
  split; [exact Htpc |].
  unfold place_oco_legs, try_except, bind in Hr. simpl in Hr.
  unfold logged in w0. subst w0. fold tp in Hr.
  unfold leg_result. rewrite Htp, Hsl.
  destruct tp as [rtp w1]. simpl in Htp, Hr, Hsl, Hslc, sl |- *.
  rewrite Htp in Hr.
  destruct (if_truthy (response_result (futures_create_order cl _ _)))
    as [tp_order |] eqn:Etpo.
  - (* take-profit leg placed *)
    fold sl in Hr.
    destruct sl as [rsl w2] eqn:Esl. simpl in Hsl, Hslc, Hr |- *.
    rewrite Hsl in Hr.
    destruct (if_truthy (response_result (futures_create_order cl (calls w1) _)))
      as [sl_order |] eqn:Eslo.
    + (* both legs placed *)
      split; [discriminate |]. split; [discriminate |].
      unfold dict_item, or_raise in Hr.
      split.
      * intros tp' sl' [= <-] [= <-] [a Ha] [b Hb].
        rewrite Ha, Hb in Hr. simpl in Hr. rewrite Hr. split; reflexivity.
      * intros pair Hp.
        rewrite Hr in Hp.
        destruct (tp_order !! "orderId"); simpl in Hp; [| discriminate].
        destruct (sl_order !! "orderId"); simpl in Hp; [| discriminate].
        injection Hp as <-. split; reflexivity.
    + (* stop-loss leg failed *)
      split; [discriminate |]. split.
      * intros tp' tp_id [= <-] Hid _.
        unfold dict_item, or_raise in Hr. rewrite Hid in Hr. simpl in Hr.
        destruct (cancel_order_calls cl symbol tp_id (logged w2 ERROR
          "Failed to place stop loss order, cancelling take profit"))
          as (b & w3 & Hc & Hcc).
        unfold logged in Hc. rewrite Hc in Hr. simpl in Hr.
        rewrite Hr. split; [reflexivity | exact Hcc].
      * split; [discriminate |].
        intros pair Hp. exfalso. rewrite Hr in Hp.
        unfold dict_item, or_raise in Hp.
        destruct (tp_order !! "orderId") as [tp_id |]; simpl in Hp;
          [| discriminate].
        destruct (cancel_order_calls cl symbol tp_id (logged w2 ERROR
          "Failed to place stop loss order, cancelling take profit"))
          as (b & w3 & Hc & Hcc).
        unfold logged in Hc. rewrite Hc in Hp. simpl in Hp.
        discriminate.
  - (* take-profit leg failed *)
    simpl in Hr. rewrite Hr.
    split; [intros _; split; reflexivity |].
    split; [discriminate |]. split; [discriminate |].
    intros pair Hp. discriminate.
Qed.

End OCO.

Lemma place_oco_order_rejects_misordered_prices_witness :
  ((upper "SELL" = "SELL" /\ ~ (52000 < 48000)%Q)
   \/ (upper "SELL" = "BUY" /\ ~ (48000 < 52000)%Q))
  /\ fst (place_oco_order filling_client default_validator_config
            "BTCUSDT" "SELL" 0.001 48000 52000 empty_world) = Done None
  /\ calls (snd (place_oco_order filling_client default_validator_config
                   "BTCUSDT" "SELL" 0.001 48000 52000 empty_world)) = [].
Proof.
  assert (H : (upper "SELL" = "SELL" /\ ~ (52000 < 48000)%Q)
              \/ (upper "SELL" = "BUY" /\ ~ (48000 < 52000)%Q)).
  { left. split; [reflexivity | intros Hlt; discriminate Hlt]. }
  split; [exact H |].
  exact (place_oco_order_rejects_misordered_prices filling_client
           default_validator_config "BTCUSDT" "SELL" 0.001 48000 52000
           empty_world H).
Defined.

Lemma place_oco_order_legs_witness :
  oco_inputs_valid default_validator_config "BTCUSDT" "SELL" 0.001 52000 48000
  = true
  /\ fst (place_oco_order stop_rejecting_client default_validator_config
            "BTCUSDT" "SELL" 0.001 52000 48000 empty_world) = Done None
  /\ calls (snd (place_oco_order stop_rejecting_client
                   default_validator_config "BTCUSDT" "SELL" 0.001 52000
                   48000 empty_world))
     = [CreateOrder (take_profit_order_params default_validator_config
                       "BTCUSDT" "SELL" 0.001 52000 None true);
        CreateOrder (stop_market_order_params "BTCUSDT" "SELL" 0.001 48000
                       true);
        CancelOrder "BTCUSDT" (VInt 0)].
Proof.
  split; [reflexivity |].
  destruct (place_oco_order_legs stop_rejecting_client
              default_validator_config "BTCUSDT" "SELL" 0.001 52000 48000
              empty_world eq_refl) as (_ & _ & Hsl & _).
  destruct (Hsl (order_response 0 "NEW" "0" "0") (VInt 0)
              eq_refl eq_refl eq_refl) as [Hr Hc].
  split; [exact Hr |]. rewrite Hc. vm_compute. reflexivity.
Defined.


(* ===================================================================== *)
(** ** Rounding *)
(* ===================================================================== *)

Lemma round_half_even_near (z : Q) :
  (inject_Z (round_half_even z) - z <= 1 # 2
   /\ z - inject_Z (round_half_even z) <= 1 # 2)%Q.
Proof.
  unfold round_half_even.
  pose proof (Qfloor_le z) as Hlo. pose proof (Qlt_floor z) as Hhi.
  rewrite inject_Z_plus in Hhi. change (inject_Z 1) with 1%Q in Hhi.
  destruct (Qcompare_spec (z - inject_Z (Qfloor z)) (1 # 2)) as [He | Hl | Hg].
  - destruct (Z.even (Qfloor z)).
    + split; lra.
    + rewrite inject_Z_plus. change (inject_Z 1) with 1%Q. split; lra.
  - split; lra.
  - rewrite inject_Z_plus. change (inject_Z 1) with 1%Q. split; lra.
Qed.

Lemma ten_power_pos (n : Z) : (0 < 10 ^ n)%Q.
Proof. apply Qpower_0_lt. reflexivity. Qed.

(** Rounding to [n] decimals moves a value by at most half a unit. *)
Lemma py_round_near (x : Q) (n : Z) :
  (Qabs (py_round x n - x) <= (1 # 2) * precision_unit n)%Q.
Proof.
  unfold py_round, precision_unit. rewrite Qred_correct.
  pose proof (ten_power_pos n) as Hp.
  destruct (round_half_even_near (x * 10 ^ n)) as [Hup Hdown].
  set (k := inject_Z (round_half_even (x * 10 ^ n))) in *.
  assert (Hu : (k / 10 ^ n - x == (k - x * 10 ^ n) / 10 ^ n)%Q)
    by (field; lra).
  rewrite Hu. apply Qabs_Qle_condition. split.
  - apply Qle_shift_div_l; [exact Hp |].
    assert (E : (- ((1 # 2) * / 10 ^ n) * 10 ^ n == - (1 # 2))%Q)
      by (field; lra).
    rewrite E. lra.
  - apply Qle_shift_div_r; [exact Hp |].
    assert (E : ((1 # 2) * / 10 ^ n * 10 ^ n == 1 # 2)%Q) by (field; lra).
    rewrite E. lra.
Qed.

Lemma round_half_even_proper (x y : Q) :
  (x == y)%Q -> round_half_even x = round_half_even y.
Proof.
  intros Hxy. unfold round_half_even.
  assert (Hf : Qfloor x = Qfloor y) by (apply Qfloor_comp; exact Hxy).
  rewrite Hf.
  assert (Hc : (x - inject_Z (Qfloor y) ?= 1 # 2)%Q
               = (y - inject_Z (Qfloor y) ?= 1 # 2)%Q).
  { apply Qcompare_comp; [| reflexivity].
    apply Qplus_comp; [exact Hxy | reflexivity]. }
  rewrite Hc. reflexivity.
Qed.

(** Equal values round to the same float. *)
Lemma py_round_proper (x y : Q) (n : Z) :
  (x == y)%Q -> py_round x n = py_round y n.
Proof.
  intros Hxy. unfold py_round. apply Qred_complete.
  assert (Hr : round_half_even (x * 10 ^ n) = round_half_even (y * 10 ^ n)).
  { apply round_half_even_proper. apply Qmult_comp; [exact Hxy | reflexivity]. }
  rewrite Hr. reflexivity.
Qed.

Lemma precision_unit_pos (n : Z) : (0 < precision_unit n)%Q.
Proof. unfold precision_unit. apply Qinv_lt_0_compat. apply ten_power_pos. Qed.

Lemma round_half_even_Z (k : Z) : round_half_even (inject_Z k) = k.
Proof.
  unfold round_half_even. rewrite Qfloor_Z.
  assert (H : (inject_Z k - inject_Z k ?= 1 # 2)%Q = Lt).
  { apply (proj1 (Qlt_alt _ _)). generalize (inject_Z k). intros q. lra. }
  rewrite H. reflexivity.
Qed.

(** Formatting a formatted value changes nothing. *)
Lemma py_round_idempotent (x : Q) (n : Z) :
  py_round (py_round x n) n = py_round x n.
Proof.
  unfold py_round at 1 3. apply Qred_complete.
  pose proof (ten_power_pos n) as Hp.
  set (k := round_half_even (x * 10 ^ n)).
  assert (Hk : (py_round x n * 10 ^ n == inject_Z k)%Q).
  { unfold py_round. fold k. rewrite Qred_correct. field. lra. }
  rewrite (round_half_even_proper _ _ Hk), round_half_even_Z. reflexivity.
Qed.

Lemma round_half_even_monotone (x y : Q) :
  (x <= y)%Q -> (round_half_even x <= round_half_even y)%Z.
Proof.
  intros Hxy.
  pose proof (Qfloor_resp_le _ _ Hxy) as Hfl.
  pose proof (Qfloor_le x) as Hxlo. pose proof (Qlt_floor x) as Hxhi.
  pose proof (Qfloor_le y) as Hylo. pose proof (Qlt_floor y) as Hyhi.
  rewrite inject_Z_plus in Hxhi, Hyhi.
  change (inject_Z 1) with 1%Q in Hxhi, Hyhi.
  unfold round_half_even.
  destruct (Z.eq_dec (Qfloor x) (Qfloor y)) as [Heq | Hne].
  - rewrite <- Heq in *.
    destruct (Qcompare_spec (x - inject_Z (Qfloor x)) (1 # 2));
      destruct (Qcompare_spec (y - inject_Z (Qfloor x)) (1 # 2));
      try destruct (Z.even (Qfloor x)); try lia; exfalso; lra.
  - assert (Hlt : (Qfloor x + 1 <= Qfloor y)%Z) by lia.
    destruct (Qcompare_spec (x - inject_Z (Qfloor x)) (1 # 2));
      destruct (Qcompare_spec (y - inject_Z (Qfloor y)) (1 # 2));
      try destruct (Z.even (Qfloor x)); try destruct (Z.even (Qfloor y));
      lia.
Qed.

Lemma Qdiv_le_compat_r (a b c : Q) :
  (0 < c)%Q -> (a <= b)%Q -> (a / c <= b / c)%Q.
Proof.
  intros Hc Hab. apply Qle_shift_div_l; [exact Hc |].
  assert (E : (a / c * c == a)%Q) by (field; lra). rewrite E. exact Hab.
Qed.

(** Formatting keeps the order of two values. *)
Lemma py_round_monotone (x y : Q) (n : Z) :
  (x <= y)%Q -> (py_round x n <= py_round y n)%Q.
Proof.
  intros Hxy. unfold py_round. rewrite !Qred_correct.
  pose proof (ten_power_pos n) as Hp.
  apply Qdiv_le_compat_r; [exact Hp |].
  rewrite <- Zle_Qle. apply round_half_even_monotone.
  apply Qmult_le_compat_r; [exact Hxy | lra].
Qed.

(** Two values more than one unit apart stay apart after formatting. *)
Lemma py_round_strict (x y : Q) (n : Z) :
  (precision_unit n < y - x)%Q -> (py_round x n < py_round y n)%Q.
Proof.
  intros Hgap.
  pose proof (py_round_near x n) as Hx. pose proof (py_round_near y n) as Hy.
  pose proof (precision_unit_pos n) as Hu.
  apply Qabs_Qle_condition in Hx. apply Qabs_Qle_condition in Hy.
  lra.
Qed.

(* ===================================================================== *)
(** ** Properties of the TWAP scheduler *)
(* ===================================================================== *)

(** One step of a computation: the first part has run. *)
Lemma bind_run {S A B : Type}
    (m : M S A) (k : A -> M S B) (s s' : S) (a : A) :
  m s = (Done a, s') -> bind m k s = k a s'.
Proof. intros Hm. unfold bind. rewrite Hm. reflexivity. Qed.

Ltac run_step H := erewrite bind_run; [| exact H].
Ltac run_pure := erewrite bind_run; [| reflexivity].

Lemma for_each_app {S A : Type} (xs ys : list A) (body : A -> M S unit)
    (s : S) :
  for_each (xs ++ ys) body s
  = bind (for_each xs body) (fun _ => for_each ys body) s.
Proof.
  revert s. induction xs as [| x xs IH]; intros s; simpl.
  - reflexivity.
  - unfold bind in *. destruct (body x s) as [[[] | e] s']; [| reflexivity].
    rewrite IH. reflexivity.
Qed.

Lemma chunk_failures_app (l1 l2 : list (level * string)) :
  chunk_failures (l1 ++ l2) = (chunk_failures l1 + chunk_failures l2)%nat.
Proof.
  unfold chunk_failures. rewrite List.filter_app, length_app. reflexivity.
Qed.

Lemma chunk_failures_other (lg : list (level * string)) (r : level * string) :
  is_chunk_failure r = false -> chunk_failures (lg ++ [r]) = chunk_failures lg.
Proof.
  intros Hr. rewrite chunk_failures_app. unfold chunk_failures at 2. simpl.
  rewrite Hr. simpl. lia.
Qed.

Lemma chunk_failures_failure (lg : list (level * string)) :
  chunk_failures
    (lg ++ [(ERROR, "Failed to execute TWAP chunk {i+1}/{chunks}")])
  = S (chunk_failures lg).
Proof. rewrite chunk_failures_app. unfold chunk_failures at 2. simpl. lia. Qed.

Lemma range_succ (n : Z) :
  (0 <= n)%Z -> range (n + 1) = range n ++ [n].
Proof.
  intros Hn. unfold range.
  replace (Z.to_nat (n + 1)) with (S (Z.to_nat n)) by lia.
  rewrite seq_S, map_app. simpl. rewrite Z2Nat.id by exact Hn. reflexivity.
Qed.

Section TWAP.

Variable cl : Client.
Variable cfg : ValidatorConfig.
Variable tcfg : TwapConfig.
Variable float_of_str : string -> option Q.

(** A market placement never raises; what it yields and the calls it makes
    are those of [market_chunk_order] and [market_chunk_calls], and it logs
    no chunk failure. *)
Lemma place_market_order_run (symbol side : string) (size : Q) (w : World) :
  exists (o : option pydict) (w' : World),
    place_market_order cl cfg symbol side size false w = (Done o, w')
    /\ if_truthy o = market_chunk_order cl cfg symbol side size (calls w)
    /\ calls w' = calls w ++ market_chunk_calls cfg symbol side size
    /\ chunk_failures (log w') = chunk_failures (log w).
Proof.
  unfold place_market_order, market_chunk_order, market_chunk_calls,
    market_checks.
  destruct (fst (validate_symbol symbol)); simpl.
  2: { eexists _, _. split; [reflexivity |]. simpl.
       rewrite app_nil_r, chunk_failures_other by reflexivity. auto. }
  destruct (fst (validate_side side)); simpl.
  2: { eexists _, _. split; [reflexivity |]. simpl.
       rewrite app_nil_r, chunk_failures_other by reflexivity. auto. }
  destruct (fst (validate_quantity cfg size None)); simpl.
  2: { eexists _, _. split; [reflexivity |]. simpl.
       rewrite app_nil_r, chunk_failures_other by reflexivity. auto. }
  unfold try_except, bind, client_create_order, perform; simpl.
  destruct (futures_create_order cl (calls w) _) as [order | e]; simpl.
  - eexists _, _. split; [reflexivity |]. simpl.
    rewrite !chunk_failures_other by reflexivity. auto.
  - destruct e; simpl; eexists _, _; (split; [reflexivity |]); simpl;
      rewrite !chunk_failures_other by reflexivity; auto.
Qed.

Lemma validate_twap_parameters_inv
    (total_quantity : Q) (chunks interval_seconds : Z) :
  fst (validate_twap_parameters cfg total_quantity chunks interval_seconds)
  = true ->
  (2 <= chunks <= 100)%Z.
Proof.
  unfold validate_twap_parameters.
  destruct (validate_quantity cfg total_quantity None) as [[] ?]; simpl;
    [| discriminate].
  destruct (Z.ltb_spec chunks 2); simpl; [discriminate |].
  destruct (Z.ltb_spec 100 chunks); simpl; [discriminate |].
  intros _. lia.
Qed.

Lemma locals_rebuild (l : TwapLocals) :
  {| chunk_size := chunk_size l; executed_orders := executed_orders l ++ [] |}
  = l.
Proof. destruct l. simpl. rewrite app_nil_r. reflexivity. Qed.

(** A chunk of the asynchronous variant that is not the last one places
    the current chunk size and waits. *)
Lemma twap_chunk_async_nonfinal
    (symbol side : string) (total_quantity : Q) (chunks interval_seconds i : Z)
    (w : World) (l : TwapLocals) :
  (i < chunks - 1)%Z ->
  exists w' : World,
    twap_chunk_async cl cfg float_of_str symbol side total_quantity chunks
      interval_seconds i (w, l)
    = (Done tt,
       (w', {| chunk_size := chunk_size l;
               executed_orders :=
                 executed_orders l
                 ++ option_list (market_chunk_order cl cfg symbol side
                                   (chunk_size l) (calls w)) |}))
    /\ calls w'
       = calls w ++ market_chunk_calls cfg symbol side (chunk_size l)
         ++ [Sleep interval_seconds].
Proof.
  intros Hi. unfold twap_chunk_async.
  assert (Hne : (i =? chunks - 1)%Z = false) by (apply Z.eqb_neq; lia).
  assert (Hlt : (i <? chunks - 1)%Z = true) by (apply Z.ltb_lt; lia).
  rewrite Hne, Hlt.
  destruct (place_market_order_run symbol side (chunk_size l) w)
    as (o & w1 & Hrun & Ho & Hc & _).
  unfold bind, ret, locals, in_world. simpl. rewrite Hrun, Ho. simpl.
  destruct (market_chunk_order cl cfg symbol side (chunk_size l) (calls w))
    as [order |]; simpl.
  - eexists. split; [reflexivity |]. simpl. rewrite Hc, <- app_assoc.
    reflexivity.
  - rewrite locals_rebuild. eexists. split; [reflexivity |]. simpl.
    rewrite Hc, <- app_assoc. reflexivity.
Qed.

(** The last chunk of the asynchronous variant places what is left of the
    total after the executed quantities of the orders returned so far. *)
Lemma twap_chunk_async_final
    (symbol side : string) (total_quantity : Q) (chunks interval_seconds : Z)
    (w : World) (l : TwapLocals) (e : Q) :
  sum_floats float_of_str 0 (executed_qtys (executed_orders l)) = Done e ->
  let last_size := format_quantity cfg (total_quantity - e) in
  exists w' : World,
    twap_chunk_async cl cfg float_of_str symbol side total_quantity chunks
      interval_seconds (chunks - 1) (w, l)
    = (Done tt,
       (w', {| chunk_size := last_size;
               executed_orders :=
                 executed_orders l
                 ++ option_list (market_chunk_order cl cfg symbol side
                                   last_size (calls w)) |}))
    /\ calls w' = calls w ++ market_chunk_calls cfg symbol side last_size.
Proof.
  intros He last_size. unfold twap_chunk_async.
  rewrite Z.eqb_refl, Z.ltb_irrefl.
  destruct (place_market_order_run symbol side last_size w)
    as (o & w1 & Hrun & Ho & Hc & _).
  unfold bind, ret, locals, in_world, pure, set_chunk_size, set_locals.
  simpl. rewrite He. simpl. fold last_size. rewrite Hrun, Ho. simpl.
  destruct (market_chunk_order cl cfg symbol side last_size (calls w))
    as [order |]; simpl.
  - eexists. split; [reflexivity |]. exact Hc.
  - rewrite app_nil_r. eexists. split; [reflexivity |]. exact Hc.
Qed.

(** The chunks before the last one, in the asynchronous variant. *)
Lemma twap_async_prior
    (symbol side : string) (total_quantity : Q) (chunks interval_seconds : Z)
    (k : nat) :
  forall (i0 : nat) (w : World) (l : TwapLocals),
    (Z.of_nat (i0 + k) <= chunks - 1)%Z ->
    exists w' : World,
      for_each (map Z.of_nat (seq i0 k))
        (twap_chunk_async cl cfg float_of_str symbol side total_quantity
           chunks interval_seconds) (w, l)
      = (Done tt,
         (w', {| chunk_size := chunk_size l;
                 executed_orders :=
                   executed_orders l
                   ++ snd (twap_prior cl cfg symbol side (chunk_size l)
                             interval_seconds k (calls w)) |}))
      /\ calls w'
         = fst (twap_prior cl cfg symbol side (chunk_size l) interval_seconds
                  k (calls w)).
Proof.
  induction k as [| k IH]; intros i0 w l Hk.
  - simpl. rewrite locals_rebuild. eexists. split; reflexivity.
  - simpl seq. simpl map. simpl for_each.
    destruct (twap_chunk_async_nonfinal symbol side total_quantity chunks
                interval_seconds (Z.of_nat i0) w l) as (w1 & Hrun & Hc);
      [lia |].
    unfold bind. rewrite Hrun.
    match goal with
    | |- context [for_each _ _ (w1, ?l1)] =>
        destruct (IH (S i0) w1 l1 ltac:(lia)) as (w2 & Hloop & Hc2)
    end.
    rewrite Hloop. simpl in *. rewrite Hc in *. rewrite <- app_assoc.
    eexists. split; [reflexivity |]. exact Hc2.
Qed.

Lemma well_formed_order
    (h : list call) (params : pydict) (order : pydict) :
  well_formed_responses cl ->
  if_truthy (response_result (futures_create_order cl h params)) = Some order ->
  is_Some (order !! "orderId") /\ is_Some (order !! "status").
Proof.
  intros Hwf.
  destruct (futures_create_order cl h params) as [o | e] eqn:Hreply; simpl;
    [| discriminate].
  destruct (dict_truthy o); [| discriminate].
  intros [= <-]. exact (Hwf _ _ _ Hreply).
Qed.

(** A limit placement never raises; what it yields, the call it makes when
    its checks pass, and no chunk failure in the log. *)
Lemma place_limit_order_effect
    (symbol side : string) (quantity price : Q) (time_in_force : string)
    (reduce_only post_only : bool) (w : World) :
  let params :=
    limit_order_params symbol side (format_quantity cfg quantity)
      (format_price cfg price) time_in_force reduce_only post_only in
  exists (o : option pydict) (w' : World),
    place_limit_order cl cfg symbol side quantity price time_in_force
      reduce_only post_only w = (Done o, w')
    /\ if_truthy o
       = (if limit_checks cfg symbol side quantity price time_in_force
          then if_truthy (response_result
                            (futures_create_order cl (calls w) params))
          else None)
    /\ calls w'
       = calls w
         ++ (if limit_checks cfg symbol side quantity price time_in_force
             then [CreateOrder params] else [])
    /\ chunk_failures (log w') = chunk_failures (log w).
Proof.
  intros params. subst params.
  unfold place_limit_order, limit_checks, limit_check_order. simpl forallb.
  destruct (fst (validate_symbol symbol)); simpl.
  2: { eexists _, _. split; [reflexivity |]. simpl.
       rewrite app_nil_r, chunk_failures_other by reflexivity. auto. }
  destruct (fst (validate_side side)); simpl.
  2: { eexists _, _. split; [reflexivity |]. simpl.
       rewrite app_nil_r, chunk_failures_other by reflexivity. auto. }
  destruct (fst (validate_price cfg price)); simpl.
  2: { eexists _, _. split; [reflexivity |]. simpl.
       rewrite app_nil_r, chunk_failures_other by reflexivity. auto. }
  destruct (fst (validate_quantity cfg quantity (Some price))); simpl.
  2: { eexists _, _. split; [reflexivity |]. simpl.
       rewrite app_nil_r, chunk_failures_other by reflexivity. auto. }
  destruct (fst (validate_time_in_force time_in_force)); simpl.
  2: { eexists _, _. split; [reflexivity |]. simpl.
       rewrite app_nil_r, chunk_failures_other by reflexivity. auto. }
  unfold try_except, bind, client_create_order, perform; simpl.
  destruct (futures_create_order cl (calls w) _) as [order | e]; simpl.
  - eexists _, _. split; [reflexivity |]. simpl.
    rewrite !chunk_failures_other by reflexivity. auto.
  - destruct e; simpl; eexists _, _; (split; [reflexivity |]); simpl;
      rewrite !chunk_failures_other by reflexivity; auto.
Qed.

Lemma ticker_price_inv (answer : outcome pydict) (current_price : Q) :
  ticker_price float_of_str answer = Some current_price ->
  exists (ticker : pydict) (v : pyval),
    answer = Done ticker /\ ticker !! "price" = Some v
    /\ py_float float_of_str v = Done current_price.
Proof.
  unfold ticker_price. destruct answer as [ticker | e]; [| discriminate].
  destruct (ticker !! "price") as [v |] eqn:Hv; [| discriminate].
  destruct (py_float float_of_str v) as [q | e] eqn:Hq; [| discriminate].
  intros [= <-]. eauto.
Qed.

Lemma twap_place_result_well_formed
    (symbol side : string) (use_limit : bool) (limit_offset_percent size : Q)
    (h : list call) (order : pydict) :
  well_formed_responses cl ->
  twap_place_result cl cfg float_of_str symbol side use_limit
    limit_offset_percent size h = Some (Some order) ->
  is_Some (order !! "orderId") /\ is_Some (order !! "status").
Proof.
  intros Hwf. unfold twap_place_result, market_chunk_order.
  destruct use_limit.
  - destruct (ticker_price float_of_str _); [| discriminate].
    cbv zeta. destruct (limit_checks _ _ _ _ _ _); [| discriminate].
    intros [= H]. eapply well_formed_order; eassumption.
  - destruct (market_checks _ _ _ _); [| discriminate].
    intros [= H]. eapply well_formed_order; eassumption.
Qed.

(** The placement block of a chunk of [execute_twap_order], after the
    record that announces the chunk: when the ticker (if any) can be read
    it yields the order of [twap_place_result] and makes the calls of
    [twap_place_calls]. *)
Lemma twap_place_block
    (symbol side : string) (use_limit : bool) (limit_offset_percent size : Q)
    (w : World) (l : TwapLocals) (placed : option pydict) :
  twap_place_result cl cfg float_of_str symbol side use_limit
    limit_offset_percent size (calls w) = Some placed ->
  exists (o : option pydict) (w' : World),
    (if use_limit then
       bind (in_world (client_symbol_ticker cl symbol)) (fun ticker =>
       bind (dict_item ticker "price") (fun ticker_price =>
       bind (pure (py_float float_of_str ticker_price)) (fun current_price =>
       let limit_price :=
         if String.eqb (upper side) "BUY" then
           (current_price * (1 - limit_offset_percent / 100))%Q
         else (current_price * (1 + limit_offset_percent / 100))%Q in
       let limit_price := format_price cfg limit_price in
       in_world (place_limit_order cl cfg symbol side size limit_price "IOC"
                   false false))))
     else in_world (place_market_order cl cfg symbol side size false)) (w, l)
    = (Done o, (w', l))
    /\ if_truthy o = placed
    /\ calls w'
       = calls w ++ twap_place_calls cl cfg float_of_str symbol side
                      use_limit limit_offset_percent size (calls w)
    /\ chunk_failures (log w') = chunk_failures (log w).
Proof.
  unfold twap_place_result, twap_place_calls. destruct use_limit.
  - destruct (ticker_price float_of_str
                (futures_symbol_ticker cl (calls w) symbol))
      as [current_price |] eqn:Hticker; [| discriminate].
    cbv zeta. intros [= <-].
    destruct (ticker_price_inv _ _ Hticker) as (ticker & v & Ht & Hv & Hq).
    unfold bind, in_world, client_symbol_ticker, perform, dict_item, or_raise,
      pure. simpl. rewrite Ht. simpl. rewrite Hv. simpl. rewrite Hq. simpl.
    fold (twap_limit_price cfg side limit_offset_percent current_price).
    set (price := twap_limit_price cfg side limit_offset_percent
                    current_price).
    assert (Hprice : format_price cfg price = price)
      by apply py_round_idempotent.
    destruct (place_limit_order_effect symbol side size price "IOC" false
                false {| calls := calls w ++ [SymbolTicker symbol];
                         log := log w |})
      as (o & w1 & Hrun & Ho & Hc & Hf).
    rewrite Hprice in Ho, Hc. simpl in Ho, Hc, Hf.
    rewrite Hrun. exists o, w1. split; [reflexivity |].
    split; [exact Ho |]. split; [| exact Hf].
    rewrite Hc, <- app_assoc. reflexivity.
  - intros [= <-].
    destruct (place_market_order_run symbol side size w)
      as (o & w1 & Hrun & Ho & Hc & Hf).
    unfold in_world. simpl. rewrite Hrun.
    exists o, w1. split; [reflexivity |]. auto.
Qed.

(** A chunk of [execute_twap_order] that is not the last one places the
    current chunk size, records a failure when nothing came back, and
    waits. *)
Lemma twap_chunk_nonfinal
    (symbol side : string) (total_quantity : Q) (chunks interval_seconds : Z)
    (use_limit : bool) (limit_offset_percent : Q) (i : Z) (w : World)
    (l : TwapLocals) (placed : option pydict) :
  well_formed_responses cl ->
  (i < chunks - 1)%Z ->
  twap_place_result cl cfg float_of_str symbol side use_limit
    limit_offset_percent (chunk_size l) (calls w) = Some placed ->
  exists w' : World,
    twap_chunk cl cfg float_of_str symbol side total_quantity chunks
      interval_seconds use_limit limit_offset_percent i (w, l)
    = (Done tt,
       (w', {| chunk_size := chunk_size l;
               executed_orders := executed_orders l ++ option_list placed |}))
    /\ calls w'
       = calls w
         ++ twap_place_calls cl cfg float_of_str symbol side use_limit
              limit_offset_percent (chunk_size l) (calls w)
         ++ [Sleep interval_seconds]
    /\ (chunk_failures (log w') + length (option_list placed)
        = S (chunk_failures (log w)))%nat.
Proof.
  intros Hwf Hi Hplaced. unfold twap_chunk.
  assert (Hne : (i =? chunks - 1)%Z = false) by (apply Z.eqb_neq; lia).
  assert (Hlt : (i <? chunks - 1)%Z = true) by (apply Z.ltb_lt; lia).
  rewrite Hne, Hlt.
  destruct (twap_place_block symbol side use_limit limit_offset_percent
              (chunk_size l)
              (logged w INFO "Executing TWAP chunk {i+1}/{chunks}: {chunk_size} {symbol}")
              l placed Hplaced)
    as (o & w1 & Hrun & Ho & Hc & Hf).
  simpl in Hc, Hf. rewrite chunk_failures_other in Hf by reflexivity.
  unfold bind at 1. unfold ret at 1. unfold bind at 1. unfold locals at 1.
  unfold bind at 1. unfold in_world at 1, logger at 1. simpl.
  unfold bind at 1. unfold logged in Hrun. rewrite Hrun, Ho.
  destruct placed as [order |]; simpl.
  - destruct (twap_place_result_well_formed _ _ _ _ _ _ _ Hwf Hplaced)
      as [[oid Hoid] [st Hst]].
    unfold bind, append_order, set_locals, locals, dict_item, or_raise,
      in_world, ret, sleep, perform, logger. simpl.
    rewrite Hoid, Hst. simpl.
    eexists. split; [reflexivity |]. simpl.
    rewrite !chunk_failures_other by reflexivity.
    rewrite Hc, <- app_assoc. split; [reflexivity | lia].
  - unfold bind, in_world, ret, sleep, perform, logger. simpl.
    rewrite locals_rebuild. eexists. split; [reflexivity |]. simpl.
    rewrite chunk_failures_other by reflexivity.
    rewrite chunk_failures_failure.
    rewrite Hc, <- app_assoc. split; [reflexivity | lia].
Qed.

(** The last chunk of [execute_twap_order], when the executed quantities
    of the orders returned so far add up. *)
Lemma twap_chunk_final
    (symbol side : string) (total_quantity : Q) (chunks interval_seconds : Z)
    (use_limit : bool) (limit_offset_percent : Q) (w : World)
    (l : TwapLocals) (e : pynum) (placed : option pydict) :
  well_formed_responses cl ->
  py_sum (executed_qtys (executed_orders l)) = Some e ->
  let last_size := format_quantity cfg (total_quantity - pynum_to_Q e) in
  twap_place_result cl cfg float_of_str symbol side use_limit
    limit_offset_percent last_size (calls w) = Some placed ->
  exists w' : World,
    twap_chunk cl cfg float_of_str symbol side total_quantity chunks
      interval_seconds use_limit limit_offset_percent (chunks - 1) (w, l)
    = (Done tt,
       (w', {| chunk_size := last_size;
               executed_orders := executed_orders l ++ option_list placed |}))
    /\ calls w'
       = calls w
         ++ twap_place_calls cl cfg float_of_str symbol side use_limit
              limit_offset_percent last_size (calls w)
    /\ (chunk_failures (log w') + length (option_list placed)
        = S (chunk_failures (log w)))%nat.
Proof.
  intros Hwf He last_size Hplaced. unfold twap_chunk.
  rewrite Z.eqb_refl, Z.ltb_irrefl.
  destruct (twap_place_block symbol side use_limit limit_offset_percent
              last_size
              (logged w INFO "Executing TWAP chunk {i+1}/{chunks}: {chunk_size} {symbol}")
              {| chunk_size := last_size;
                 executed_orders := executed_orders l |} placed Hplaced)
    as (o & w1 & Hrun & Ho & Hc & Hf).
  simpl in Hc, Hf. rewrite chunk_failures_other in Hf by reflexivity.
  assert (Hre :
    bind locals (fun l0 : TwapLocals =>
      bind (or_raise (py_sum (executed_qtys (executed_orders l0))) TypeError)
        (fun executed_qty : pynum =>
           set_chunk_size
             (format_quantity cfg
                (total_quantity - pynum_to_Q executed_qty)))) (w, l)
    = (Done tt, (w, {| chunk_size := last_size;
                       executed_orders := executed_orders l |}))).
  { unfold bind, locals, or_raise. simpl. rewrite He. reflexivity. }
  run_step Hre. run_pure. run_pure. run_step Hrun. rewrite Ho.
  destruct placed as [order |]; simpl.
  - destruct (twap_place_result_well_formed _ _ _ _ _ _ _ Hwf Hplaced)
      as [[oid Hoid] [st Hst]].
    unfold bind, append_order, set_locals, locals, dict_item, or_raise,
      in_world, ret, logger. simpl.
    rewrite Hoid, Hst. simpl.
    eexists. split; [reflexivity |]. simpl.
    rewrite !chunk_failures_other by reflexivity.
    split; [exact Hc | lia].
  - unfold bind, in_world, ret, logger. simpl.
    rewrite app_nil_r. eexists. split; [reflexivity |]. simpl.
    rewrite chunk_failures_failure.
    split; [exact Hc | lia].
Qed.

(** The chunks before the last one, in [execute_twap_order]. *)
Lemma twap_sync_prior
    (symbol side : string) (total_quantity : Q) (chunks interval_seconds : Z)
    (use_limit : bool) (limit_offset_percent : Q) (k : nat) :
  well_formed_responses cl ->
  forall (i0 : nat) (w : World) (l : TwapLocals) (h : list call)
         (orders : list pydict),
    (Z.of_nat (i0 + k) <= chunks - 1)%Z ->
    twap_prior_mode cl cfg float_of_str symbol side use_limit
      limit_offset_percent (chunk_size l) interval_seconds k (calls w)
    = Some (h, orders) ->
    exists w' : World,
      for_each (map Z.of_nat (seq i0 k))
        (twap_chunk cl cfg float_of_str symbol side total_quantity chunks
           interval_seconds use_limit limit_offset_percent) (w, l)
      = (Done tt,
         (w', {| chunk_size := chunk_size l;
                 executed_orders := executed_orders l ++ orders |}))
      /\ calls w' = h
      /\ (chunk_failures (log w') + length orders
          = chunk_failures (log w) + k)%nat.
Proof.
  intros Hwf. induction k as [| k IH]; intros i0 w l h orders Hk Hprior.
  - simpl in Hprior. injection Hprior as <- <-.
    simpl. rewrite locals_rebuild. eexists. repeat split.
  - simpl in Hprior.
    destruct (twap_place_result cl cfg float_of_str symbol side use_limit
                limit_offset_percent (chunk_size l) (calls w))
      as [placed |] eqn:Hplaced; [| discriminate].
    destruct (twap_prior_mode cl cfg float_of_str symbol side use_limit
                limit_offset_percent (chunk_size l) interval_seconds k _)
      as [[h' rest] |] eqn:Hrest; [| discriminate].
    injection Hprior as <- <-.
    simpl seq. simpl map. simpl for_each.
    destruct (twap_chunk_nonfinal symbol side total_quantity chunks
                interval_seconds use_limit limit_offset_percent
                (Z.of_nat i0) w l placed Hwf ltac:(lia) Hplaced)
      as (w1 & Hrun & Hc & Hf).
    unfold bind. rewrite Hrun. rewrite <- Hc in Hrest.
    match goal with
    | |- context [for_each _ _ (w1, ?l1)] =>
        destruct (IH (S i0) w1 l1 h' rest ltac:(lia) Hrest)
          as (w2 & Hloop & Hc2 & Hf2)
    end.
    rewrite Hloop. simpl in *. rewrite <- app_assoc.
    eexists. split; [reflexivity |]. split; [exact Hc2 |].
    rewrite length_app. lia.
Qed.

Lemma range_split_last (n : Z) :
  (1 <= n)%Z ->
  range n = map Z.of_nat (seq 0 (Z.to_nat (n - 1))) ++ [(n - 1)%Z].
Proof.
  intros Hn. replace n with (n - 1 + 1)%Z at 1 by lia.
  rewrite range_succ by lia. reflexivity.
Qed.

(** The asynchronous variant as a whole: the calls it makes and the orders
    it returns, when the executed quantities of the earlier orders convert
    and add up to [e]. *)
Lemma execute_twap_order_async_run
    (symbol side : string) (total_quantity : Q)
    (chunks interval_seconds : option Z) (w : World) (e : Q) :
  let N := int_or chunks (default_chunks tcfg) in
  let T := int_or interval_seconds (default_interval tcfg) in
  let first_size := format_quantity cfg (total_quantity / inject_Z N) in
  let prior :=
    twap_prior cl cfg symbol side first_size T (Z.to_nat (N - 1)) (calls w) in
  let last_size := format_quantity cfg (total_quantity - e) in
  let r := execute_twap_order_async cl cfg tcfg float_of_str symbol side
             total_quantity chunks interval_seconds w in
  fst (validate_twap_parameters cfg total_quantity N T) = true ->
  sum_floats float_of_str 0 (executed_qtys (snd prior)) = Done e ->
  fst r = Done (Some (snd prior
                      ++ option_list (market_chunk_order cl cfg symbol side
                                        last_size (fst prior))))
  /\ calls (snd r)
     = fst prior ++ market_chunk_calls cfg symbol side last_size.
Proof.
  intros N T first_size prior last_size r Hvalid He.
  pose proof (validate_twap_parameters_inv _ _ _ Hvalid) as HN.
  cut (exists w' : World,
         r = (Done (Some (snd prior
                          ++ option_list (market_chunk_order cl cfg symbol
                                            side last_size (fst prior)))), w')
         /\ calls w'
            = fst prior ++ market_chunk_calls cfg symbol side last_size).
  { intros (w' & Hrun & Hc'). rewrite Hrun. split; [reflexivity | exact Hc']. }
  subst r. unfold execute_twap_order_async. fold N T. rewrite Hvalid. simpl.
  fold first_size.
  unfold bind at 1. unfold logger at 1. simpl.
  unfold with_locals, try_except. unfold bind at 1.
  rewrite range_split_last by lia. rewrite for_each_app. unfold bind at 1.
  match goal with
  | |- context [for_each _ _ (?w0, ?l0)] =>
      destruct (twap_async_prior symbol side total_quantity N T
                  (Z.to_nat (N - 1)) 0 w0 l0 ltac:(lia))
        as (w1 & Hloop & Hc)
  end.
  rewrite Hloop. simpl in Hc |- *. fold prior in Hc |- *.
  match goal with
  | |- context [bind (twap_chunk_async _ _ _ _ _ _ _ _ _) _ (w1, ?l1)] =>
      destruct (twap_chunk_async_final symbol side total_quantity N T w1 l1 e
                  He) as (w2 & Hlast & Hc2)
  end.
  unfold bind at 1. rewrite Hlast. simpl.
  rewrite Hc in *. fold last_size in Hc2 |- *.
  eexists. split; [reflexivity | exact Hc2].
Qed.

Lemma try_except_bind_done {S A B : Type}
    (m : M S A) (k : A -> M S B) (handler : exn -> M S B) (s s' : S) (a : A) :
  m s = (Done a, s') ->
  try_except (bind m k) handler s = try_except (k a) handler s'.
Proof. intros Hm. unfold try_except, bind. rewrite Hm. reflexivity. Qed.

(** The whole loop of [execute_twap_order]. *)
Lemma twap_sync_loop
    (symbol side : string) (total_quantity : Q) (chunks interval_seconds : Z)
    (use_limit : bool) (limit_offset_percent : Q) (w : World) (first_size : Q)
    (e : pynum) (h : list call) (orders : list pydict)
    (placed : option pydict) :
  let last_size := format_quantity cfg (total_quantity - pynum_to_Q e) in
  well_formed_responses cl ->
  (1 <= chunks)%Z ->
  twap_prior_mode cl cfg float_of_str symbol side use_limit
    limit_offset_percent first_size interval_seconds (Z.to_nat (chunks - 1))
    (calls w) = Some (h, orders) ->
  py_sum (executed_qtys orders) = Some e ->
  twap_place_result cl cfg float_of_str symbol side use_limit
    limit_offset_percent last_size h = Some placed ->
  exists w' : World,
    for_each (range chunks)
      (twap_chunk cl cfg float_of_str symbol side total_quantity chunks
         interval_seconds use_limit limit_offset_percent)
      (w, {| chunk_size := first_size; executed_orders := [] |})
    = (Done tt,
       (w', {| chunk_size := last_size;
               executed_orders := orders ++ option_list placed |}))
    /\ calls w'
       = h ++ twap_place_calls cl cfg float_of_str symbol side use_limit
                limit_offset_percent last_size h
    /\ (chunk_failures (log w') + length (orders ++ option_list placed)
        = chunk_failures (log w) + Z.to_nat chunks)%nat.
Proof.
  intros last_size Hwf HN Hprior He Hplaced.
  rewrite range_split_last by lia. rewrite for_each_app.
  destruct (twap_sync_prior symbol side total_quantity chunks
              interval_seconds use_limit limit_offset_percent
              (Z.to_nat (chunks - 1)) Hwf 0 w
              {| chunk_size := first_size; executed_orders := [] |} h orders
              ltac:(lia) Hprior)
    as (w1 & Hloop & Hc & Hf).
  simpl in Hloop. run_step Hloop. subst h.
  destruct (twap_chunk_final symbol side total_quantity chunks
              interval_seconds use_limit limit_offset_percent w1
              {| chunk_size := first_size; executed_orders := orders |} e
              placed Hwf He Hplaced)
    as (w2 & Hlast & Hc2 & Hf2).
  simpl for_each. run_step Hlast. simpl in Hf2 |- *.
  eexists. split; [reflexivity |]. split; [exact Hc2 |].
  rewrite length_app. lia.
Qed.

(** What follows the loop of [execute_twap_order] (the summary record and
    the [except] clause) hands back the executed orders, makes no call and
    logs no chunk failure. *)
Lemma twap_epilogue (w : World) (l : TwapLocals) :
  exists w' : World,
    try_except
      (bind locals (fun l =>
       bind (pure (sum_floats float_of_str 0
                     (executed_qtys (executed_orders l)))) (fun _ =>
       bind (pure (calculate_average_price float_of_str (executed_orders l)))
         (fun _ =>
       bind (in_world (logger INFO "TWAP execution completed: Executed {total_executed}/{total_quantity}, Average Price: {avg_price:.2f}, Orders: {len(executed_orders)}/{chunks}"))
         (fun _ => ret (Some (executed_orders l)))))))
      (fun _ =>
       bind (in_world (log_error_trace "execute_twap_order")) (fun _ =>
       bind locals (fun l => ret (orders_or_none (executed_orders l)))))
      (w, l)
    = (Done (Some (executed_orders l)), (w', l))
    /\ calls w' = calls w
    /\ chunk_failures (log w') = chunk_failures (log w).
Proof.
  unfold try_except, bind, locals, pure, in_world, ret. simpl.
  destruct l as [size orders]. simpl.
  destruct orders as [| o os].
  - simpl. eexists. split; [reflexivity |]. simpl.
    split; [reflexivity | apply chunk_failures_other; reflexivity].
  - destruct (sum_floats float_of_str 0 (executed_qtys (o :: os))); simpl.
    + destruct (calculate_average_price float_of_str (o :: os)); simpl;
        eexists; (split; [reflexivity |]); simpl;
        (split; [reflexivity | apply chunk_failures_other; reflexivity]).
    + eexists. split; [reflexivity |]. simpl.
      split; [reflexivity | apply chunk_failures_other; reflexivity].
Qed.

(** [execute_twap_order] as a whole: the orders it returns, the calls it
    makes and the failures it logs, when every ticker can be read and the
    executed quantities of the earlier orders are numbers that add up to
    [e]. *)
Lemma execute_twap_order_run
    (symbol side : string) (total_quantity : Q)
    (chunks interval_seconds : option Z) (use_limit : bool)
    (limit_offset_percent : Q) (w : World) (e : pynum) (h : list call)
    (orders : list pydict) (placed : option pydict) :
  let N := int_or chunks (default_chunks tcfg) in
  let T := int_or interval_seconds (default_interval tcfg) in
  let first_size := format_quantity cfg (total_quantity / inject_Z N) in
  let last_size := format_quantity cfg (total_quantity - pynum_to_Q e) in
  let r := execute_twap_order cl cfg tcfg float_of_str symbol side
             total_quantity chunks interval_seconds use_limit
             limit_offset_percent w in
  well_formed_responses cl ->
  fst (validate_twap_parameters cfg total_quantity N T) = true ->
  fst (validate_symbol symbol) = true ->
  fst (validate_side side) = true ->
  twap_prior_mode cl cfg float_of_str symbol side use_limit
    limit_offset_percent first_size T (Z.to_nat (N - 1)) (calls w)
  = Some (h, orders) ->
  py_sum (executed_qtys orders) = Some e ->
  twap_place_result cl cfg float_of_str symbol side use_limit
    limit_offset_percent last_size h = Some placed ->
  fst r = Done (Some (orders ++ option_list placed))
  /\ calls (snd r)
     = h ++ twap_place_calls cl cfg float_of_str symbol side use_limit
              limit_offset_percent last_size h
  /\ (chunk_failures (log (snd r)) + length (orders ++ option_list placed)
      = chunk_failures (log w) + Z.to_nat N)%nat.
Proof.
  intros N T first_size last_size r Hwf Hvalid Hsym Hside Hprior He Hplaced.
  pose proof (validate_twap_parameters_inv _ _ _ Hvalid) as HN.
  cut (exists w' : World,
         r = (Done (Some (orders ++ option_list placed)), w')
         /\ calls w'
            = h ++ twap_place_calls cl cfg float_of_str symbol side use_limit
                     limit_offset_percent last_size h
         /\ (chunk_failures (log w') + length (orders ++ option_list placed)
             = chunk_failures (log w) + Z.to_nat N)%nat).
  { intros (w' & Hrun & Hc' & Hf'). rewrite Hrun.
    split; [reflexivity |]. split; [exact Hc' | exact Hf']. }
  subst r. unfold execute_twap_order. fold N T.
  rewrite Hvalid, Hsym, Hside. simpl. fold first_size.
  unfold bind at 1. unfold logger at 1. simpl. unfold with_locals.
  destruct (twap_sync_loop symbol side total_quantity N T use_limit
              limit_offset_percent
              (logged w INFO "Starting TWAP execution: {symbol} {side} Total: {total_quantity}, Chunks: {chunks}, Chunk Size: {chunk_size}, Interval: {interval_seconds}s")
              first_size e h orders placed Hwf ltac:(lia) Hprior He Hplaced)
    as (w1 & Hloop & Hc & Hf).
  unfold logged in Hloop. simpl in Hc, Hf.
  fold last_size in Hloop, Hc, Hf.
  rewrite chunk_failures_other in Hf by reflexivity.
  rewrite (try_except_bind_done _ _ _ _ _ _ Hloop).
  match goal with
  | |- context [try_except _ _ (w1, ?l1)] =>
      destruct (twap_epilogue w1 l1) as (w2 & Hepi & Hc2 & Hf2)
  end.
  rewrite Hepi. simpl. eexists. split; [reflexivity |].
  rewrite Hc2, Hf2. split; [exact Hc | exact Hf].
Qed.



Lemma sum_floats_converts (vs : list pyval) :
  Forall (converts float_of_str) vs ->
  forall acc : Q, exists q : Q, sum_floats float_of_str acc vs = Done q.
Proof.
  induction 1 as [| v vs [q Hq] _ IH]; intros acc; simpl.
  - eauto.
  - rewrite Hq. simpl. apply IH.
Qed.

Lemma average_price_loop_converts (orders : list pydict) :
  Forall (order_converts float_of_str) orders ->
  forall total_qty total_value : Q,
  exists totals : Q * Q,
    average_price_loop float_of_str orders total_qty total_value = Done totals.
Proof.
  induction 1 as [| o os [[q Hq] [p Hp]] _ IH]; intros total_qty total_value;
    simpl.
  - eauto.
  - rewrite Hq. simpl. rewrite Hp. simpl. apply IH.
Qed.

Lemma observed_prices_converts (orders : list pydict) :
  Forall (order_converts float_of_str) orders ->
  exists prices : list Q, observed_prices float_of_str orders = Done prices.
Proof.
  induction 1 as [| o os [_ [p Hp]] _ [ps IH]]; simpl.
  - eauto.
  - destruct (pyval_truthy (dict_get o "avgPrice" VNone)).
    + rewrite Hp. simpl. rewrite IH. simpl. eauto.
    + eauto.
Qed.


End TWAP.

(* ===================================================================== *)
(** ** The TWAP scheduler: whole runs *)
(* ===================================================================== *)

Lemma bind_raise {S A B : Type}
    (m : M S A) (k : A -> M S B) (s s' : S) (e : exn) :
  m s = (Raised e, s') -> bind m k s = (Raised e, s').
Proof. intros Hm. unfold bind. rewrite Hm. reflexivity. Qed.

Section TwapOutcome.

Variable cl : Client.
Variable cfg : ValidatorConfig.
Variable tcfg : TwapConfig.
Variable float_of_str : string -> option Q.

(** The last chunk when the executed quantities cannot be summed: the
    recomputation raises before anything is logged or placed. *)
Lemma twap_chunk_final_unsummed
    (symbol side : string) (total_quantity : Q) (chunks interval_seconds : Z)
    (use_limit : bool) (limit_offset_percent : Q) (w : World)
    (l : TwapLocals) :
  py_sum (executed_qtys (executed_orders l)) = None ->
  twap_chunk cl cfg float_of_str symbol side total_quantity chunks
    interval_seconds use_limit limit_offset_percent (chunks - 1) (w, l)
  = (Raised TypeError, (w, l)).
Proof.
  intros He. unfold twap_chunk. rewrite Z.eqb_refl.
  unfold bind, locals, or_raise. simpl. rewrite He. reflexivity.
Qed.

(** The placement block when the ticker cannot be read: it raises after
    the ticker call. *)
Lemma twap_place_block_unread
    (symbol side : string) (use_limit : bool) (limit_offset_percent size : Q)
    (w : World) (l : TwapLocals) :
  twap_place_result cl cfg float_of_str symbol side use_limit
    limit_offset_percent size (calls w) = None ->
  exists (e : exn),
    (if use_limit then
       bind (in_world (client_symbol_ticker cl symbol)) (fun ticker =>
       bind (dict_item ticker "price") (fun ticker_price =>
       bind (pure (py_float float_of_str ticker_price)) (fun current_price =>
       let limit_price :=
         if String.eqb (upper side) "BUY" then
           (current_price * (1 - limit_offset_percent / 100))%Q
         else (current_price * (1 + limit_offset_percent / 100))%Q in
       let limit_price := format_price cfg limit_price in
       in_world (place_limit_order cl cfg symbol side size limit_price "IOC"
                   false false))))
     else in_world (place_market_order cl cfg symbol side size false)) (w, l)
    = (Raised e,
       ({| calls := calls w
                    ++ twap_place_calls cl cfg float_of_str symbol side
                         use_limit limit_offset_percent size (calls w);
           log := log w |}, l)).
Proof.
  unfold twap_place_result, twap_place_calls. destruct use_limit;
    [| discriminate].
  unfold ticker_price.
  unfold bind, in_world, client_symbol_ticker, perform, dict_item, or_raise,
    pure, raise. simpl.
  destruct (futures_symbol_ticker cl (calls w) symbol) as [ticker | e];
    simpl; [| intros _; eexists; reflexivity].
  destruct (ticker !! "price") as [v |]; simpl;
    [| intros _; eexists; reflexivity].
  destruct (py_float float_of_str v) as [q | e]; simpl;
    [discriminate | intros _; eexists; reflexivity].
Qed.

(** The last chunk when its size is recomputed but the ticker cannot be
    read. *)
Lemma twap_chunk_final_unread
    (symbol side : string) (total_quantity : Q) (chunks interval_seconds : Z)
    (use_limit : bool) (limit_offset_percent : Q) (w : World)
    (l : TwapLocals) (e : pynum) :
  py_sum (executed_qtys (executed_orders l)) = Some e ->
  let last_size := format_quantity cfg (total_quantity - pynum_to_Q e) in
  twap_place_result cl cfg float_of_str symbol side use_limit
    limit_offset_percent last_size (calls w) = None ->
  exists (x : exn) (w' : World),
    twap_chunk cl cfg float_of_str symbol side total_quantity chunks
      interval_seconds use_limit limit_offset_percent (chunks - 1) (w, l)
    = (Raised x,
       (w', {| chunk_size := last_size;
               executed_orders := executed_orders l |}))
    /\ calls w'
       = calls w
         ++ twap_place_calls cl cfg float_of_str symbol side use_limit
              limit_offset_percent last_size (calls w)
    /\ chunk_failures (log w') = chunk_failures (log w).
Proof.
  intros He last_size Hplaced. unfold twap_chunk.
  rewrite Z.eqb_refl, Z.ltb_irrefl.
  assert (Hre :
    bind locals (fun l0 : TwapLocals =>
      bind (or_raise (py_sum (executed_qtys (executed_orders l0))) TypeError)
        (fun executed_qty : pynum =>
           set_chunk_size
             (format_quantity cfg
                (total_quantity - pynum_to_Q executed_qty)))) (w, l)
    = (Done tt, (w, {| chunk_size := last_size;
                       executed_orders := executed_orders l |}))).
  { unfold bind, locals, or_raise. simpl. rewrite He. reflexivity. }
  run_step Hre. run_pure. run_pure.
  destruct (twap_place_block_unread symbol side use_limit
              limit_offset_percent last_size
              (logged w INFO "Executing TWAP chunk {i+1}/{chunks}: {chunk_size} {symbol}")
              {| chunk_size := last_size;
                 executed_orders := executed_orders l |} Hplaced)
    as (x & Hrun).
  erewrite bind_raise; [| exact Hrun].
  eexists _, _. split; [reflexivity |]. simpl.
  split; [reflexivity |]. apply chunk_failures_other. reflexivity.
Qed.





(** A run of [execute_twap_order] whose last chunk raises: the error
    trace is logged and the orders returned so far are handed back. *)
Lemma execute_twap_order_interrupted
    (symbol side : string) (total_quantity : Q)
    (chunks interval_seconds : option Z) (use_limit : bool)
    (limit_offset_percent : Q) (w : World) (h extra : list call)
    (orders : list pydict) :
  let N := int_or chunks (default_chunks tcfg) in
  let T := int_or interval_seconds (default_interval tcfg) in
  let first_size := format_quantity cfg (total_quantity / inject_Z N) in
  let r := execute_twap_order cl cfg tcfg float_of_str symbol side
             total_quantity chunks interval_seconds use_limit
             limit_offset_percent w in
  well_formed_responses cl ->
  fst (validate_twap_parameters cfg total_quantity N T) = true ->
  fst (validate_symbol symbol) = true ->
  fst (validate_side side) = true ->
  twap_prior_mode cl cfg float_of_str symbol side use_limit
    limit_offset_percent first_size T (Z.to_nat (N - 1)) (calls w)
  = Some (h, orders) ->
  (forall w1 : World,
     calls w1 = h ->
     exists (x : exn) (w2 : World) (l2 : TwapLocals),
       twap_chunk cl cfg float_of_str symbol side total_quantity N T
         use_limit limit_offset_percent (N - 1)
         (w1, {| chunk_size := first_size; executed_orders := orders |})
       = (Raised x, (w2, l2))
       /\ executed_orders l2 = orders
       /\ calls w2 = h ++ extra
       /\ chunk_failures (log w2) = chunk_failures (log w1)) ->
  fst r = Done (orders_or_none orders)
  /\ calls (snd r) = h ++ extra
  /\ (chunk_failures (log (snd r)) + length orders
      = chunk_failures (log w) + Z.to_nat (N - 1))%nat
  /\ last (log (snd r)) = Some (ERROR, "Error in execute_twap_order").
Proof.
  intros N T first_size r Hwf Hvalid Hsym Hside Hprior Hraise.
  pose proof (validate_twap_parameters_inv _ _ _ _ Hvalid) as HN.
  cut (exists w' : World,
         r = (Done (orders_or_none orders), w')
         /\ calls w' = h ++ extra
         /\ (chunk_failures (log w') + length orders
             = chunk_failures (log w) + Z.to_nat (N - 1))%nat
         /\ last (log w') = Some (ERROR, "Error in execute_twap_order")).
  { intros (w' & Hrun & Hc & Hf & Hl). rewrite Hrun.
    split; [reflexivity |]. split; [exact Hc |]. split; [exact Hf | exact Hl]. }
  subst r. unfold execute_twap_order. fold N T.
  rewrite Hvalid, Hsym, Hside. simpl. fold first_size.
  unfold bind at 1. unfold logger at 1. simpl. unfold with_locals.
  destruct (twap_sync_prior cl cfg float_of_str symbol side total_quantity N
              T use_limit limit_offset_percent (Z.to_nat (N - 1)) Hwf 0
              (logged w INFO "Starting TWAP execution: {symbol} {side} Total: {total_quantity}, Chunks: {chunks}, Chunk Size: {chunk_size}, Interval: {interval_seconds}s")
              {| chunk_size := first_size; executed_orders := [] |} h orders
              ltac:(lia) Hprior)
    as (w1 & Hloop & Hc & Hf).
  simpl in Hloop, Hf. rewrite chunk_failures_other in Hf by reflexivity.
  destruct (Hraise w1 Hc) as (x & w2 & l2 & Hlast & Hl2 & Hc2 & Hf2).
  assert (Hbody :
    for_each (range N)
      (twap_chunk cl cfg float_of_str symbol side total_quantity N T
         use_limit limit_offset_percent)
      (logged w INFO "Starting TWAP execution: {symbol} {side} Total: {total_quantity}, Chunks: {chunks}, Chunk Size: {chunk_size}, Interval: {interval_seconds}s",
       {| chunk_size := first_size; executed_orders := [] |})
    = (Raised x, (w2, l2))).
  { rewrite range_split_last by lia. rewrite for_each_app.
    run_step Hloop. simpl for_each.
    erewrite bind_raise; [reflexivity | exact Hlast]. }
  unfold logged in Hbody. unfold try_except.
  erewrite bind_raise; [| exact Hbody].
  unfold bind, in_world, log_error_trace, logger, locals, ret. simpl.
  rewrite Hl2. eexists. split; [reflexivity |]. simpl.
  split; [exact Hc2 |]. split.
  - rewrite chunk_failures_other by reflexivity. lia.
  - apply last_snoc.
Qed.

(** [execute_twap_order] as a whole, when every order that comes back
    carries an identifier and a status and every ticker before the last
    chunk can be read: the orders it returns, the calls it makes and the
    failures it logs. *)
Lemma execute_twap_order_outcome
    (symbol side : string) (total_quantity : Q)
    (chunks interval_seconds : option Z) (use_limit : bool)
    (limit_offset_percent : Q) (w : World) (h : list call)
    (orders : list pydict) :
  let N := int_or chunks (default_chunks tcfg) in
  let T := int_or interval_seconds (default_interval tcfg) in
  let first_size := format_quantity cfg (total_quantity / inject_Z N) in
  let final :=
    twap_last_placed cl cfg float_of_str symbol side use_limit
      limit_offset_percent total_quantity orders h in
  let r := execute_twap_order cl cfg tcfg float_of_str symbol side
             total_quantity chunks interval_seconds use_limit
             limit_offset_percent w in
  well_formed_responses cl ->
  fst (validate_twap_parameters cfg total_quantity N T) = true ->
  fst (validate_symbol symbol) = true ->
  fst (validate_side side) = true ->
  twap_prior_mode cl cfg float_of_str symbol side use_limit
    limit_offset_percent first_size T (Z.to_nat (N - 1)) (calls w)
  = Some (h, orders) ->
  fst r = Done (match final with
                | Some placed => Some (orders ++ option_list placed)
                | None => orders_or_none orders
                end)
  /\ calls (snd r)
     = h ++ twap_last_calls cl cfg float_of_str symbol side use_limit
              limit_offset_percent total_quantity orders h
  /\ (chunk_failures (log (snd r)) + length (orders ++ placed_orders final)
      = chunk_failures (log w) + Z.to_nat (N - 1)
        + match final with Some _ => 1 | None => 0 end)%nat
  /\ (final = None ->
      last (log (snd r)) = Some (ERROR, "Error in execute_twap_order")).
Proof.
  intros N T first_size final r Hwf Hvalid Hsym Hside Hprior.
  pose proof (validate_twap_parameters_inv _ _ _ _ Hvalid) as HN.
  destruct (twap_last_size cfg total_quantity orders) as [size |] eqn:Hsize.
  - (* the size of the last chunk is recomputed *)
    unfold twap_last_size in Hsize.
    destruct (py_sum (executed_qtys orders)) as [e |] eqn:He;
      [| discriminate].
    injection Hsize as <-.
    destruct final as [placed |] eqn:Hlast; subst final;
      unfold twap_last_placed, twap_last_size in Hlast;
      rewrite He in Hlast.
    + destruct (execute_twap_order_run cl cfg tcfg float_of_str symbol side
                  total_quantity chunks interval_seconds use_limit
                  limit_offset_percent w e h orders placed Hwf Hvalid Hsym
                  Hside Hprior He Hlast) as (Hr & Hc & Hf).
      fold r in Hr, Hc, Hf. unfold twap_last_calls, twap_last_size.
      rewrite He. simpl placed_orders.
      split; [exact Hr |]. split; [exact Hc |].
      split; [fold N in Hf; lia | discriminate].
    + destruct (execute_twap_order_interrupted symbol side total_quantity
                  chunks interval_seconds use_limit limit_offset_percent w h
                  (twap_place_calls cl cfg float_of_str symbol side use_limit
                     limit_offset_percent
                     (format_quantity cfg (total_quantity - pynum_to_Q e)) h)
                  orders Hwf Hvalid Hsym Hside Hprior)
        as (Hr & Hc & Hf & Hl).
      { intros w1 Hw1. rewrite <- Hw1 in Hlast |- *.
        destruct (twap_chunk_final_unread symbol side total_quantity N T
                    use_limit limit_offset_percent w1
                    {| chunk_size := first_size; executed_orders := orders |}
                    e He Hlast) as (x & w2 & Hrun & Hc & Hf).
        exists x, w2. eexists. split; [exact Hrun |].
        split; [reflexivity |]. split; [exact Hc | exact Hf]. }
      fold r in Hr, Hc, Hf, Hl. unfold twap_last_calls, twap_last_size.
      rewrite He. simpl placed_orders. rewrite app_nil_r.
      split; [exact Hr |]. split; [exact Hc |].
      split; [fold N in Hf; lia | intros _; exact Hl].
  - (* the executed quantities cannot be summed *)
    unfold twap_last_size in Hsize.
    destruct (py_sum (executed_qtys orders)) as [e |] eqn:He;
      [discriminate |].
    destruct (execute_twap_order_interrupted symbol side total_quantity
                chunks interval_seconds use_limit limit_offset_percent w h []
                orders Hwf Hvalid Hsym Hside Hprior)
      as (Hr & Hc & Hf & Hl).
    { intros w1 Hw1. exists TypeError, w1. eexists.
      split; [apply twap_chunk_final_unsummed; exact He |].
      split; [reflexivity |]. rewrite app_nil_r. split; [exact Hw1 | reflexivity]. }
    fold r in Hr, Hc, Hf, Hl.
    assert (Hfinal : final = None).
    { unfold final, twap_last_placed, twap_last_size. rewrite He.
      reflexivity. }
    rewrite Hfinal. unfold twap_last_calls, twap_last_size. rewrite He.
    simpl placed_orders. rewrite !app_nil_r. rewrite app_nil_r in Hc.
    split; [exact Hr |]. split; [exact Hc |].
    split; [fold N in Hf; lia | intros _; exact Hl].
Qed.

End TwapOutcome.

Section TwapChunks.

Variable cl : Client.
Variable cfg : ValidatorConfig.
Variable tcfg : TwapConfig.
Variable float_of_str : string -> option Q.



(** Adding up values raises as soon as one of them is text. *)
Lemma py_sum_from_text (vs : list pyval) :
  Exists (fun v => exists s : string, v = VStr s) vs ->
  forall acc : pynum, py_sum_from acc vs = None.
Proof.
  induction 1 as [v vs [s ->] | v vs _ IH]; intros acc; simpl.
  - reflexivity.
  - destruct (pyval_num v); [apply IH | reflexivity].
Qed.

Lemma twap_last_size_text (total_quantity : Q) (orders : list pydict) :
  Exists reports_text_quantity orders ->
  twap_last_size cfg total_quantity orders = None.
Proof.
  intros Htext. unfold twap_last_size, py_sum.
  rewrite py_sum_from_text; [reflexivity |].
  unfold executed_qtys. apply List.Exists_exists in Htext.
  destruct Htext as (order & Hin & s & Hs).
  apply List.Exists_exists. exists (VStr s). split; [| eauto].
  apply List.in_map_iff. exists order. split; [| exact Hin].
  unfold dict_get. rewrite Hs. reflexivity.
Qed.



(** X30. [execute_twap_order] adds up the [executedQty] values of the
    returned orders as they are, without the conversion the asynchronous
    variant makes.  When an order returned before the last chunk reports
    its executed quantity as text, the last chunk is never placed: the
    call logs the error trace and returns the earlier orders.  When the
    values are numbers, the last chunk is sized with the formatted rest of
    Q after their sum. *)
Theorem execute_twap_order_unconverted_quantities
    (symbol side : string) (total_quantity : Q)
    (chunks interval_seconds : option Z) (use_limit : bool)
    (limit_offset_percent : Q) (w : World) (h : list call)
    (orders : list pydict) :
  let N := int_or chunks (default_chunks tcfg) in
  let T := int_or interval_seconds (default_interval tcfg) in
  let first_size := format_quantity cfg (total_quantity / inject_Z N) in
  let r := execute_twap_order cl cfg tcfg float_of_str symbol side
             total_quantity chunks interval_seconds use_limit
             limit_offset_percent w in
  well_formed_responses cl ->
  fst (validate_twap_parameters cfg total_quantity N T) = true ->
  fst (validate_symbol symbol) = true ->
  fst (validate_side side) = true ->
  twap_prior_mode cl cfg float_of_str symbol side use_limit
    limit_offset_percent first_size T (Z.to_nat (N - 1)) (calls w)
  = Some (h, orders) ->
  (Exists reports_text_quantity orders ->
   fst r = Done (Some orders)
   /\ calls (snd r) = h
   /\ last (log (snd r)) = Some (ERROR, "Error in execute_twap_order"))
  /\ (forall e : pynum,
        py_sum (executed_qtys orders) = Some e ->
        calls (snd r)
        = h ++ twap_place_calls cl cfg float_of_str symbol side use_limit
                 limit_offset_percent
                 (format_quantity cfg (total_quantity - pynum_to_Q e)) h).
Proof.
  intros N T first_size r Hwf Hvalid Hsym Hside Hprior.
  destruct (execute_twap_order_outcome cl cfg tcfg float_of_str symbol side
              total_quantity chunks interval_seconds use_limit
              limit_offset_percent w h orders Hwf Hvalid Hsym Hside Hprior)
    as (Hr & Hc & _ & Hl).
  fold N T first_size r in Hr, Hc, Hl. split.
  - intros Htext.
    pose proof (twap_last_size_text total_quantity orders Htext) as Hsize.
    unfold twap_last_placed in Hr, Hl. unfold twap_last_calls in Hc.
    rewrite Hsize in Hr, Hc, Hl. rewrite app_nil_r in Hc.
    split; [| split; [exact Hc | exact (Hl eq_refl)]].
    rewrite Hr. destruct orders; [| reflexivity].
    apply Exists_nil in Htext. contradiction.
  - intros e He. unfold twap_last_calls, twap_last_size in Hc.
    rewrite He in Hc. exact Hc.
Qed.

End TwapChunks.





Lemma filling_client_well_formed : well_formed_responses filling_client.
Proof.
  intros h params order. simpl. intros [= <-]. split; eexists; reflexivity.
Qed.


Lemma execute_twap_order_unconverted_quantities_witness :
  let r := execute_twap_order filling_client default_validator_config
             default_twap_config decimal_float "BTCUSDT" "BUY" 0.003
             (Some 3%Z) (Some 1%Z) false 0.1 empty_world in
  fst r = Done (Some [order_response 0 "FILLED" "0.001" "50000";
                      order_response 2 "FILLED" "0.001" "50000"])
  /\ calls (snd r)
     = [CreateOrder (market_order_params "BTCUSDT" "BUY" 0.001 false);
        Sleep 1;
        CreateOrder (market_order_params "BTCUSDT" "BUY" 0.001 false);
        Sleep 1]
  /\ last (log (snd r)) = Some (ERROR, "Error in execute_twap_order").
Proof.
  intros r.
  epose proof (execute_twap_order_unconverted_quantities filling_client
                 default_validator_config default_twap_config decimal_float
                 "BTCUSDT" "BUY" 0.003 (Some 3%Z) (Some 1%Z) false 0.1
                 empty_world _ _ filling_client_well_formed) as H.
  cbv zeta in H.
  do 4 (lapply H; [clear H; intros H | reflexivity]).
  destruct H as [Htext _].
  apply Htext. left. eexists. reflexivity.
Defined.

(** The blocking variant against an exchange that reports executed
    quantities as decimal text: the recomputation before the last chunk
    raises, the last chunk is never placed and two orders are returned. *)
Example execute_twap_order_text_quantities :
  let r := execute_twap_order filling_client default_validator_config
             default_twap_config decimal_float "BTCUSDT" "BUY" 0.003
             (Some 3%Z) (Some 1%Z) false 0.1 empty_world in
  order_quantities (calls (snd r)) = [0.001; 0.001]%Q
  /\ last (log (snd r)) = Some (ERROR, "Error in execute_twap_order")
  /\ fst r = Done (Some [order_response 0 "FILLED" "0.001" "50000";
                         order_response 2 "FILLED" "0.001" "50000"]).
Proof. split; [| split]; reflexivity. Qed.

(** Limit chunks: each placement reads the ticker first and prices the
    order off it; the first one is rejected, the second one is sized with
    the whole quantity. *)
Example execute_twap_order_limit_chunks :
  let r := execute_twap_order late_filling_client default_validator_config
             default_twap_config decimal_float "BTCUSDT" "BUY" 0.003
             (Some 2%Z) (Some 1%Z) true 0.1 empty_world in
  twap_prior_mode late_filling_client default_validator_config decimal_float
    "BTCUSDT" "BUY" true 0.1 (1 # 500) 1 1 []
  = Some ([SymbolTicker "BTCUSDT";
           CreateOrder (limit_order_params "BTCUSDT" "BUY" (1 # 500) 49950 "IOC"
                          false false);
           Sleep 1], [])
  /\ calls (snd r)
     = [SymbolTicker "BTCUSDT";
        CreateOrder (limit_order_params "BTCUSDT" "BUY" (1 # 500) 49950 "IOC"
                       false false);
        Sleep 1;
        SymbolTicker "BTCUSDT";
        CreateOrder (limit_order_params "BTCUSDT" "BUY" 0.003 49950 "IOC"
                       false false)]
  /\ fst r = Done (Some [order_response 4 "FILLED" "0.003" "50000"])
  /\ chunk_failures (log (snd r)) = 1%nat.
Proof. repeat split; vm_compute; reflexivity. Qed.

(* ===================================================================== *)
(** ** Properties of the grid builder *)
(* ===================================================================== *)

Lemma range_lookup (n : Z) (i : nat) :
  range n !! i = if (i <? Z.to_nat n)%nat then Some (Z.of_nat i) else None.
Proof.
  unfold range. change (map Z.of_nat ?l) with (Z.of_nat <$> l).
  rewrite list_lookup_fmap.
  destruct (Nat.ltb_spec i (Z.to_nat n)) as [Hlt | Hge].
  - rewrite lookup_seq_lt by exact Hlt. reflexivity.
  - rewrite lookup_seq_ge by exact Hge. reflexivity.
Qed.

Section Grid.

Variable cl : Client.
Variable cfg : ValidatorConfig.
Variable gcfg : GridConfig.
Variable float_of_str : string -> option Q.

Lemma generate_grid_prices_length (lower_price grid_spacing : Q) (levels : Z) :
  length (generate_grid_prices cfg lower_price grid_spacing levels)
  = Z.to_nat levels.
Proof.
  unfold generate_grid_prices, range. rewrite !length_map, length_seq.
  reflexivity.
Qed.

Lemma generate_grid_prices_lookup
    (lower_price grid_spacing : Q) (levels : Z) (i : nat) :
  generate_grid_prices cfg lower_price grid_spacing levels !! i
  = if (i <? Z.to_nat levels)%nat then
      Some (format_price cfg
              (lower_price + inject_Z (Z.of_nat i) * grid_spacing)%Q)
    else None.
Proof.
  unfold generate_grid_prices.
  change (map ?f ?l) with (f <$> l). rewrite list_lookup_fmap, range_lookup.
  destruct (i <? Z.to_nat levels)%nat; reflexivity.
Qed.

Lemma validate_price_inv (price : Q) :
  fst (validate_price cfg price) = true -> (0 < price)%Q.
Proof.
  unfold validate_price.
  destruct (Qleb price 0) eqn:H0; [discriminate |].
  intros _. apply Qleb_gt. exact H0.
Qed.

Lemma validate_grid_parameters_inv (lower_price upper_price : Q) (levels : Z) :
  fst (validate_grid_parameters cfg lower_price upper_price levels) = true ->
  (0 < lower_price)%Q /\ (lower_price < upper_price)%Q
  /\ (2 <= levels <= 100)%Z.
Proof.
  unfold validate_grid_parameters.
  destruct (validate_price cfg lower_price) as [[] ?] eqn:Hl; simpl;
    [| discriminate].
  destruct (validate_price cfg upper_price) as [[] ?]; simpl;
    [| discriminate].
  destruct (Qleb upper_price lower_price) eqn:Hu; [discriminate |].
  destruct (Z.ltb_spec levels 2); [discriminate |].
  destruct (Z.ltb_spec 100 levels); [discriminate |].
  intros _. split; [| split; [| lia]].
  - apply validate_price_inv. rewrite Hl. reflexivity.
  - apply Qleb_gt. exact Hu.
Qed.

Lemma grid_spacing_pos (lower_price upper_price : Q) (levels : Z) :
  (lower_price < upper_price)%Q -> (2 <= levels)%Z ->
  (0 < (upper_price - lower_price) / inject_Z (levels - 1))%Q.
Proof.
  intros Hlu Hl. apply Qlt_shift_div_l.
  - change 0%Q with (inject_Z 0). rewrite <- Zlt_Qlt. lia.
  - lra.
Qed.

(** The raw price of a level grows with the level by at least one spacing. *)
Lemma grid_level_gap (lower_price spacing : Q) (i j : nat) :
  (0 < spacing)%Q -> (i < j)%nat ->
  (spacing <= (lower_price + inject_Z (Z.of_nat j) * spacing)
              - (lower_price + inject_Z (Z.of_nat i) * spacing))%Q.
Proof.
  intros Hs Hij.
  assert (Hz : (inject_Z (Z.of_nat i) + 1 <= inject_Z (Z.of_nat j))%Q).
  { change 1%Q with (inject_Z 1). rewrite <- inject_Z_plus, <- Zle_Qle. lia. }
  pose proof (Qmult_le_compat_r _ _ spacing Hz (Qlt_le_weak _ _ Hs)) as Hm.
  generalize dependent (inject_Z (Z.of_nat j)).
  generalize (inject_Z (Z.of_nat i)). intros a b _ Hm.
  assert (E : ((a + 1) * spacing == a * spacing + spacing)%Q) by ring.
  rewrite E in Hm. lra.
Qed.

(** C3 (amended). For valid grid inputs the generated price sequence has
    exactly [levels] elements and is non-decreasing; it is strictly
    increasing when the spacing exceeds one unit of the price precision;
    its first element is the formatted lower bound and its last element the
    formatted upper bound, each within half a unit of the bound. *)
Theorem grid_prices_shape (lower_price upper_price : Q) (levels : Z) :
  fst (validate_grid_parameters cfg lower_price upper_price levels) = true ->
  let grid_spacing :=
    ((upper_price - lower_price) / inject_Z (levels - 1))%Q in
  let prices := generate_grid_prices cfg lower_price grid_spacing levels in
  let unit := precision_unit (price_precision cfg) in
  length prices = Z.to_nat levels
  /\ non_decreasing prices
  /\ ((unit < grid_spacing)%Q -> strictly_increasing prices)
  /\ prices !! 0%nat = Some (format_price cfg lower_price)
  /\ prices !! (length prices - 1)%nat = Some (format_price cfg upper_price)
  /\ (Qabs (format_price cfg lower_price - lower_price) <= (1 # 2) * unit)%Q
  /\ (Qabs (format_price cfg upper_price - upper_price) <= (1 # 2) * unit)%Q.
Proof.
  intros Hvalid grid_spacing prices unit.
  apply validate_grid_parameters_inv in Hvalid as (Hlo & Hlu & Hlev).
  pose proof (grid_spacing_pos _ _ _ Hlu (proj1 Hlev)) as Hs.
  fold grid_spacing in Hs.
  assert (Hlen : length prices = Z.to_nat levels)
    by apply generate_grid_prices_length.
  split; [exact Hlen |]. split; [| split; [| split; [| split; [| split]]]].
  - intros i j x y Hij Hi Hj. unfold prices in Hi, Hj.
    rewrite generate_grid_prices_lookup in Hi, Hj.
    destruct (i <? Z.to_nat levels)%nat; [| discriminate].
    destruct (j <? Z.to_nat levels)%nat; [| discriminate].
    injection Hi as <-. injection Hj as <-.
    apply py_round_monotone.
    pose proof (grid_level_gap lower_price grid_spacing i j Hs Hij). lra.
  - intros Hunit i j x y Hij Hi Hj. unfold prices in Hi, Hj.
    rewrite generate_grid_prices_lookup in Hi, Hj.
    destruct (i <? Z.to_nat levels)%nat; [| discriminate].
    destruct (j <? Z.to_nat levels)%nat; [| discriminate].
    injection Hi as <-. injection Hj as <-.
    apply py_round_strict.
    pose proof (grid_level_gap lower_price grid_spacing i j Hs Hij).
    fold unit. lra.
  - unfold prices. rewrite generate_grid_prices_lookup.
    assert (H0 : (0 <? Z.to_nat levels)%nat = true) by (apply Nat.ltb_lt; lia).
    rewrite H0. f_equal. apply py_round_proper. simpl. ring.
  - rewrite Hlen. unfold prices. rewrite generate_grid_prices_lookup.
    assert (H1 : (Z.to_nat levels - 1 <? Z.to_nat levels)%nat = true)
      by (apply Nat.ltb_lt; lia).
    rewrite H1. f_equal. apply py_round_proper.
    replace (Z.of_nat (Z.to_nat levels - 1)) with (levels - 1)%Z by lia.
    unfold grid_spacing. field.
    assert (Hz : (0 < inject_Z (levels - 1))%Q).
    { change 0%Q with (inject_Z 0). rewrite <- Zlt_Qlt. lia. }
    lra.
  - apply py_round_near.
  - apply py_round_near.
Qed.

(** A limit placement never raises; it reaches the exchange exactly when
    its checks pass, and it only adds to the log. *)
Lemma place_limit_order_run
    (symbol side : string) (quantity price : Q) (time_in_force : string)
    (reduce_only post_only : bool) (w : World) :
  exists (o : option pydict) (w' : World),
    place_limit_order cl cfg symbol side quantity price time_in_force
      reduce_only post_only w = (Done o, w')
    /\ calls w'
       = calls w
         ++ (if limit_checks cfg symbol side quantity price time_in_force
             then [CreateOrder
                     (limit_order_params symbol side
                        (format_quantity cfg quantity)
                        (format_price cfg price) time_in_force reduce_only
                        post_only)]
             else [])
    /\ exists extra, log w' = log w ++ extra.
Proof.
  unfold place_limit_order, limit_checks, limit_check_order. simpl forallb.
  destruct (fst (validate_symbol symbol)); simpl;
    [| eexists _, _; split; [reflexivity |]; simpl; rewrite app_nil_r; eauto].
  destruct (fst (validate_side side)); simpl;
    [| eexists _, _; split; [reflexivity |]; simpl; rewrite app_nil_r; eauto].
  destruct (fst (validate_price cfg price)); simpl;
    [| eexists _, _; split; [reflexivity |]; simpl; rewrite app_nil_r; eauto].
  destruct (fst (validate_quantity cfg quantity (Some price))); simpl;
    [| eexists _, _; split; [reflexivity |]; simpl; rewrite app_nil_r; eauto].
  destruct (fst (validate_time_in_force time_in_force)); simpl;
    [| eexists _, _; split; [reflexivity |]; simpl; rewrite app_nil_r; eauto].
  unfold try_except, bind, client_create_order, perform; simpl.
  destruct (futures_create_order cl (calls w) _) as [order | e]; simpl.
  - eexists _, _. split; [reflexivity |]. simpl. rewrite <- !app_assoc. eauto.
  - destruct e; simpl; eexists _, _; (split; [reflexivity |]); simpl;
      rewrite <- ?app_assoc; eauto.
Qed.

Lemma place_grid_order_run
    (symbol side : string) (quantity price : Q) (orders : list pydict)
    (w : World) :
  exists (orders' : list pydict) (w' : World),
    place_grid_order cl cfg symbol side quantity price orders w
    = (Done orders', w')
    /\ calls w'
       = calls w
         ++ (if limit_checks cfg symbol side quantity price "GTC"
             then [CreateOrder
                     (limit_order_params symbol side
                        (format_quantity cfg quantity)
                        (format_price cfg price) "GTC" false true)]
             else [])
    /\ exists extra, log w' = log w ++ extra.
Proof.
  destruct (place_limit_order_run symbol side quantity price "GTC" false true
              w) as (o & w' & Hrun & Hc & Hl).
  unfold place_grid_order, bind. rewrite Hrun.
  destruct (if_truthy o); simpl; eexists _, _; split; eauto.
Qed.

Lemma log_extends_trans (w w1 w2 : World) :
  (exists extra, log w1 = log w ++ extra) ->
  (exists extra, log w2 = log w1 ++ extra) ->
  exists extra, log w2 = log w ++ extra.
Proof.
  intros [e1 H1] [e2 H2]. exists (e1 ++ e2).
  rewrite H2, H1, app_assoc. reflexivity.
Qed.

Lemma log_extends_refl (w : World) : exists extra, log w = log w ++ extra.
Proof. exists []. rewrite app_nil_r. reflexivity. Qed.

(** The neutral loop over prices that are already formatted, with a
    quantity that is already formatted. *)
Lemma grid_neutral_run
    (symbol : string) (quantity current_price : Q) (prices : list Q) :
  format_quantity cfg quantity = quantity ->
  Forall (fun p => format_price cfg p = p) prices ->
  forall (buy_orders sell_orders : list pydict) (w : World),
  exists (placed : list pydict * list pydict) (w' : World),
    grid_neutral cl cfg symbol quantity current_price prices buy_orders
      sell_orders w = (Done placed, w')
    /\ calls w'
       = calls w
         ++ concat (map (neutral_level_calls cfg symbol quantity
                           current_price) prices).
Proof.
  intros Hq Hprices.
  induction Hprices as [| p ps Hp _ IH]; intros buy_orders sell_orders w.
  - simpl. eexists _, _. split; [reflexivity |]. rewrite app_nil_r.
    reflexivity.
  - simpl. unfold neutral_level_calls at 1, grid_level_calls.
    destruct (Qltb p current_price).
    + destruct (place_grid_order_run symbol "BUY" quantity p buy_orders w)
        as (b & w1 & Hrun & Hc & _).
      unfold bind. rewrite Hrun.
      destruct (IH b sell_orders w1) as (placed & w2 & Hrest & Hc2).
      rewrite Hrest. eexists _, _. split; [reflexivity |].
      rewrite Hc2, Hc, Hq, Hp, <- app_assoc. reflexivity.
    + destruct (Qltb current_price p).
      * destruct (place_grid_order_run symbol "SELL" quantity p sell_orders w)
          as (s & w1 & Hrun & Hc & _).
        unfold bind. rewrite Hrun.
        destruct (IH buy_orders s w1) as (placed & w2 & Hrest & Hc2).
        rewrite Hrest. eexists _, _. split; [reflexivity |].
        rewrite Hc2, Hc, Hq, Hp, <- app_assoc. reflexivity.
      * apply IH.
Qed.

Lemma grid_long_run
    (symbol : string) (quantity current_price : Q) (prices : list Q) :
  format_quantity cfg quantity = quantity ->
  Forall (fun p => format_price cfg p = p) prices ->
  forall (buy_orders : list pydict) (w : World),
  exists (placed : list pydict) (w' : World),
    grid_long cl cfg symbol quantity current_price prices buy_orders w
    = (Done placed, w')
    /\ calls w'
       = calls w
         ++ concat (map (long_level_calls cfg symbol quantity current_price)
                        prices).
Proof.
  intros Hq Hprices.
  induction Hprices as [| p ps Hp _ IH]; intros buy_orders w.
  - simpl. eexists _, _. split; [reflexivity |]. rewrite app_nil_r.
    reflexivity.
  - simpl. unfold long_level_calls at 1, grid_level_calls.
    destruct (Qleb p current_price).
    + destruct (place_grid_order_run symbol "BUY" quantity p
                  buy_orders w) as (b & w1 & Hrun & Hc & _).
      unfold bind. rewrite Hrun.
      destruct (IH b w1) as (placed & w2 & Hrest & Hc2).
      rewrite Hrest. eexists _, _. split; [reflexivity |].
      rewrite Hc2, Hc, Hq, Hp, <- app_assoc. reflexivity.
    + apply IH.
Qed.

Lemma grid_short_run
    (symbol : string) (quantity current_price : Q) (prices : list Q) :
  format_quantity cfg quantity = quantity ->
  Forall (fun p => format_price cfg p = p) prices ->
  forall (sell_orders : list pydict) (w : World),
  exists (placed : list pydict) (w' : World),
    grid_short cl cfg symbol quantity current_price prices sell_orders w
    = (Done placed, w')
    /\ calls w'
       = calls w
         ++ concat (map (short_level_calls cfg symbol quantity current_price)
                        prices).
Proof.
  intros Hq Hprices.
  induction Hprices as [| p ps Hp _ IH]; intros sell_orders w.
  - simpl. eexists _, _. split; [reflexivity |]. rewrite app_nil_r.
    reflexivity.
  - simpl. unfold short_level_calls at 1, grid_level_calls.
    destruct (Qleb current_price p).
    + destruct (place_grid_order_run symbol "SELL" quantity p
                  sell_orders w) as (b & w1 & Hrun & Hc & _).
      unfold bind. rewrite Hrun.
      destruct (IH b w1) as (placed & w2 & Hrest & Hc2).
      rewrite Hrest. eexists _, _. split; [reflexivity |].
      rewrite Hc2, Hc, Hq, Hp, <- app_assoc. reflexivity.
    + apply IH.
Qed.

Lemma grid_long_total
    (symbol : string) (quantity current_price : Q) (prices : list Q) :
  forall (buy_orders : list pydict) (w : World),
  exists (placed : list pydict) (w' : World),
    grid_long cl cfg symbol quantity current_price prices buy_orders w
    = (Done placed, w')
    /\ exists extra, log w' = log w ++ extra.
Proof.
  induction prices as [| p ps IH]; intros buy_orders w; simpl.
  - eexists _, _. split; [reflexivity | apply log_extends_refl].
  - destruct (Qleb p current_price); [| apply IH].
    destruct (place_grid_order_run symbol "BUY" quantity p buy_orders w)
      as (b & w1 & Hrun & _ & Hl).
    unfold bind. rewrite Hrun.
    destruct (IH b w1) as (placed & w2 & Hrest & Hl2).
    eexists _, _. split; [exact Hrest |].
    eapply log_extends_trans; eassumption.
Qed.

Lemma grid_short_total
    (symbol : string) (quantity current_price : Q) (prices : list Q) :
  forall (sell_orders : list pydict) (w : World),
  exists (placed : list pydict) (w' : World),
    grid_short cl cfg symbol quantity current_price prices sell_orders w
    = (Done placed, w')
    /\ exists extra, log w' = log w ++ extra.
Proof.
  induction prices as [| p ps IH]; intros sell_orders w; simpl.
  - eexists _, _. split; [reflexivity | apply log_extends_refl].
  - destruct (Qleb current_price p); [| apply IH].
    destruct (place_grid_order_run symbol "SELL" quantity p sell_orders w)
      as (s & w1 & Hrun & _ & Hl).
    unfold bind. rewrite Hrun.
    destruct (IH s w1) as (placed & w2 & Hrest & Hl2).
    eexists _, _. split; [exact Hrest |].
    eapply log_extends_trans; eassumption.
Qed.

Lemma grid_neutral_total
    (symbol : string) (quantity current_price : Q) (prices : list Q) :
  forall (buy_orders sell_orders : list pydict) (w : World),
  exists (placed : list pydict * list pydict) (w' : World),
    grid_neutral cl cfg symbol quantity current_price prices buy_orders
      sell_orders w = (Done placed, w')
    /\ exists extra, log w' = log w ++ extra.
Proof.
  induction prices as [| p ps IH]; intros buy_orders sell_orders w; simpl.
  - eexists _, _. split; [reflexivity | apply log_extends_refl].
  - destruct (Qltb p current_price).
    + destruct (place_grid_order_run symbol "BUY" quantity p buy_orders w)
        as (b & w1 & Hrun & _ & Hl).
      unfold bind. rewrite Hrun.
      destruct (IH b sell_orders w1) as (placed & w2 & Hrest & Hl2).
      eexists _, _. split; [exact Hrest |].
      eapply log_extends_trans; eassumption.
    + destruct (Qltb current_price p); [| apply IH].
      destruct (place_grid_order_run symbol "SELL" quantity p sell_orders w)
        as (s & w1 & Hrun & _ & Hl).
      unfold bind. rewrite Hrun.
      destruct (IH buy_orders s w1) as (placed & w2 & Hrest & Hl2).
      eexists _, _. split; [exact Hrest |].
      eapply log_extends_trans; eassumption.
Qed.

(** Placing the levels never raises, whatever the mode, and only adds to
    the log. *)
Lemma place_grid_by_mode_total
    (symbol mode : string) (quantity current_price : Q) (prices : list Q)
    (w : World) :
  exists (placed : list pydict * list pydict) (w' : World),
    place_grid_by_mode cl cfg symbol mode quantity current_price prices w
    = (Done placed, w')
    /\ exists extra, log w' = log w ++ extra.
Proof.
  unfold place_grid_by_mode.
  destruct (String.eqb mode "neutral"); [apply grid_neutral_total |].
  destruct (String.eqb mode "long").
  { destruct (grid_long_total symbol quantity current_price prices [] w)
      as (b & w1 & Hrun & Hl).
    unfold bind. rewrite Hrun. eexists _, _. split; [reflexivity | exact Hl]. }
  destruct (String.eqb mode "short").
  { destruct (grid_short_total symbol quantity current_price prices [] w)
      as (s & w1 & Hrun & Hl).
    unfold bind. rewrite Hrun. eexists _, _. split; [reflexivity | exact Hl]. }
  eexists _, _. split; [reflexivity | apply log_extends_refl].
Qed.

(** Placing the levels of formatted prices with a formatted quantity: the
    exchange calls are those of the mode's policy, level by level. *)
Lemma place_grid_by_mode_run
    (symbol mode : string) (quantity current_price : Q) (prices : list Q)
    (w : World) :
  format_quantity cfg quantity = quantity ->
  Forall (fun p => format_price cfg p = p) prices ->
  exists (placed : list pydict * list pydict) (w' : World),
    place_grid_by_mode cl cfg symbol mode quantity current_price prices w
    = (Done placed, w')
    /\ calls w'
       = calls w
         ++ concat (map (mode_level_calls cfg symbol mode quantity
                           current_price) prices)
    /\ exists extra, log w' = log w ++ extra.
Proof.
  intros Hq Hfmt.
  destruct (place_grid_by_mode_total symbol mode quantity current_price
              prices w) as (placed & w' & Hrun & Hlog).
  exists placed, w'. split; [exact Hrun |]. split; [| exact Hlog].
  revert Hrun. unfold place_grid_by_mode, mode_level_calls.
  destruct (String.eqb mode "neutral").
  { destruct (grid_neutral_run symbol quantity current_price prices Hq Hfmt
                [] [] w) as (p2 & w2 & H2 & Hc).
    rewrite H2. intros [= _ <-]. exact Hc. }
  destruct (String.eqb mode "long").
  { destruct (grid_long_run symbol quantity current_price prices Hq Hfmt
                [] w) as (b & w2 & H2 & Hc).
    unfold bind. rewrite H2. simpl. intros [= _ <-]. exact Hc. }
  destruct (String.eqb mode "short").
  { destruct (grid_short_run symbol quantity current_price prices Hq Hfmt
                [] w) as (b & w2 & H2 & Hc).
    unfold bind. rewrite H2. simpl. intros [= _ <-]. exact Hc. }
  intros [= _ <-].
  assert (Hnil : concat (map (fun _ : Q => @nil call) prices) = [])
    by (clear; induction prices; simpl; auto).
  rewrite Hnil, app_nil_r. reflexivity.
Qed.

(** With valid parameters, a spacing that is not below the minimum and a
    ticker that answers, [create_grid_orders] is the placement of the
    levels followed by the construction of the result. *)
Lemma create_grid_orders_placement
    (symbol : string) (lower_price upper_price total_quantity : Q)
    (grid_levels : option Z) (mode : string) (w : World) (current_price : Q) :
  let levels := int_or grid_levels (default_grid_levels gcfg) in
  let grid_spacing :=
    ((upper_price - lower_price) / inject_Z (levels - 1))%Q in
  let spacing_percent := grid_spacing_percent lower_price upper_price levels in
  let qty_per_level :=
    format_quantity cfg (total_quantity / inject_Z levels) in
  let grid_prices := generate_grid_prices cfg lower_price grid_spacing levels in
  let w1 := {| calls := calls w ++ [SymbolTicker symbol];
               log := log w ++ grid_preamble_log gcfg spacing_percent |} in
  fst (validate_grid_parameters cfg lower_price upper_price levels) = true ->
  fst (validate_symbol symbol) = true ->
  Qltb spacing_percent (min_spacing gcfg) = false ->
  ticker_price float_of_str (futures_symbol_ticker cl (calls w) symbol)
  = Some current_price ->
  create_grid_orders cl cfg gcfg float_of_str symbol lower_price upper_price
    total_quantity grid_levels mode w
  = match place_grid_by_mode cl cfg symbol mode qty_per_level current_price
            grid_prices w1 with
    | (Done (buy_orders, sell_orders), w2) =>
        (Done (Some {|
           gr_symbol := symbol;
           gr_mode := mode;
           gr_grid_levels := levels;
           gr_lower_price := lower_price;
           gr_upper_price := upper_price;
           gr_current_price := current_price;
           gr_grid_prices := grid_prices;
           gr_buy_orders := buy_orders;
           gr_sell_orders := sell_orders;
           gr_total_orders :=
             Z.of_nat (length buy_orders + length sell_orders)
         |}),
         logged w2 INFO "Grid created: {len(buy_orders)} buy orders, {len(sell_orders)} sell orders")
    | (Raised _, w2) =>
        (Done None, logged w2 ERROR "Error in create_grid_orders")
    end.
Proof.
  intros levels grid_spacing spacing_percent qty_per_level grid_prices w1
    Hvalid Hsym Hmin Hticker.
  unfold create_grid_orders. fold levels. rewrite Hvalid, Hsym. simpl.
  fold grid_spacing.
  change (grid_spacing / lower_price * 100)%Q with spacing_percent.
  rewrite Hmin. fold qty_per_level grid_prices.
  unfold ticker_price in Hticker.
  destruct (futures_symbol_ticker cl (calls w) symbol) as [ticker | e] eqn:Ht;
    [| discriminate].
  destruct (ticker !! "price") as [v |] eqn:Hv; [| discriminate].
  destruct (py_float float_of_str v) as [q | e] eqn:Hq; [| discriminate].
  injection Hticker as ->.
  unfold w1, grid_preamble_log.
  destruct (Qltb (max_spacing gcfg) spacing_percent);
    unfold bind, try_except, logger, client_symbol_ticker, perform, dict_item,
      or_raise, pure, ret; simpl; rewrite Ht; simpl; rewrite Hv; simpl;
      rewrite Hq; simpl; rewrite <- ?app_assoc; simpl;
      match goal with
      | |- context [place_grid_by_mode _ _ _ _ _ _ _ ?w0] =>
          destruct (place_grid_by_mode cl cfg symbol mode qty_per_level
                      current_price grid_prices w0) as [[[b s] | e] w2]
      end; reflexivity.
Qed.

(** Under the same conditions the call returns a grid that holds the
    generated prices. *)
Lemma create_grid_orders_returns_grid
    (symbol : string) (lower_price upper_price total_quantity : Q)
    (grid_levels : option Z) (mode : string) (w : World) (current_price : Q) :
  let levels := int_or grid_levels (default_grid_levels gcfg) in
  fst (validate_grid_parameters cfg lower_price upper_price levels) = true ->
  fst (validate_symbol symbol) = true ->
  Qltb (grid_spacing_percent lower_price upper_price levels)
       (min_spacing gcfg) = false ->
  ticker_price float_of_str (futures_symbol_ticker cl (calls w) symbol)
  = Some current_price ->
  exists grid : GridResult,
    fst (create_grid_orders cl cfg gcfg float_of_str symbol lower_price
           upper_price total_quantity grid_levels mode w) = Done (Some grid)
    /\ gr_grid_prices grid
       = generate_grid_prices cfg lower_price
           ((upper_price - lower_price) / inject_Z (levels - 1)) levels.
Proof.
  intros levels Hvalid Hsym Hmin Hticker.
  pose proof (create_grid_orders_placement symbol lower_price upper_price
                total_quantity grid_levels mode w current_price Hvalid Hsym
                Hmin Hticker) as Hrun.
  cbv zeta in Hrun. fold levels in Hrun.
  match type of Hrun with
  | context [place_grid_by_mode _ _ _ _ ?q _ ?ps ?w1] =>
      destruct (place_grid_by_mode_total symbol mode q current_price ps w1)
        as ([b s] & w2 & Hplace & _)
  end.
  rewrite Hplace in Hrun. rewrite Hrun. simpl.
  eexists. split; reflexivity.
Qed.

(** Formatted quantities and generated prices are left unchanged by the
    formatting of [place_limit_order]. *)
Lemma generate_grid_prices_formatted
    (lower_price grid_spacing : Q) (levels : Z) :
  Forall (fun p => format_price cfg p = p)
         (generate_grid_prices cfg lower_price grid_spacing levels).
Proof.
  unfold generate_grid_prices. apply Forall_map. apply Forall_forall.
  intros i _. apply py_round_idempotent.
Qed.

(** C7. With otherwise valid parameters, a spacing percent strictly below
    the configured minimum makes the call return no result after logging
    the rejection, without any exchange call.  A spacing percent that is
    not below the minimum and is above the configured maximum produces only
    a warning and the grid is still created (the ticker answering): the
    warning is the one record the spacing check adds, the current price is
    read, the levels are placed by the policy of the mode exactly as
    without the warning, and the call returns the grid with the generated
    prices, the orders that came back and their count. *)
Theorem create_grid_orders_spacing_bounds
    (symbol : string) (lower_price upper_price total_quantity : Q)
    (grid_levels : option Z) (mode : string) (w : World) :
  let levels := int_or grid_levels (default_grid_levels gcfg) in
  let grid_spacing :=
    ((upper_price - lower_price) / inject_Z (levels - 1))%Q in
  let spacing_percent := grid_spacing_percent lower_price upper_price levels in
  let qty_per_level :=
    format_quantity cfg (total_quantity / inject_Z levels) in
  let grid_prices := generate_grid_prices cfg lower_price grid_spacing levels in
  let r := create_grid_orders cl cfg gcfg float_of_str symbol lower_price
             upper_price total_quantity grid_levels mode w in
  fst (validate_grid_parameters cfg lower_price upper_price levels) = true ->
  fst (validate_symbol symbol) = true ->
  ((spacing_percent < min_spacing gcfg)%Q ->
   r = (Done None,
        logged w ERROR "Grid spacing ({spacing_percent:.2f}%) below minimum ({self.min_spacing}%)"))
  /\ ((min_spacing gcfg <= spacing_percent)%Q ->
      (max_spacing gcfg < spacing_percent)%Q ->
      forall current_price : Q,
        ticker_price float_of_str (futures_symbol_ticker cl (calls w) symbol)
        = Some current_price ->
        exists (buy_orders sell_orders : list pydict)
               (placement_log : list (level * string)),
          fst r = Done (Some {|
                    gr_symbol := symbol;
                    gr_mode := mode;
                    gr_grid_levels := levels;
                    gr_lower_price := lower_price;
                    gr_upper_price := upper_price;
                    gr_current_price := current_price;
                    gr_grid_prices := grid_prices;
                    gr_buy_orders := buy_orders;
                    gr_sell_orders := sell_orders;
                    gr_total_orders :=
                      Z.of_nat (length buy_orders + length sell_orders)
                  |})
          /\ calls (snd r)
             = calls w ++ [SymbolTicker symbol]
               ++ concat (map (mode_level_calls cfg symbol mode qty_per_level
                                 current_price) grid_prices)
          /\ log (snd r)
             = log w
               ++ [(WARNING, "Grid spacing ({spacing_percent:.2f}%) above recommended maximum ({self.max_spacing}%)");
                   (INFO, "Creating grid for {symbol}: Range: {lower_price}-{upper_price}, Levels: {grid_levels}, Spacing: {grid_spacing:.2f} ({spacing_percent:.2f}%), Qty/Level: {qty_per_level}");
                   (INFO, "Current price: {current_price}")]
               ++ placement_log
               ++ [(INFO, "Grid created: {len(buy_orders)} buy orders, {len(sell_orders)} sell orders")]).
Proof.
  intros levels grid_spacing spacing_percent qty_per_level grid_prices r
    Hvalid Hsym. split.
  - intros Hlow. apply Qltb_lt in Hlow.
    unfold r, create_grid_orders. fold levels. rewrite Hvalid, Hsym. simpl.
    change ((upper_price - lower_price) / inject_Z (levels - 1)
            / lower_price * 100)%Q with spacing_percent.
    rewrite Hlow. reflexivity.
  - intros Hmin Hmax current_price Hticker.
    apply Qltb_ge in Hmin. apply Qltb_lt in Hmax.
    pose proof (create_grid_orders_placement symbol lower_price upper_price
                  total_quantity grid_levels mode w current_price Hvalid Hsym
                  Hmin Hticker) as Hrun.
    cbv zeta in Hrun.
    fold levels grid_spacing spacing_percent qty_per_level grid_prices in Hrun.
    fold r in Hrun.
    assert (Hq : format_quantity cfg qty_per_level = qty_per_level)
      by apply py_round_idempotent.
    match type of Hrun with
    | context [place_grid_by_mode _ _ _ _ _ _ _ ?w1] =>
        destruct (place_grid_by_mode_run symbol mode qty_per_level
                    current_price grid_prices w1 Hq
                    (generate_grid_prices_formatted lower_price grid_spacing
                       levels))
          as ([b s] & w2 & Hplace & Hcalls & [extra Hlog])
    end.
    rewrite Hplace in Hrun. rewrite Hrun. simpl.
    exists b, s, extra. split; [reflexivity |]. split.
    + rewrite Hcalls. simpl. rewrite <- app_assoc. reflexivity.
    + rewrite Hlog. simpl. unfold grid_preamble_log. rewrite Hmax.
      rewrite <- !app_assoc. reflexivity.
Qed.

(** C8 (amended). In neutral mode (valid parameters, spacing not below the
    minimum, ticker answering) the exchange calls after the ticker are,
    level by level in the order of the generated prices: for a price
    strictly below the current price a maker-only BUY limit order at that
    price, for a price strictly above it a maker-only SELL limit order at
    that price, in both cases provided the order passes the price and
    quantity checks of [place_limit_order] (the quantity per level is
    above 0 and its value at that price is within the order-size bounds),
    and nothing for a price equal to the current price. *)
Theorem create_grid_orders_neutral
    (symbol : string) (lower_price upper_price total_quantity : Q)
    (grid_levels : option Z) (w : World) (current_price : Q) :
  let levels := int_or grid_levels (default_grid_levels gcfg) in
  let grid_spacing :=
    ((upper_price - lower_price) / inject_Z (levels - 1))%Q in
  let qty_per_level :=
    format_quantity cfg (total_quantity / inject_Z levels) in
  let grid_prices := generate_grid_prices cfg lower_price grid_spacing levels in
  let r := create_grid_orders cl cfg gcfg float_of_str symbol lower_price
             upper_price total_quantity grid_levels "neutral" w in
  fst (validate_grid_parameters cfg lower_price upper_price levels) = true ->
  fst (validate_symbol symbol) = true ->
  (min_spacing gcfg <= grid_spacing_percent lower_price upper_price levels)%Q ->
  ticker_price float_of_str (futures_symbol_ticker cl (calls w) symbol)
  = Some current_price ->
  calls (snd r)
  = calls w ++ [SymbolTicker symbol]
    ++ concat (map (neutral_level_calls cfg symbol qty_per_level
                      current_price) grid_prices)
  /\ (exists grid : GridResult,
        fst r = Done (Some grid)
        /\ gr_current_price grid = current_price
        /\ gr_grid_prices grid = grid_prices)
  /\ (forall (side : string) (price : Q),
        let params :=
          limit_order_params symbol side qty_per_level price "GTC" false
            true in
        params !! "type" = Some (VStr "LIMIT")
        /\ params !! "side" = Some (VStr (upper side))
        /\ params !! "price" = Some (VFloat price)
        /\ params !! "quantity" = Some (VFloat qty_per_level)
        /\ params !! "timeInForce" = Some (VStr "GTC")
        /\ params !! "postOnly" = Some (VBool true))
  /\ (forall (side : string) (price : Q),
        fst (validate_side side) = true ->
        grid_level_calls cfg symbol side qty_per_level price
        = if fst (validate_price cfg price)
             && fst (validate_quantity cfg qty_per_level (Some price))
          then [CreateOrder (limit_order_params symbol side qty_per_level
                               price "GTC" false true)]
          else []).
Proof.
  intros levels grid_spacing qty_per_level grid_prices r Hvalid Hsym Hmin
    Hticker.
  apply Qltb_ge in Hmin.
  pose proof (create_grid_orders_placement symbol lower_price upper_price
                total_quantity grid_levels "neutral" w current_price Hvalid
                Hsym Hmin Hticker) as Hrun.
  cbv zeta in Hrun.
  fold levels grid_spacing qty_per_level grid_prices in Hrun. fold r in Hrun.
  assert (Hq : format_quantity cfg qty_per_level = qty_per_level)
    by apply py_round_idempotent.
  match type of Hrun with
  | context [place_grid_by_mode _ _ _ _ _ _ _ ?w1] =>
      destruct (grid_neutral_run symbol qty_per_level current_price
                  grid_prices Hq
                  (generate_grid_prices_formatted lower_price grid_spacing
                     levels) [] [] w1)
        as ([b s] & w2 & Hplace & Hcalls)
  end.
  unfold place_grid_by_mode in Hrun. simpl in Hrun.
  rewrite Hplace in Hrun. rewrite Hrun. simpl.
  split; [| split; [| split]].
  - rewrite Hcalls. simpl. rewrite <- app_assoc. reflexivity.
  - eexists. split; [reflexivity |]. split; reflexivity.
  - intros side price. repeat split; reflexivity.
  - intros side price Hside.
    unfold grid_level_calls, limit_checks, limit_check_order. simpl forallb.
    rewrite Hsym, Hside.
    change (fst (validate_time_in_force "GTC")) with true.
    rewrite andb_true_r. reflexivity.
Qed.

(** C10. A mode that is none of ['neutral'], ['long'], ['short'] is not
    rejected: with valid parameters, a spacing not below the minimum and
    the ticker answering, the call returns a grid whose buy and sell order
    lists are empty and whose [total_orders] is 0; the only exchange call
    is the ticker and no error record is logged. *)
Theorem create_grid_orders_unknown_mode
    (symbol : string) (lower_price upper_price total_quantity : Q)
    (grid_levels : option Z) (mode : string) (w : World) (current_price : Q) :
  let levels := int_or grid_levels (default_grid_levels gcfg) in
  let grid_spacing :=
    ((upper_price - lower_price) / inject_Z (levels - 1))%Q in
  let spacing_percent := grid_spacing_percent lower_price upper_price levels in
  let r := create_grid_orders cl cfg gcfg float_of_str symbol lower_price
             upper_price total_quantity grid_levels mode w in
  mode <> "neutral" -> mode <> "long" -> mode <> "short" ->
  fst (validate_grid_parameters cfg lower_price upper_price levels) = true ->
  fst (validate_symbol symbol) = true ->
  (min_spacing gcfg <= spacing_percent)%Q ->
  ticker_price float_of_str (futures_symbol_ticker cl (calls w) symbol)
  = Some current_price ->
  fst r = Done (Some {|
            gr_symbol := symbol;
            gr_mode := mode;
            gr_grid_levels := levels;
            gr_lower_price := lower_price;
            gr_upper_price := upper_price;
            gr_current_price := current_price;
            gr_grid_prices :=
              generate_grid_prices cfg lower_price grid_spacing levels;
            gr_buy_orders := [];
            gr_sell_orders := [];
            gr_total_orders := 0
          |})
  /\ calls (snd r) = calls w ++ [SymbolTicker symbol]
  /\ log (snd r)
     = log w ++ grid_preamble_log gcfg spacing_percent
       ++ [(INFO, "Grid created: {len(buy_orders)} buy orders, {len(sell_orders)} sell orders")]
  /\ Forall (fun record => fst record <> ERROR)
            (grid_preamble_log gcfg spacing_percent).
Proof.
  intros levels grid_spacing spacing_percent r Hn Hl Hs Hvalid Hsym Hmin
    Hticker.
  apply Qltb_ge in Hmin.
  pose proof (create_grid_orders_placement symbol lower_price upper_price
                total_quantity grid_levels mode w current_price Hvalid Hsym
                Hmin Hticker) as Hrun.
  cbv zeta in Hrun.
  fold levels grid_spacing spacing_percent in Hrun. fold r in Hrun.
  unfold place_grid_by_mode in Hrun.
  apply String.eqb_neq in Hn, Hl, Hs. rewrite Hn, Hl, Hs in Hrun.
  simpl in Hrun. rewrite Hrun. simpl.
  split; [reflexivity |]. split; [reflexivity |].
  split; [rewrite <- app_assoc; reflexivity |].
  unfold grid_preamble_log.
  destruct (Qltb (max_spacing gcfg) spacing_percent); simpl;
    repeat constructor; discriminate.
Qed.

End Grid.

(** Bounds 1 and 1.5 with 100 levels pass every check of
    [create_grid_orders] (spacing 0.505 percent), yet levels 1 and 2 are
    both priced 1.01 after formatting to two decimals. *)
Lemma grid_prices_shape_counterexample :
  fst (validate_grid_parameters default_validator_config 1 1.5 100) = true
  /\ exists grid : GridResult,
       fst (create_grid_orders resting_client default_validator_config
              default_grid_config decimal_float "BTCUSDT" 1 1.5 1000
              (Some 100%Z) "neutral" empty_world) = Done (Some grid)
       /\ length (gr_grid_prices grid) = 100%nat
       /\ ~ strictly_increasing (gr_grid_prices grid).
Proof.
  split; [reflexivity |].
  pose proof (create_grid_orders_returns_grid resting_client
                default_validator_config default_grid_config decimal_float
                "BTCUSDT" 1 1.5 1000 (Some 100%Z) "neutral" empty_world 50000)
    as H.
  cbv zeta in H.
  do 4 (lapply H; [clear H; intros H | reflexivity]).
  destruct H as (grid & Hr & Hprices).
  exists grid. split; [exact Hr |]. rewrite Hprices. split.
  - apply generate_grid_prices_length.
  - intros Hinc.
    assert (Hlt : (1.01 < 1.01)%Q).
    { apply (Hinc 1%nat 2%nat); [lia | |];
        rewrite generate_grid_prices_lookup; reflexivity. }
    exact (Qlt_irrefl _ Hlt).
Qed.

Lemma grid_prices_shape_witness :
  let prices :=
    generate_grid_prices default_validator_config 45000
      ((55000 - 45000) / inject_Z (10 - 1)) 10 in
  fst (validate_grid_parameters default_validator_config 45000 55000 10)
  = true
  /\ length prices = 10%nat
  /\ strictly_increasing prices
  /\ prices !! 0%nat = Some 45000%Q
  /\ prices !! 9%nat = Some 55000%Q.
Proof.
  intros prices.
  assert (Hvalid : fst (validate_grid_parameters default_validator_config
                          45000 55000 10) = true) by reflexivity.
  destruct (grid_prices_shape default_validator_config 45000 55000 10 Hvalid)
    as (Hlen & _ & Hstrict & Hfirst & Hlast & _).
  split; [exact Hvalid |]. split; [exact Hlen |].
  split; [apply Hstrict; reflexivity |].
  split; [exact Hfirst |].
  fold prices in Hlen. change (length prices) with (length prices) in Hlast.
  rewrite generate_grid_prices_length in Hlast. exact Hlast.
Defined.

Lemma create_grid_orders_spacing_bounds_witness :
  let low := create_grid_orders resting_client default_validator_config
               default_grid_config decimal_float "BTCUSDT" 45000 45100 0.01
               (Some 10%Z) "neutral" empty_world in
  let high := create_grid_orders resting_client default_validator_config
                default_grid_config decimal_float "BTCUSDT" 45000 90000 0.01
                (Some 10%Z) "neutral" empty_world in
  fst (validate_grid_parameters default_validator_config 45000 45100 10) = true
  /\ fst (validate_symbol "BTCUSDT") = true
  /\ (grid_spacing_percent 45000 45100 10 < 0.5)%Q
  /\ low
     = (Done None,
        logged empty_world ERROR "Grid spacing ({spacing_percent:.2f}%) below minimum ({self.min_spacing}%)")
  /\ (5 < grid_spacing_percent 45000 90000 10)%Q
  /\ (exists grid : GridResult,
        fst high = Done (Some grid)
        /\ gr_grid_levels grid = 10%Z
        /\ gr_total_orders grid
           = Z.of_nat (length (gr_buy_orders grid)
                       + length (gr_sell_orders grid)))
  /\ calls (snd high)
     = SymbolTicker "BTCUSDT"
       :: CreateOrder (limit_order_params "BTCUSDT" "BUY" 0.001 45000 "GTC"
                         false true)
       :: map (fun price =>
                 CreateOrder (limit_order_params "BTCUSDT" "SELL" 0.001 price
                                "GTC" false true))
              [55000; 60000; 65000; 70000; 75000; 80000; 85000; 90000]%Q.
Proof.
  intros low high.
  split; [reflexivity |]. split; [reflexivity |]. split; [reflexivity |].
  split.
  - pose proof (create_grid_orders_spacing_bounds resting_client
                  default_validator_config default_grid_config decimal_float
                  "BTCUSDT" 45000 45100 0.01 (Some 10%Z) "neutral"
                  empty_world) as H.
    cbv zeta in H.
    do 2 (lapply H; [clear H; intros H | reflexivity]).
    destruct H as [Hlow _]. apply Hlow. reflexivity.
  - split; [reflexivity |].
    pose proof (create_grid_orders_spacing_bounds resting_client
                  default_validator_config default_grid_config decimal_float
                  "BTCUSDT" 45000 90000 0.01 (Some 10%Z) "neutral"
                  empty_world) as H.
    cbv zeta in H.
    do 2 (lapply H; [clear H; intros H | reflexivity]).
    destruct H as [_ Hhigh].
    assert (Hmin : (min_spacing default_grid_config
                    <= grid_spacing_percent 45000 90000
                         (int_or (Some 10%Z)
                            (default_grid_levels default_grid_config)))%Q)
      by (apply Qle_bool_imp_le; reflexivity).
    destruct (Hhigh Hmin eq_refl 50000%Q eq_refl)
      as (b & s & placement_log & Hr & Hcalls & _).
    split.
    + eexists. split; [exact Hr |]. split; reflexivity.
    + unfold high. rewrite Hcalls. vm_compute. reflexivity.
Defined.

Lemma create_grid_orders_neutral_witness :
  fst (validate_grid_parameters default_validator_config 45000 55000 3) = true
  /\ generate_grid_prices default_validator_config 45000
       ((55000 - 45000) / inject_Z (3 - 1)) 3
     = [45000; 50000; 55000]%Q
  /\ calls (snd (create_grid_orders resting_client default_validator_config
                   default_grid_config decimal_float "BTCUSDT" 45000 55000
                   0.003 (Some 3%Z) "neutral" empty_world))
     = [SymbolTicker "BTCUSDT";
        CreateOrder (limit_order_params "BTCUSDT" "BUY" 0.001 45000 "GTC"
                       false true);
        CreateOrder (limit_order_params "BTCUSDT" "SELL" 0.001 55000 "GTC"
                       false true)].
Proof.
  split; [reflexivity |]. split; [reflexivity |].
  pose proof (create_grid_orders_neutral resting_client
                default_validator_config default_grid_config decimal_float
                "BTCUSDT" 45000 55000 0.003 (Some 3%Z) empty_world 50000)
    as H.
  cbv zeta in H.
  do 2 (lapply H; [clear H; intros H | reflexivity]).
  lapply H; [clear H; intros H | apply Qle_bool_imp_le; reflexivity].
  lapply H; [clear H; intros H | reflexivity].
  destruct H as (Hcalls & _ & _). rewrite Hcalls. reflexivity.
Defined.

(** A total quantity of 0.0005 over 10 levels is 0 per level once
    formatted to three decimals: the grid between 45000 and 55000 is
    created around a current price of 50000, with five prices below it and
    five above, and no order is sent at any level. *)
Lemma create_grid_orders_neutral_counterexample :
  let r := create_grid_orders resting_client default_validator_config
             default_grid_config decimal_float "BTCUSDT" 45000 55000 0.0005
             (Some 10%Z) "neutral" empty_world in
  fst (validate_grid_parameters default_validator_config 45000 55000 10) = true
  /\ (exists grid : GridResult,
        fst r = Done (Some grid)
        /\ gr_current_price grid = 50000%Q
        /\ gr_grid_prices grid !! 0%nat = Some 45000%Q
        /\ gr_grid_prices grid !! 9%nat = Some 55000%Q
        /\ gr_total_orders grid = 0%Z)
  /\ calls (snd r) = [SymbolTicker "BTCUSDT"].
Proof.
  split; [reflexivity |]. split.
  - eexists. split; [vm_compute; reflexivity |]. repeat split; reflexivity.
  - vm_compute. reflexivity.
Qed.

Lemma create_grid_orders_unknown_mode_witness :
  let r := create_grid_orders resting_client default_validator_config
             default_grid_config decimal_float "BTCUSDT" 45000 55000 0.01
             (Some 10%Z) "sideways" empty_world in
  "sideways" <> "neutral"
  /\ (exists grid : GridResult,
        fst r = Done (Some grid)
        /\ gr_buy_orders grid = [] /\ gr_sell_orders grid = []
        /\ gr_total_orders grid = 0%Z)
  /\ calls (snd r) = [SymbolTicker "BTCUSDT"].
Proof.
  intros r. split; [discriminate |].
  pose proof (create_grid_orders_unknown_mode resting_client
                default_validator_config default_grid_config decimal_float
                "BTCUSDT" 45000 55000 0.01 (Some 10%Z) "sideways" empty_world
                50000) as H.
  cbv zeta in H.
  do 3 (lapply H; [clear H; intros H | discriminate]).
  do 2 (lapply H; [clear H; intros H | reflexivity]).
  lapply H; [clear H; intros H | apply Qle_bool_imp_le; reflexivity].
  lapply H; [clear H; intros H | reflexivity].
  destruct H as (Hr & Hcalls & _).
  split; [| exact Hcalls].
  eexists. split; [exact Hr |]. repeat split; reflexivity.
Defined.

(* ===================================================================== *)
(** ** Further properties: validator *)
(* ===================================================================== *)


Lemma upper_ascii_idempotent (c : ascii) :
  upper_ascii (upper_ascii c) = upper_ascii c.
Proof.
  destruct c as [[] [] [] [] [] [] [] []]; reflexivity.
Qed.

Lemma upper_idempotent (s : string) : upper (upper s) = upper s.
Proof.
  induction s as [| c s IH]; simpl; [reflexivity |].
  rewrite upper_ascii_idempotent, IH. reflexivity.
Qed.

(** X1. Side, time-in-force and order-type validation ignore letter case:
    a value and its upper-cased form get the same verdict. *)
Theorem validators_ignore_case (s : string) :
  validate_side (upper s) = validate_side s
  /\ validate_time_in_force (upper s) = validate_time_in_force s
  /\ validate_order_type (upper s) = validate_order_type s.
Proof.
  unfold validate_side, validate_time_in_force, validate_order_type.
  rewrite upper_idempotent. repeat split; reflexivity.
Qed.

Section Checks.
Variable cfg : ValidatorConfig.

(** X2. A stop price is accepted exactly when it passes the price check
    and lies strictly above the current price for BUY, strictly below it
    for SELL; for any other side only the price check applies. *)
Theorem validate_stop_price_accepts_iff
    (stop_price current_price : Q) (side : string) :
  fst (validate_stop_price cfg stop_price current_price side) = true
  <-> fst (validate_price cfg stop_price) = true
      /\ (upper side = "BUY" -> (current_price < stop_price)%Q)
      /\ (upper side = "SELL" -> (stop_price < current_price)%Q).
Proof.
  unfold validate_stop_price.
  destruct (validate_price cfg stop_price) as [[] e]; simpl.
  - destruct (String.eqb_spec (upper side) "BUY") as [Hb | Hb]; simpl.
    + destruct (Qleb stop_price current_price) eqn:Hle; simpl.
      * split; [discriminate |]. intros (_ & H & _).
        apply Qleb_le in Hle. specialize (H Hb). lra.
      * rewrite Hb. simpl. split; [| reflexivity]. intros _.
        split; [reflexivity |]. split; [| discriminate].
        intros _. apply Qleb_gt. exact Hle.
    + destruct (String.eqb_spec (upper side) "SELL") as [Hs | Hs]; simpl.
      * destruct (Qleb current_price stop_price) eqn:Hle; simpl.
        -- split; [discriminate |]. intros (_ & _ & H).
           apply Qleb_le in Hle. specialize (H Hs). lra.
        -- split; [| reflexivity]. intros _.
           split; [reflexivity |]. split; [contradiction |].
           intros _. apply Qleb_gt. exact Hle.
      * split; [| reflexivity]. intros _.
        split; [reflexivity |]. split; contradiction.
  - split; [discriminate |]. intros [H _]. discriminate.
Qed.
(** X3. A formatted price or quantity is a whole number of precision
    units, lies within half a unit of the value it formats, and formatting
    it again changes nothing. *)
Theorem format_on_precision_grid (x : Q) :
  let price_unit := precision_unit (price_precision cfg) in
  let quantity_unit := precision_unit (quantity_precision cfg) in
  (format_price cfg (format_price cfg x) = format_price cfg x
   /\ (Qabs (format_price cfg x - x) <= (1 # 2) * price_unit)%Q
   /\ exists k : Z, (format_price cfg x == inject_Z k * price_unit)%Q)
  /\ (format_quantity cfg (format_quantity cfg x) = format_quantity cfg x
      /\ (Qabs (format_quantity cfg x - x) <= (1 # 2) * quantity_unit)%Q
      /\ exists k : Z,
           (format_quantity cfg x == inject_Z k * quantity_unit)%Q).
Proof.
  unfold format_price, format_quantity.
  split; (split; [apply py_round_idempotent |]);
    (split; [apply py_round_near |]);
    eexists; unfold py_round, precision_unit; rewrite Qred_correct;
    reflexivity.
Qed.

End Checks.

(* ===================================================================== *)
(** ** Further properties: order placement *)
(* ===================================================================== *)

Section Placement.
Variable cl : Client.
Variable cfg : ValidatorConfig.

(** X4. A market placement checks symbol, side and quantity; when one
    fails it returns no result, logs one error and issues no exchange call.
    Otherwise it sends exactly one order with the formatted quantity and
    returns the exchange's response; when the exchange raises it returns no
    result, and only an API exception is also logged as a failed API
    call. *)
Theorem place_market_order_behaviour
    (symbol side : string) (quantity : Q) (reduce_only : bool) (w : World) :
  let r := place_market_order cl cfg symbol side quantity reduce_only w in
  let params :=
    market_order_params symbol side (format_quantity cfg quantity)
      reduce_only in
  if market_checks cfg symbol side quantity then
    calls (snd r) = calls w ++ [CreateOrder params]
    /\ match futures_create_order cl (calls w) params with
       | Done order =>
           fst r = Done (Some order)
           /\ map fst (log (snd r)) = map fst (log w) ++ [INFO; INFO; DEBUG]
       | Raised (BinanceAPIException _ _) =>
           fst r = Done None
           /\ map fst (log (snd r))
              = map fst (log w) ++ [INFO; ERROR; WARNING]
       | Raised _ =>
           fst r = Done None
           /\ map fst (log (snd r)) = map fst (log w) ++ [INFO; ERROR]
       end
  else
    fst r = Done None /\ calls (snd r) = calls w
    /\ map fst (log (snd r)) = map fst (log w) ++ [ERROR].
Proof.
  unfold market_checks, place_market_order.
  destruct (fst (validate_symbol symbol)); simpl;
    [| rewrite map_app; repeat split; reflexivity].
  destruct (fst (validate_side side)); simpl;
    [| rewrite map_app; repeat split; reflexivity].
  destruct (fst (validate_quantity cfg quantity None)); simpl;
    [| rewrite map_app; repeat split; reflexivity].
  unfold try_except, bind, client_create_order, perform; simpl.
  destruct (futures_create_order cl (calls w) _) as [order | e]; simpl.
  - rewrite !map_app, <- !app_assoc. repeat split; reflexivity.
  - destruct e; simpl; rewrite !map_app, <- ?app_assoc;
      repeat split; reflexivity.
Qed.

Lemma round_half_even_small (v : Q) :
  (0 <= v)%Q -> (v < 1 # 2)%Q -> round_half_even v = 0%Z.
Proof.
  intros H0 H1. unfold round_half_even.
  pose proof (Qfloor_le v) as Hlo. pose proof (Qlt_floor v) as Hhi.
  assert (Hf : Qfloor v = 0%Z).
  { assert (Ha : (Qfloor v < 1)%Z).
    { rewrite Zlt_Qlt. change (inject_Z 1) with 1%Q. lra. }
    assert (Hb : (0 < Qfloor v + 1)%Z).
    { rewrite Zlt_Qlt. change (inject_Z 0) with 0%Q. lra. }
    lia. }
  rewrite Hf. change (inject_Z 0) with 0%Q.
  assert (Hc : (v - 0 ?= 1 # 2)%Q = Lt) by (apply (proj1 (Qlt_alt _ _)); lra).
  rewrite Hc. reflexivity.
Qed.

(** A value below half a unit formats to zero. *)
Lemma py_round_small (x : Q) (n : Z) :
  (0 <= x)%Q -> (x < (1 # 2) * precision_unit n)%Q -> py_round x n = 0%Q.
Proof.
  intros H0 Hx. unfold py_round.
  pose proof (ten_power_pos n) as Hp.
  assert (Hs : (x * 10 ^ n < 1 # 2)%Q).
  { unfold precision_unit in Hx.
    pose proof (Qmult_lt_compat_r _ _ _ Hp Hx) as Hm.
    assert (E : ((1 # 2) * / 10 ^ n * 10 ^ n == 1 # 2)%Q) by (field; lra).
    rewrite E in Hm. exact Hm. }
  rewrite round_half_even_small.
  - transitivity (Qred 0); [| reflexivity].
    apply Qred_complete. change (inject_Z 0) with 0%Q. unfold Qdiv. ring.
  - apply Qmult_le_0_compat; lra.
  - exact Hs.
Qed.

(** The exchange calls of a market placement. *)
Lemma place_market_order_calls
    (symbol side : string) (quantity : Q) (reduce_only : bool) (w : World) :
  exists (o : option pydict) (w' : World),
    place_market_order cl cfg symbol side quantity reduce_only w
    = (Done o, w')
    /\ calls w'
       = calls w
         ++ (if market_checks cfg symbol side quantity then
               [CreateOrder (market_order_params symbol side
                               (format_quantity cfg quantity) reduce_only)]
             else [])
    /\ o = (if market_checks cfg symbol side quantity then
              response_result
                (futures_create_order cl (calls w)
                   (market_order_params symbol side
                      (format_quantity cfg quantity) reduce_only))
            else None).
Proof.
  unfold market_checks, place_market_order.
  destruct (fst (validate_symbol symbol)); simpl;
    [| eexists _, _; rewrite app_nil_r; repeat split; reflexivity].
  destruct (fst (validate_side side)); simpl;
    [| eexists _, _; rewrite app_nil_r; repeat split; reflexivity].
  destruct (fst (validate_quantity cfg quantity None)); simpl;
    [| eexists _, _; rewrite app_nil_r; repeat split; reflexivity].
  unfold try_except, bind, client_create_order, perform; simpl.
  destruct (futures_create_order cl (calls w) _) as [order | e]; simpl.
  - eexists _, _. repeat split; reflexivity.
  - destruct e; simpl; eexists _, _; repeat split; reflexivity.
Qed.

(** X5. The quantity is checked before it is formatted: a positive
    quantity below half a precision unit passes the check and the order is
    sent with quantity zero. *)
Theorem place_market_order_sends_zero_quantity
    (symbol side : string) (quantity : Q) (reduce_only : bool) (w : World) :
  fst (validate_symbol symbol) = true ->
  fst (validate_side side) = true ->
  (0 < quantity)%Q ->
  (quantity < (1 # 2) * precision_unit (quantity_precision cfg))%Q ->
  let r := place_market_order cl cfg symbol side quantity reduce_only w in
  let params := market_order_params symbol side 0 reduce_only in
  calls (snd r) = calls w ++ [CreateOrder params]
  /\ params !! "quantity" = Some (VFloat 0).
Proof.
  intros Hsym Hside H0 Hq r params.
  destruct (place_market_order_calls symbol side quantity reduce_only w)
    as (o & w' & Hr & Hc & _).
  subst r. rewrite Hr. simpl. rewrite Hc.
  unfold market_checks. rewrite Hsym, Hside. simpl.
  assert (Hv : fst (validate_quantity cfg quantity None) = true).
  { unfold validate_quantity.
    destruct (Qleb quantity 0) eqn:E; [| reflexivity].
    apply Qleb_le in E. lra. }
  rewrite Hv. unfold format_quantity.
  rewrite py_round_small by lra. split; reflexivity.
Qed.

(** X6. A take-profit placement given a limit price sends a TAKE_PROFIT
    order with that price formatted and time-in-force GTC; the limit price
    itself is never validated. *)
Theorem place_take_profit_order_limit_price_unchecked
    (symbol side : string) (quantity stop_price price : Q)
    (reduce_only : bool) (w : World) :
  fst (validate_symbol symbol) = true ->
  fst (validate_side side) = true ->
  fst (validate_price cfg stop_price) = true ->
  fst (validate_quantity cfg quantity None) = true ->
  let r := place_take_profit_order cl cfg symbol side quantity stop_price
             (Some price) reduce_only w in
  let params :=
    take_profit_order_params cfg symbol side (format_quantity cfg quantity)
      (format_price cfg stop_price) (Some price) reduce_only in
  fst r = Done (response_result (futures_create_order cl (calls w) params))
  /\ calls (snd r) = calls w ++ [CreateOrder params]
  /\ params !! "type" = Some (VStr "TAKE_PROFIT")
  /\ params !! "price" = Some (VFloat (format_price cfg price))
  /\ params !! "timeInForce" = Some (VStr "GTC").
Proof.
  intros H1 H2 H3 H4. unfold place_take_profit_order.
  rewrite H1, H2, H3, H4. simpl.
  unfold try_except, bind, client_create_order, perform; simpl.
  destruct (futures_create_order cl (calls w) _) as [order | e]; simpl;
    repeat split; reflexivity.
Qed.

(** X7. A stop-limit placement checks symbol, side, price, stop price and
    quantity (with the notional value at the limit price); when one fails
    it returns no result and issues no exchange call.  Otherwise it sends
    one STOP order with formatted values; the time-in-force is upper-cased
    and sent without being validated. *)
Theorem place_stop_limit_order_checks
    (symbol side : string) (quantity price stop_price : Q)
    (time_in_force : string) (reduce_only : bool) (w : World) :
  let r := place_stop_limit_order cl cfg symbol side quantity price
             stop_price time_in_force reduce_only w in
  let params :=
    stop_limit_order_params symbol side (format_quantity cfg quantity)
      (format_price cfg price) (format_price cfg stop_price) time_in_force
      reduce_only in
  if stop_limit_checks cfg symbol side quantity price stop_price then
    fst r = Done (response_result (futures_create_order cl (calls w) params))
    /\ calls (snd r) = calls w ++ [CreateOrder params]
    /\ params !! "timeInForce" = Some (VStr (upper time_in_force))
  else
    fst r = Done None /\ calls (snd r) = calls w
    /\ map fst (log (snd r)) = map fst (log w) ++ [ERROR].
Proof.
  unfold stop_limit_checks, place_stop_limit_order.
  destruct (fst (validate_symbol symbol)); simpl;
    [| rewrite map_app; repeat split; reflexivity].
  destruct (fst (validate_side side)); simpl;
    [| rewrite map_app; repeat split; reflexivity].
  destruct (fst (validate_price cfg price)); simpl;
    [| rewrite map_app; repeat split; reflexivity].
  destruct (fst (validate_price cfg stop_price)); simpl;
    [| rewrite map_app; repeat split; reflexivity].
  destruct (fst (validate_quantity cfg quantity (Some price))); simpl;
    [| rewrite map_app; repeat split; reflexivity].
  unfold try_except, bind, client_create_order, perform; simpl.
  destruct (futures_create_order cl (calls w) _) as [order | e]; simpl;
    repeat split; reflexivity.
Qed.

(** X8. Cancelling never raises: it issues exactly one cancel call and
    returns [True] when the exchange answers, [False] when it raises; only
    an API exception is also logged as a failed API call. *)
Theorem cancel_order_reports_exchange_answer
    (symbol : string) (order_id : pyval) (w : World) :
  let r := cancel_order cl symbol order_id w in
  calls (snd r) = calls w ++ [CancelOrder symbol order_id]
  /\ match futures_cancel_order cl (calls w) symbol order_id with
     | Done _ =>
         fst r = Done true
         /\ map fst (log (snd r)) = map fst (log w) ++ [INFO; INFO; DEBUG]
     | Raised (BinanceAPIException _ _) =>
         fst r = Done false
         /\ map fst (log (snd r)) = map fst (log w) ++ [INFO; ERROR; WARNING]
     | Raised _ =>
         fst r = Done false
         /\ map fst (log (snd r)) = map fst (log w) ++ [INFO; ERROR]
     end.
Proof.
  unfold cancel_order, try_except, bind, client_cancel_order, perform; simpl.
  destruct (futures_cancel_order cl (calls w) symbol order_id) as [a | e];
    simpl; [| destruct e; simpl];
    rewrite !map_app, <- ?app_assoc; repeat split; reflexivity.
Qed.

End Placement.

(* ===================================================================== *)
(** ** Further properties: compound orders *)
(* ===================================================================== *)

Section Compound.
Variable cl : Client.
Variable cfg : ValidatorConfig.

Lemma place_oco_order_invalid
    (symbol side : string) (quantity take_profit_price stop_loss_price : Q)
    (w : World) :
  oco_inputs_valid cfg symbol side quantity take_profit_price stop_loss_price
  = false ->
  exists text : string,
    place_oco_order cl cfg symbol side quantity take_profit_price
      stop_loss_price w
    = (Done None, logged w ERROR text).
Proof.
  unfold oco_inputs_valid, place_oco_order, Qltb, Qleb.
  destruct (fst (validate_symbol symbol)); simpl; [| eexists; reflexivity].
  destruct (fst (validate_side side)); simpl; [| eexists; reflexivity].
  destruct (fst (validate_quantity cfg quantity None)); simpl;
    [| eexists; reflexivity].
  destruct (fst (validate_price cfg take_profit_price)); simpl;
    [| eexists; reflexivity].
  destruct (fst (validate_price cfg stop_loss_price)); simpl;
    [| eexists; reflexivity].
  destruct (String.eqb (upper side) "SELL").
  - destruct (Qle_bool take_profit_price stop_loss_price); simpl;
      [eexists; reflexivity | discriminate].
  - destruct (Qle_bool stop_loss_price take_profit_price); simpl;
      [eexists; reflexivity | discriminate].
Qed.

(** What the two legs and the compensation of a valid OCO placement do. *)
Lemma place_oco_legs_run
    (symbol side : string) (quantity take_profit_price stop_loss_price : Q)
    (w : World) :
  fst (validate_symbol symbol) = true ->
  fst (validate_side side) = true ->
  fst (validate_quantity cfg quantity None) = true ->
  fst (validate_price cfg take_profit_price) = true ->
  fst (validate_price cfg stop_loss_price) = true ->
  let tp_params :=
    take_profit_order_params cfg symbol side (format_quantity cfg quantity)
      (format_price cfg take_profit_price) None true in
  let sl_params :=
    stop_market_order_params symbol side (format_quantity cfg quantity)
      (format_price cfg stop_loss_price) true in
  let tp := if_truthy (response_result
                         (futures_create_order cl (calls w) tp_params)) in
  let sl := if_truthy (response_result
                         (futures_create_order cl
                            (calls w ++ [CreateOrder tp_params]) sl_params)) in
  exists (result : option (pydict * pydict)) (w' : World),
    place_oco_legs cl cfg symbol side quantity take_profit_price
      stop_loss_price w = (Done result, w')
    /\ match tp, sl with
       | None, _ =>
           result = None /\ calls w' = calls w ++ [CreateOrder tp_params]
       | Some tp_order, None =>
           result = None
           /\ calls w'
              = calls w ++ [CreateOrder tp_params; CreateOrder sl_params]
                ++ match tp_order !! "orderId" with
                   | Some tp_id => [CancelOrder symbol tp_id]
                   | None => []
                   end
       | Some tp_order, Some sl_order =>
           calls w'
           = calls w ++ [CreateOrder tp_params; CreateOrder sl_params]
           /\ result
              = (if bool_decide (is_Some (tp_order !! "orderId")
                                 /\ is_Some (sl_order !! "orderId"))
                 then Some (tp_order, sl_order) else None)
       end.
Proof.
  intros H1 H2 H3 H4 H5 tp_params sl_params tp sl.
  unfold place_oco_legs.
  unfold try_except at 1. unfold bind at 1. unfold logger at 1.
  set (w0 := {| calls := calls w; log := _ |}).
  destruct (place_take_profit_order_valid cl cfg symbol side quantity
              take_profit_price true w0 H1 H2 H4 H3) as [Htp Htpc].
  fold tp_params in Htp, Htpc. simpl in Htp, Htpc. fold tp in Htp.
  unfold bind at 1.
  destruct (place_take_profit_order cl cfg symbol side quantity
              take_profit_price None true w0) as [rtp w1].
  simpl in Htp, Htpc. subst rtp. fold tp.
  destruct tp as [tp_order |].
  - (* take-profit leg placed *)
    destruct (place_stop_market_order_valid cl cfg symbol side quantity
                stop_loss_price true w1 H1 H2 H5 H3) as [Hsl Hslc].
    fold sl_params in Hsl, Hslc. simpl in Hsl, Hslc.
    rewrite Htpc in Hsl. fold sl in Hsl.
    unfold bind at 1.
    destruct (place_stop_market_order cl cfg symbol side quantity
                stop_loss_price true w1) as [rsl w2].
    simpl in Hsl, Hslc. subst rsl. fold sl.
    rewrite Htpc, <- app_assoc in Hslc. simpl in Hslc.
    destruct sl as [sl_order |].
    + (* both legs placed *)
      remember (bool_decide (is_Some (tp_order !! "orderId")
                             /\ is_Some (sl_order !! "orderId"))) as both
        eqn:Hboth.
      unfold dict_item, or_raise, bind, ret, raise, logger, log_error_trace.
      destruct (tp_order !! "orderId") as [a |]; simpl.
      * destruct (sl_order !! "orderId") as [b |]; simpl.
        -- eexists _, _. split; [reflexivity |]. split; [exact Hslc |].
           rewrite bool_decide_true in Hboth
             by (split; eexists; reflexivity).
           subst both. reflexivity.
        -- eexists _, _. split; [reflexivity |]. split; [exact Hslc |].
           rewrite bool_decide_false in Hboth
             by (intros [_ [x Hx]]; discriminate).
           subst both. reflexivity.
      * eexists _, _. split; [reflexivity |]. split; [exact Hslc |].
        rewrite bool_decide_false in Hboth
          by (intros [[x Hx] _]; discriminate).
        subst both. reflexivity.
    + (* stop-loss leg failed *)
      unfold bind at 1. unfold logger at 1.
      unfold bind at 1. unfold dict_item, or_raise.
      destruct (tp_order !! "orderId") as [tp_id |]; simpl.
      * unfold bind at 1.
        match goal with
        | |- context [cancel_order cl symbol tp_id ?w3] =>
            destruct (cancel_order_calls cl symbol tp_id w3)
              as (b & w4 & Hc & Hcc)
        end.
        rewrite Hc. simpl.
        eexists _, _. split; [reflexivity |]. split; [reflexivity |].
        rewrite Hcc. simpl. rewrite Hslc, <- app_assoc. reflexivity.
      * eexists _, _. split; [reflexivity |]. split; [reflexivity |].
        simpl. rewrite Hslc. reflexivity.
  - (* take-profit leg failed *)
    simpl. eexists _, _. split; [reflexivity |]. split; [reflexivity |].
    simpl. exact Htpc.
Qed.

(** X9. An OCO placement never raises.  Its exchange calls are one of:
    none; the take-profit order; the take-profit and the stop-loss order;
    both followed by one cancel.  It returns a pair only after exactly the
    two orders, and both orders are reduce-only. *)
Theorem place_oco_order_call_bound
    (symbol side : string) (quantity take_profit_price stop_loss_price : Q)
    (w : World) :
  let r := place_oco_order cl cfg symbol side quantity take_profit_price
             stop_loss_price w in
  let tp_params :=
    take_profit_order_params cfg symbol side (format_quantity cfg quantity)
      (format_price cfg take_profit_price) None true in
  let sl_params :=
    stop_market_order_params symbol side (format_quantity cfg quantity)
      (format_price cfg stop_loss_price) true in
  (exists result : option (pydict * pydict), fst r = Done result)
  /\ (exists extra : list call,
        calls (snd r) = calls w ++ extra
        /\ (extra = []
            \/ extra = [CreateOrder tp_params]
            \/ extra = [CreateOrder tp_params; CreateOrder sl_params]
            \/ exists tp_id : pyval,
                 extra = [CreateOrder tp_params; CreateOrder sl_params;
                          CancelOrder symbol tp_id]))
  /\ (forall pair : pydict * pydict,
        fst r = Done (Some pair) ->
        calls (snd r)
        = calls w ++ [CreateOrder tp_params; CreateOrder sl_params])
  /\ tp_params !! "reduceOnly" = Some (VBool true)
  /\ sl_params !! "reduceOnly" = Some (VBool true).
Proof.
  intros r tp_params sl_params.
  assert (Hlast : tp_params !! "reduceOnly" = Some (VBool true)
                  /\ sl_params !! "reduceOnly" = Some (VBool true))
    by (split; reflexivity).
  destruct (oco_inputs_valid cfg symbol side quantity take_profit_price
              stop_loss_price) eqn:Hv.
  - assert (Hr : r = place_oco_legs cl cfg symbol side quantity
                       take_profit_price stop_loss_price w)
      by (apply place_oco_order_valid; exact Hv).
    apply oco_inputs_valid_inv in Hv as (H1 & H2 & H3 & H4 & H5 & _).
    destruct (place_oco_legs_run symbol side quantity take_profit_price
                stop_loss_price w H1 H2 H3 H4 H5)
      as (result & w' & Hrun & Hshape).
    fold tp_params sl_params in Hshape. rewrite Hrun in Hr. rewrite Hr.
    simpl.
    split; [eexists; reflexivity |].
    destruct (if_truthy (response_result
                           (futures_create_order cl (calls w) tp_params)))
      as [tp_order |].
    + destruct (if_truthy (response_result
                             (futures_create_order cl
                                (calls w ++ [CreateOrder tp_params])
                                sl_params)))
        as [sl_order |].
      * destruct Hshape as [Hc Hres].
        split; [eexists; split; [exact Hc | auto] |].
        split; [intros _ _; exact Hc | exact Hlast].
      * destruct Hshape as [Hres Hc].
        split.
        -- eexists. split; [exact Hc |].
           destruct (tp_order !! "orderId") as [tp_id |]; simpl; eauto.
        -- split; [| exact Hlast]. intros pair Hp. subst result.
           discriminate.
    + destruct Hshape as [Hres Hc].
      split; [eexists; split; [exact Hc | auto] |].
      split; [| exact Hlast]. intros pair Hp. subst result. discriminate.
  - destruct (place_oco_order_invalid symbol side quantity take_profit_price
                stop_loss_price w Hv) as [text Hr].
    subst r. rewrite Hr. simpl.
    split; [eexists; reflexivity |].
    split; [exists []; rewrite app_nil_r; auto |].
    split; [| exact Hlast]. intros pair Hp. discriminate.
Qed.

(** X10. When the take-profit response carries no [orderId] and the
    stop-loss leg yields nothing, the compensation is skipped: no cancel is
    issued, the call returns no result and the take-profit order stays on
    the exchange. *)
Theorem place_oco_order_unidentified_take_profit
    (symbol side : string) (quantity take_profit_price stop_loss_price : Q)
    (w : World) (tp_order : pydict) :
  let r := place_oco_order cl cfg symbol side quantity take_profit_price
             stop_loss_price w in
  let tp_params :=
    take_profit_order_params cfg symbol side (format_quantity cfg quantity)
      (format_price cfg take_profit_price) None true in
  let sl_params :=
    stop_market_order_params symbol side (format_quantity cfg quantity)
      (format_price cfg stop_loss_price) true in
  oco_inputs_valid cfg symbol side quantity take_profit_price stop_loss_price
  = true ->
  futures_create_order cl (calls w) tp_params = Done tp_order ->
  tp_order <> ∅ ->
  tp_order !! "orderId" = None ->
  if_truthy (response_result
               (futures_create_order cl (calls w ++ [CreateOrder tp_params])
                  sl_params)) = None ->
  fst r = Done None
  /\ calls (snd r) = calls w ++ [CreateOrder tp_params; CreateOrder sl_params].
Proof.
  intros r tp_params sl_params Hv Htp Hne Hid Hsl.
  assert (Hr : r = place_oco_legs cl cfg symbol side quantity
                     take_profit_price stop_loss_price w)
    by (apply place_oco_order_valid; exact Hv).
  apply oco_inputs_valid_inv in Hv as (H1 & H2 & H3 & H4 & H5 & _).
  destruct (place_oco_legs_run symbol side quantity take_profit_price
              stop_loss_price w H1 H2 H3 H4 H5)
    as (result & w' & Hrun & Hshape).
  fold tp_params sl_params in Hshape.
  rewrite Htp, Hsl in Hshape. simpl in Hshape.
  unfold dict_truthy in Hshape.
  rewrite bool_decide_false in Hshape by exact Hne. simpl in Hshape.
  rewrite Hid in Hshape. destruct Hshape as [-> Hc].
  rewrite Hr, Hrun. simpl. split; [reflexivity |].
  rewrite Hc. reflexivity.
Qed.


(** The entry placement never raises; it reaches the exchange at most
    once and yields an order only when it did. *)
Lemma place_entry_run
    (symbol entry_side : string) (quantity : Q) (entry_price : option Q)
    (w : World) :
  exists (o : option pydict) (w' : World),
    place_entry cl cfg symbol entry_side quantity entry_price w
    = (Done o, w')
    /\ ((if_truthy o = None /\ calls w' = calls w)
        \/ exists params : pydict,
             calls w' = calls w ++ [CreateOrder params]
             /\ params !! "symbol" = Some (VStr symbol)
             /\ params !! "side" = Some (VStr (upper entry_side))
             /\ params !! "reduceOnly" = Some (VBool false)).
Proof.
  destruct entry_price as [price |]; simpl.
  - destruct (place_limit_order_effect cl cfg symbol entry_side quantity
                price "GTC" false false w) as (o & w' & Hrun & Ho & Hc & _).
    rewrite Hrun. eexists _, _. split; [reflexivity |].
    destruct (limit_checks cfg symbol entry_side quantity price "GTC").
    + right. eexists. split; [exact Hc |]. repeat split; reflexivity.
    + left. rewrite app_nil_r in Hc. split; [exact Ho | exact Hc].
  - destruct (place_market_order_calls cl cfg symbol entry_side quantity
                false w) as (o & w' & Hrun & Hc & Ho).
    rewrite Hrun. eexists _, _. split; [reflexivity |].
    destruct (market_checks cfg symbol entry_side quantity).
    + right. eexists. split; [exact Hc |]. repeat split; reflexivity.
    + left. subst o. rewrite app_nil_r in Hc. split; [reflexivity | exact Hc].
Qed.

(** How [place_oco_with_entry] composes the entry and the exits. *)
Lemma place_oco_with_entry_run
    (symbol entry_side : string) (quantity : Q) (entry_price : option Q)
    (take_profit_price stop_loss_price : Q) (w : World) :
  let entry := place_entry cl cfg symbol entry_side quantity entry_price w in
  let r := place_oco_with_entry cl cfg symbol entry_side quantity entry_price
             take_profit_price stop_loss_price w in
  match leg_result entry with
  | None => fst r = Done None /\ calls (snd r) = calls (snd entry)
  | Some entry_order =>
      match entry_order !! "orderId" with
      | None => fst r = Done None /\ calls (snd r) = calls (snd entry)
      | Some _ =>
          let oco :=
            place_oco_order cl cfg symbol (exit_side_of entry_side) quantity
              take_profit_price stop_loss_price
              (logged (snd entry) INFO
                 "Entry order placed: {entry_order['orderId']}") in
          calls (snd r) = calls (snd oco)
          /\ fst r
             = match fst oco with
               | Done (Some (take_profit_order, stop_loss_order)) =>
                   Done (Some (<["entry_order" := Some entry_order]>
                                 (<["take_profit_order" :=
                                      Some take_profit_order]>
                                    (<["stop_loss_order" :=
                                         Some stop_loss_order]> ∅))))
               | Done None =>
                   Done (Some (<["entry_order" := Some entry_order]>
                                 (<["oco_orders" := None]> ∅)))
               | Raised _ => Done None
               end
      end
  end.
Proof.
  intros entry r.
  destruct (place_entry_run symbol entry_side quantity entry_price w)
    as (o & w1 & Hentry & _).
  subst r. unfold place_oco_with_entry. fold (exit_side_of entry_side).
  unfold try_except, bind.
  change (match entry_price with
          | Some price => place_limit_order cl cfg symbol entry_side quantity
                            price "GTC" false false
          | None => place_market_order cl cfg symbol entry_side quantity false
          end w)
    with (place_entry cl cfg symbol entry_side quantity entry_price w).
  subst entry. rewrite Hentry. unfold leg_result. simpl fst. simpl snd.
  destruct (if_truthy o) as [entry_order |]; [| split; reflexivity].
  unfold dict_item, or_raise.
  destruct (entry_order !! "orderId") as [entry_id |];
    [| split; reflexivity].
  simpl. unfold logged.
  destruct (place_oco_order cl cfg symbol (exit_side_of entry_side) quantity
              take_profit_price stop_loss_price _) as [[[[tp sl] |] | e] w2];
    simpl; split; reflexivity.
Qed.

(** X11. Entry with exits never raises and places the entry first.  When
    the entry yields nothing, or yields an order without [orderId], the
    call returns no result and nothing else is sent.  When it yields an
    identified order, the exits are placed on the opposite side; the result
    holds the three orders when the exits succeed, and the entry with
    [oco_orders] set to [None] when they do not. *)
Theorem place_oco_with_entry_entry_first
    (symbol entry_side : string) (quantity : Q) (entry_price : option Q)
    (take_profit_price stop_loss_price : Q) (w : World) :
  let entry := place_entry cl cfg symbol entry_side quantity entry_price w in
  let r := place_oco_with_entry cl cfg symbol entry_side quantity entry_price
             take_profit_price stop_loss_price w in
  (exists result, fst r = Done result)
  /\ (leg_result entry = None ->
      fst r = Done None /\ calls (snd r) = calls (snd entry)
      /\ (calls (snd entry) = calls w
          \/ exists params, calls (snd entry) = calls w ++ [CreateOrder params]))
  /\ (forall entry_order : pydict,
        leg_result entry = Some entry_order ->
        entry_order !! "orderId" = None ->
        fst r = Done None
        /\ exists params, calls (snd r) = calls w ++ [CreateOrder params])
  /\ (forall entry_order : pydict,
        leg_result entry = Some entry_order ->
        is_Some (entry_order !! "orderId") ->
        let oco :=
          place_oco_order cl cfg symbol (exit_side_of entry_side) quantity
            take_profit_price stop_loss_price
            (logged (snd entry) INFO
               "Entry order placed: {entry_order['orderId']}") in
        calls (snd r) = calls (snd oco)
        /\ (forall take_profit_order stop_loss_order : pydict,
              fst oco = Done (Some (take_profit_order, stop_loss_order)) ->
              fst r = Done (Some (<["entry_order" := Some entry_order]>
                                    (<["take_profit_order" :=
                                         Some take_profit_order]>
                                       (<["stop_loss_order" :=
                                            Some stop_loss_order]> ∅)))))
        /\ (fst oco = Done None ->
            fst r = Done (Some (<["entry_order" := Some entry_order]>
                                  (<["oco_orders" := None]> ∅))))).
Proof.
  intros entry r.
  pose proof (place_oco_with_entry_run symbol entry_side quantity entry_price
                take_profit_price stop_loss_price w) as Hrun.
  cbv zeta in Hrun. fold entry r in Hrun.
  destruct (place_entry_run symbol entry_side quantity entry_price w)
    as (o & w1 & Hentry & Hshape).
  fold entry in Hentry.
  split; [| split; [| split]].
  - destruct (leg_result entry) as [entry_order |].
    + destruct (entry_order !! "orderId"); [| destruct Hrun; eauto].
      destruct Hrun as [_ ->].
      destruct (fst (place_oco_order _ _ _ _ _ _ _ _)) as [[[? ?] |] | ?];
        eauto.
    + destruct Hrun; eauto.
  - intros Hnone. rewrite Hnone in Hrun. destruct Hrun as [Hr Hc].
    split; [exact Hr |]. split; [exact Hc |].
    rewrite Hentry. simpl.
    destruct Hshape as [[_ Hsame] | (params & Hcall & _)]; eauto.
  - intros entry_order Hsome Hid. rewrite Hsome, Hid in Hrun.
    destruct Hrun as [Hr Hc]. split; [exact Hr |].
    rewrite Hc, Hentry. simpl.
    destruct Hshape as [[Hnone _] | (params & Hcall & _)]; [| eauto].
    exfalso. unfold leg_result in Hsome. rewrite Hentry in Hsome.
    simpl in Hsome. congruence.
  - intros entry_order Hsome [entry_id Hid]. rewrite Hsome, Hid in Hrun.
    cbv zeta in Hrun |- *. destruct Hrun as [Hc Hr].
    split; [exact Hc |]. split.
    + intros tp sl Hoco. rewrite Hoco in Hr. exact Hr.
    + intros Hoco. rewrite Hoco in Hr. exact Hr.
Qed.

(** X12. The exit prices are checked only after the entry is placed:
    with exit inputs the OCO placement rejects (for instance misordered
    prices), the entry order is the only order sent, it is not
    reduce-only, and the call reports the entry with [oco_orders] set to
    [None]. *)
Theorem place_oco_with_entry_unprotected_entry
    (symbol entry_side : string) (quantity : Q) (entry_price : option Q)
    (take_profit_price stop_loss_price : Q) (w : World)
    (entry_order : pydict) :
  let entry := place_entry cl cfg symbol entry_side quantity entry_price w in
  let r := place_oco_with_entry cl cfg symbol entry_side quantity entry_price
             take_profit_price stop_loss_price w in
  leg_result entry = Some entry_order ->
  is_Some (entry_order !! "orderId") ->
  oco_inputs_valid cfg symbol (exit_side_of entry_side) quantity
    take_profit_price stop_loss_price = false ->
  fst r = Done (Some (<["entry_order" := Some entry_order]>
                        (<["oco_orders" := None]> ∅)))
  /\ exists params : pydict,
       calls (snd r) = calls w ++ [CreateOrder params]
       /\ params !! "side" = Some (VStr (upper entry_side))
       /\ params !! "reduceOnly" = Some (VBool false).
Proof.
  intros entry r Hsome [entry_id Hid] Hinvalid.
  pose proof (place_oco_with_entry_run symbol entry_side quantity entry_price
                take_profit_price stop_loss_price w) as Hrun.
  cbv zeta in Hrun. fold entry r in Hrun.
  rewrite Hsome, Hid in Hrun.
  match type of Hrun with
  | context [place_oco_order _ _ _ _ _ _ _ ?w1] =>
      destruct (place_oco_order_invalid symbol (exit_side_of entry_side)
                  quantity take_profit_price stop_loss_price w1 Hinvalid)
        as [text Hoco]
  end.
  rewrite Hoco in Hrun. simpl in Hrun. destruct Hrun as [Hc Hr].
  split; [exact Hr |].
  destruct (place_entry_run symbol entry_side quantity entry_price w)
    as (o & w1 & Hentry & Hshape).
  fold entry in Hentry. unfold leg_result in Hsome.
  rewrite Hentry in Hsome, Hc. simpl in Hsome, Hc.
  destruct Hshape as [[Hnone _] | (params & Hcall & _ & Hside & Hro)].
  - rewrite Hnone in Hsome. discriminate.
  - exists params. rewrite Hc, Hcall. auto.
Qed.

End Compound.

(* ===================================================================== *)
(** ** Further properties: TWAP *)
(* ===================================================================== *)

Section Averages.
Variable cl : Client.
Variable cfg : ValidatorConfig.
Variable tcfg : TwapConfig.
Variable float_of_str : string -> option Q.

Lemma Qmin_list_le (ps : list Q) :
  forall p : Q,
    (Qmin_list p ps <= p)%Q /\ Forall (fun x => Qmin_list p ps <= x)%Q ps.
Proof.
  unfold Qmin_list.
  induction ps as [| b ps IH]; intros p; simpl.
  - split; [lra | constructor].
  - destruct (Qltb b p) eqn:Hb.
    + apply Qltb_lt in Hb. destruct (IH b) as [H1 H2].
      split; [lra | constructor; assumption].
    + apply Qltb_ge in Hb. destruct (IH p) as [H1 H2].
      split; [exact H1 | constructor; [lra | exact H2]].
Qed.

Lemma Qmax_list_ge (ps : list Q) :
  forall p : Q,
    (p <= Qmax_list p ps)%Q /\ Forall (fun x => x <= Qmax_list p ps)%Q ps.
Proof.
  unfold Qmax_list.
  induction ps as [| b ps IH]; intros p; simpl.
  - split; [lra | constructor].
  - destruct (Qltb p b) eqn:Hb.
    + apply Qltb_lt in Hb. destruct (IH b) as [H1 H2].
      split; [lra | constructor; assumption].
    + apply Qltb_ge in Hb. destruct (IH p) as [H1 H2].
      split; [exact H1 | constructor; [lra | exact H2]].
Qed.

Lemma Qmin_list_In (ps : list Q) :
  forall p : Q, In (Qmin_list p ps) (p :: ps).
Proof.
  unfold Qmin_list.
  induction ps as [| b ps IH]; intros p; simpl.
  - left. reflexivity.
  - destruct (Qltb b p).
    + right. apply (IH b).
    + destruct (IH p) as [H | H]; [left; exact H | right; right; exact H].
Qed.

Lemma Qmax_list_In (ps : list Q) :
  forall p : Q, In (Qmax_list p ps) (p :: ps).
Proof.
  unfold Qmax_list.
  induction ps as [| b ps IH]; intros p; simpl.
  - left. reflexivity.
  - destruct (Qltb p b).
    + right. apply (IH b).
    + destruct (IH p) as [H | H]; [left; exact H | right; right; exact H].
Qed.

(** The prices [get_twap_summary] looks at are the converted [avgPrice]
    values of the orders that report a truthy one. *)
Lemma observed_prices_reported (orders : list pydict) (prices : list Q) :
  observed_prices float_of_str orders = Done prices ->
  forall p : Q,
    In p prices
    <-> exists order : pydict,
          In order orders
          /\ pyval_truthy (dict_get order "avgPrice" VNone) = true
          /\ py_float float_of_str (dict_get order "avgPrice" (VInt 0))
             = Done p.
Proof.
  revert prices.
  induction orders as [| o os IH]; intros prices; simpl.
  - intros [= <-] p. split; [intros [] | intros (order & [] & _)].
  - destruct (pyval_truthy (dict_get o "avgPrice" VNone)) eqn:Ht.
    + destruct (py_float float_of_str (dict_get o "avgPrice" (VInt 0)))
        as [q | e] eqn:Hq; simpl; [| discriminate].
      destruct (observed_prices float_of_str os) as [ps | e] eqn:Hps; simpl;
        [| discriminate].
      intros [= <-] p. specialize (IH ps eq_refl p). split.
      * intros [<- | Hin].
        -- exists o. split; [left; reflexivity | split; assumption].
        -- apply IH in Hin. destruct Hin as (order & Hin & H1 & H2).
           exists order. split; [right; exact Hin | split; assumption].
      * intros (order & [<- | Hin] & H1 & H2).
        -- left. congruence.
        -- right. apply IH. exists order. split; [exact Hin |].
           split; assumption.
    + intros Hps p. specialize (IH prices Hps p). split.
      * intros Hin. apply IH in Hin. destruct Hin as (order & Hin & H1 & H2).
        exists order. split; [right; exact Hin | split; assumption].
      * intros (order & [<- | Hin] & H1 & H2); [congruence |].
        apply IH. exists order. split; [exact Hin | split; assumption].
Qed.

(** X14. The summary of a non-empty list of orders whose quantities and
    prices convert to floats counts the orders.  Its minimum and maximum
    prices are taken over the prices of the orders that report a truthy
    [avgPrice]: both are such prices and they bound every such price; when
    no order reports one, both are the int 0. *)
Theorem get_twap_summary_price_bounds (orders : list pydict) :
  orders <> [] ->
  Forall (order_converts float_of_str) orders ->
  let reported (p : Q) :=
    exists order : pydict,
      In order orders
      /\ pyval_truthy (dict_get order "avgPrice" VNone) = true
      /\ py_float float_of_str (dict_get order "avgPrice" (VInt 0)) = Done p in
  exists summary : pydict,
    get_twap_summary float_of_str orders = Done summary
    /\ summary !! "total_orders" = Some (VInt (Z.of_nat (length orders)))
    /\ ((exists lo hi : Q,
           summary !! "min_price" = Some (VFloat lo)
           /\ summary !! "max_price" = Some (VFloat hi)
           /\ reported lo /\ reported hi
           /\ forall p : Q, reported p -> (lo <= p <= hi)%Q)
        \/ (summary !! "min_price" = Some (VInt 0)
            /\ summary !! "max_price" = Some (VInt 0)
            /\ forall p : Q, ~ reported p)).
Proof.
  intros Hne Hconv reported.
  assert (Hqty : Forall (converts float_of_str) (executed_qtys orders)).
  { unfold executed_qtys. apply Forall_map.
    eapply Forall_impl; [exact Hconv |]. intros o [Ho _]. exact Ho. }
  destruct (sum_floats_converts float_of_str _ Hqty 0%Q) as [total_qty Hsum].
  destruct (average_price_loop_converts float_of_str _ Hconv 0%Q 0%Q)
    as [[tq tv] Havg].
  destruct (observed_prices_converts float_of_str _ Hconv)
    as [prices Hprices].
  pose proof (observed_prices_reported orders prices Hprices) as Hrep.
  unfold get_twap_summary, calculate_average_price.
  destruct orders as [| o os]; [contradiction |].
  rewrite Hsum, Havg, Hprices. simpl and_then.
  destruct prices as [| p ps].
  - destruct (Qltb 0 tq); simpl; eexists;
      (split; [reflexivity |]); (split; [reflexivity |]);
      right; (split; [reflexivity |]); (split; [reflexivity |]);
      intros q Hq; apply (Hrep q) in Hq; exact Hq.
  - destruct (Qmin_list_le ps p) as [Hmin0 Hmin].
    destruct (Qmax_list_ge ps p) as [Hmax0 Hmax].
    destruct (Qltb 0 tq); simpl; eexists;
      (split; [reflexivity |]); (split; [reflexivity |]);
      left; exists (Qmin_list p ps), (Qmax_list p ps);
      (split; [reflexivity |]); (split; [reflexivity |]);
      (split; [apply Hrep, Qmin_list_In |]);
      (split; [apply Hrep, Qmax_list_In |]);
      intros q Hq; apply (Hrep q) in Hq;
      rewrite List.Forall_forall in Hmin, Hmax;
      (destruct Hq as [<- | Hq]; [split; assumption |]);
      (split; [apply Hmin | apply Hmax]); exact Hq.
Qed.

(** Placements that fail their checks leave only the waits. *)
Lemma twap_prior_unchecked
    (symbol side : string) (size : Q) (interval : Z) (k : nat) :
  market_checks cfg symbol side size = false ->
  forall h : list call,
    twap_prior cl cfg symbol side size interval k h
    = (h ++ replicate k (Sleep interval), []).
Proof.
  intros Hchecks. induction k as [| k IH]; intros h; simpl.
  - rewrite app_nil_r. reflexivity.
  - unfold market_chunk_calls, market_chunk_order. rewrite Hchecks. simpl.
    rewrite IH. simpl. rewrite <- app_assoc. reflexivity.
Qed.

(** X15. The asynchronous variant does not validate symbol and side
    itself: with an invalid symbol or side every chunk fails its own
    checks, no order is sent, the waits between chunks are still made and
    the call returns an empty list. *)
Theorem execute_twap_order_async_unchecked_symbol
    (symbol side : string) (total_quantity : Q)
    (chunks interval_seconds : option Z) (w : World) :
  let N := int_or chunks (default_chunks tcfg) in
  let T := int_or interval_seconds (default_interval tcfg) in
  let r := execute_twap_order_async cl cfg tcfg float_of_str symbol side
             total_quantity chunks interval_seconds w in
  fst (validate_twap_parameters cfg total_quantity N T) = true ->
  fst (validate_symbol symbol) && fst (validate_side side) = false ->
  fst r = Done (Some [])
  /\ calls (snd r) = calls w ++ replicate (Z.to_nat (N - 1)) (Sleep T).
Proof.
  intros N T r Hvalid Hbad.
  assert (Hchecks : forall size : Q,
             market_checks cfg symbol side size = false).
  { intros size. unfold market_checks. rewrite Hbad. reflexivity. }
  pose proof (execute_twap_order_async_run cl cfg tcfg float_of_str symbol
                side total_quantity chunks interval_seconds w 0 Hvalid)
    as Hrun.
  cbv zeta in Hrun. fold N T r in Hrun.
  rewrite twap_prior_unchecked in Hrun by apply Hchecks.
  simpl in Hrun. specialize (Hrun eq_refl).
  unfold market_chunk_order, market_chunk_calls in Hrun.
  rewrite Hchecks in Hrun. simpl in Hrun.
  rewrite app_nil_r in Hrun. exact Hrun.
Qed.

(** The three checks [execute_twap_order] makes before it starts. *)
Lemma execute_twap_order_invalid
    (symbol side : string) (total_quantity : Q)
    (chunks interval_seconds : option Z) (use_limit : bool)
    (limit_offset_percent : Q) (w : World) :
  let N := int_or chunks (default_chunks tcfg) in
  let T := int_or interval_seconds (default_interval tcfg) in
  fst (validate_twap_parameters cfg total_quantity N T)
  && fst (validate_symbol symbol) && fst (validate_side side) = false ->
  exists text : string,
    execute_twap_order cl cfg tcfg float_of_str symbol side total_quantity
      chunks interval_seconds use_limit limit_offset_percent w
    = (Done None, logged w ERROR text).
Proof.
  intros N T. unfold execute_twap_order. fold N T.
  destruct (fst (validate_twap_parameters cfg total_quantity N T)); simpl;
    [| eexists; reflexivity].
  destruct (fst (validate_symbol symbol)); simpl; [| eexists; reflexivity].
  destruct (fst (validate_side side)); simpl; [discriminate |].
  eexists; reflexivity.
Qed.

End Averages.


Section Grows.
Context {S : Type} (mu : S -> nat).

Lemma grows_by_weaken {A : Type} (n n' : nat) (m : M S A) :
  (n <= n')%nat -> grows_by mu n m -> grows_by mu n' m.
Proof. intros Hn Hm s. specialize (Hm s). lia. Qed.

Lemma grows_by_ret {A : Type} (a : A) : grows_by mu 0 (ret a).
Proof. intros s. simpl. lia. Qed.

Lemma grows_by_raise {A : Type} (e : exn) : grows_by mu 0 (@raise S A e).
Proof. intros s. simpl. lia. Qed.

Lemma grows_by_pure {A : Type} (o : outcome A) : grows_by mu 0 (pure o).
Proof. intros s. simpl. lia. Qed.

Lemma grows_by_or_raise {A : Type} (o : option A) (e : exn) :
  grows_by mu 0 (or_raise o e).
Proof. destruct o; [apply grows_by_ret | apply grows_by_raise]. Qed.

Lemma grows_by_bind {A B : Type} (n1 n2 : nat) (m : M S A) (k : A -> M S B) :
  grows_by mu n1 m -> (forall a, grows_by mu n2 (k a)) ->
  grows_by mu (n1 + n2) (bind m k).
Proof.
  intros Hm Hk s. unfold bind. specialize (Hm s).
  destruct (m s) as [[a | e] s1]; simpl in *.
  - specialize (Hk a s1). lia.
  - lia.
Qed.

Lemma grows_by_try_except {A : Type} (n1 n2 : nat) (body : M S A)
    (handler : exn -> M S A) :
  grows_by mu n1 body -> (forall e, grows_by mu n2 (handler e)) ->
  grows_by mu (n1 + n2) (try_except body handler).
Proof.
  intros Hm Hk s. unfold try_except. specialize (Hm s).
  destruct (body s) as [[a | e] s1]; simpl in *.
  - lia.
  - specialize (Hk e s1). lia.
Qed.

Lemma grows_by_bind_0 {A B : Type} (n : nat) (m : M S A) (k : A -> M S B) :
  grows_by mu 0 m -> (forall a, grows_by mu n (k a)) ->
  grows_by mu n (bind m k).
Proof. intros Hm Hk. apply (grows_by_bind 0 n); assumption. Qed.

Lemma grows_by_bind_l {A B : Type} (n : nat) (m : M S A) (k : A -> M S B) :
  grows_by mu n m -> (forall a, grows_by mu 0 (k a)) ->
  grows_by mu n (bind m k).
Proof.
  intros Hm Hk. apply (grows_by_weaken (n + 0)); [lia |].
  apply grows_by_bind; assumption.
Qed.

Lemma grows_by_for_each {A : Type} (n : nat) (xs : list A)
    (body : A -> M S unit) :
  (forall x, grows_by mu n (body x)) ->
  grows_by mu (length xs * n) (for_each xs body).
Proof.
  intros Hbody. induction xs as [| x xs IH]; simpl.
  - apply grows_by_ret.
  - apply grows_by_bind; [apply Hbody | intros _; exact IH].
Qed.

End Grows.

Section TwapBounds.
Variable cl : Client.
Variable cfg : ValidatorConfig.
Variable tcfg : TwapConfig.
Variable float_of_str : string -> option Q.

Lemma grows_by_in_world {L A : Type} (mu : World -> nat) (n : nat)
    (m : M World A) :
  grows_by mu n m -> grows_by (fun s : World * L => mu (fst s)) n (in_world m).
Proof.
  intros Hm [w l]. unfold in_world. simpl. specialize (Hm w).
  destruct (m w) as [o w']. simpl in *. exact Hm.
Qed.

Lemma creations_logger (l : level) (text : string) :
  grows_by creations 0 (logger l text).
Proof. intros w. unfold creations. simpl. lia. Qed.

Lemma creations_perform {A : Type} (c : call) (answer : list call -> outcome A) :
  grows_by creations (if is_creation c then 1 else 0) (perform c answer).
Proof.
  intros w. unfold creations, perform. simpl.
  rewrite List.filter_app, length_app. simpl.
  destruct (is_creation c); simpl; lia.
Qed.

Lemma creations_place_market_order
    (symbol side : string) (quantity : Q) (reduce_only : bool) :
  grows_by creations 1
    (place_market_order cl cfg symbol side quantity reduce_only).
Proof.
  intros w.
  destruct (place_market_order_calls cl cfg symbol side quantity reduce_only w)
    as (o & w' & Hrun & Hc & _).
  rewrite Hrun. unfold creations. simpl. rewrite Hc.
  rewrite List.filter_app, length_app.
  destruct (market_checks cfg symbol side quantity); simpl; lia.
Qed.

Lemma creations_place_limit_order
    (symbol side : string) (quantity price : Q) (time_in_force : string)
    (reduce_only post_only : bool) :
  grows_by creations 1
    (place_limit_order cl cfg symbol side quantity price time_in_force
       reduce_only post_only).
Proof.
  intros w.
  destruct (place_limit_order_run cl cfg symbol side quantity price
              time_in_force reduce_only post_only w)
    as (o & w' & Hrun & Hc & _).
  rewrite Hrun. unfold creations. simpl. rewrite Hc.
  rewrite List.filter_app, length_app.
  destruct (limit_checks cfg symbol side quantity price time_in_force);
    simpl; lia.
Qed.


Lemma creations_locals {L : Type} :
  grows_by (fun s : World * L => creations (fst s)) 0 locals.
Proof. intros s. simpl. lia. Qed.

Lemma creations_set_locals {L : Type} (l : L) :
  grows_by (fun s : World * L => creations (fst s)) 0 (set_locals l).
Proof. intros s. simpl. lia. Qed.

Lemma twap_place_creations
    (symbol side : string) (use_limit : bool) (limit_offset_percent size : Q) :
  grows_by (fun s : World * TwapLocals => creations (fst s)) 1
    (if use_limit then
       bind (in_world (client_symbol_ticker cl symbol)) (fun ticker =>
       bind (dict_item ticker "price") (fun ticker_price =>
       bind (pure (py_float float_of_str ticker_price)) (fun current_price =>
       let limit_price :=
         if String.eqb (upper side) "BUY" then
           (current_price * (1 - limit_offset_percent / 100))%Q
         else (current_price * (1 + limit_offset_percent / 100))%Q in
       let limit_price := format_price cfg limit_price in
       in_world (place_limit_order cl cfg symbol side size limit_price "IOC"
                   false false))))
     else in_world (place_market_order cl cfg symbol side size false)).
Proof.
  destruct use_limit.
  - apply grows_by_bind_0.
    { apply (grows_by_in_world creations).
      apply (creations_perform (SymbolTicker symbol)). }
    intros ticker. apply grows_by_bind_0; [apply grows_by_or_raise |].
    intros v. apply grows_by_bind_0; [apply grows_by_pure |].
    intros p. cbv zeta. apply (grows_by_in_world creations).
    apply creations_place_limit_order.
  - apply (grows_by_in_world creations). apply creations_place_market_order.
Qed.

Lemma twap_chunk_creations
    (symbol side : string) (total_quantity : Q) (chunks interval_seconds : Z)
    (use_limit : bool) (limit_offset_percent : Q) (i : Z) :
  grows_by (fun s : World * TwapLocals => creations (fst s)) 1
    (twap_chunk cl cfg float_of_str symbol side total_quantity chunks
       interval_seconds use_limit limit_offset_percent i).
Proof.
  unfold twap_chunk.
  apply grows_by_bind_0.
  { destruct (i =? chunks - 1)%Z; [| apply grows_by_ret].
    apply grows_by_bind_0; [apply creations_locals |]. intros l.
    apply grows_by_bind_0; [apply grows_by_or_raise |]. intros e.
    unfold set_chunk_size.
    apply grows_by_bind_0; [apply creations_locals |]. intros l'.
    apply creations_set_locals. }
  intros _. apply grows_by_bind_0; [apply creations_locals |]. intros l.
  apply grows_by_bind_0.
  { apply (grows_by_in_world creations). apply creations_logger. }
  intros _. apply grows_by_bind_l; [apply twap_place_creations |].
  intros order. apply grows_by_bind_0.
  { destruct (if_truthy order) as [o |].
    - unfold append_order.
      apply grows_by_bind_0.
      { apply grows_by_bind_0; [apply creations_locals |]. intros l'.
        apply creations_set_locals. }
      intros _. apply grows_by_bind_0; [apply grows_by_or_raise |].
      intros _. apply grows_by_bind_0; [apply grows_by_or_raise |].
      intros _. apply (grows_by_in_world creations). apply creations_logger.
    - apply (grows_by_in_world creations). apply creations_logger. }
  intros _. destruct (i <? chunks - 1)%Z; [| apply grows_by_ret].
  apply grows_by_bind_0.
  { apply (grows_by_in_world creations). apply creations_logger. }
  intros _. apply (grows_by_in_world creations).
  apply (creations_perform (Sleep interval_seconds)).
Qed.


Lemma held_in_world {A : Type} (m : M World A) :
  grows_by held 0 (in_world m).
Proof.
  intros [w l]. unfold in_world, held. simpl.
  destruct (m w) as [o w']. simpl. lia.
Qed.

Lemma held_locals : grows_by held 0 locals.
Proof. intros s. simpl. lia. Qed.

Lemma held_append_order (order : pydict) : grows_by held 1 (append_order order).
Proof.
  intros [w l]. unfold append_order, bind, locals, set_locals, held. simpl.
  rewrite length_app. simpl. lia.
Qed.

Lemma held_set_chunk_size (q : Q) : grows_by held 0 (set_chunk_size q).
Proof.
  intros [w l]. unfold set_chunk_size, bind, locals, set_locals, held. simpl.
  lia.
Qed.

Lemma twap_chunk_held
    (symbol side : string) (total_quantity : Q) (chunks interval_seconds : Z)
    (use_limit : bool) (limit_offset_percent : Q) (i : Z) :
  grows_by held 1
    (twap_chunk cl cfg float_of_str symbol side total_quantity chunks
       interval_seconds use_limit limit_offset_percent i).
Proof.
  unfold twap_chunk.
  apply grows_by_bind_0.
  { destruct (i =? chunks - 1)%Z; [| apply grows_by_ret].
    apply grows_by_bind_0; [apply held_locals |]. intros l.
    apply grows_by_bind_0; [apply grows_by_or_raise |]. intros e.
    apply held_set_chunk_size. }
  intros _. apply grows_by_bind_0; [apply held_locals |]. intros l.
  apply grows_by_bind_0; [apply held_in_world |].
  intros _. apply grows_by_bind_0.
  { destruct use_limit; [| apply held_in_world].
    apply grows_by_bind_0; [apply held_in_world |].
    intros ticker. apply grows_by_bind_0; [apply grows_by_or_raise |].
    intros v. apply grows_by_bind_0; [apply grows_by_pure |].
    intros p. apply held_in_world. }
  intros order. apply grows_by_bind_l.
  { destruct (if_truthy order) as [o |].
    - apply grows_by_bind_l; [apply held_append_order |].
      intros _. apply grows_by_bind_0; [apply grows_by_or_raise |].
      intros _. apply grows_by_bind_0; [apply grows_by_or_raise |].
      intros _. apply held_in_world.
    - apply (grows_by_weaken held 0); [lia | apply held_in_world]. }
  intros _. destruct (i <? chunks - 1)%Z; [| apply grows_by_ret].
  apply grows_by_bind_0; [apply held_in_world |].
  intros _. apply held_in_world.
Qed.

Lemma length_range (n : Z) : length (range n) = Z.to_nat n.
Proof. unfold range. rewrite length_map, length_seq. reflexivity. Qed.

(** X16. A TWAP execution never raises, sends at most N orders and
    returns at most N orders, whatever the exchange answers; with invalid
    TWAP parameters, symbol or side it returns no result and makes no
    exchange call. *)
Theorem execute_twap_order_bounds
    (symbol side : string) (total_quantity : Q)
    (chunks interval_seconds : option Z) (use_limit : bool)
    (limit_offset_percent : Q) (w : World) :
  let N := int_or chunks (default_chunks tcfg) in
  let T := int_or interval_seconds (default_interval tcfg) in
  let r := execute_twap_order cl cfg tcfg float_of_str symbol side
             total_quantity chunks interval_seconds use_limit
             limit_offset_percent w in
  (exists result : option (list pydict), fst r = Done result)
  /\ (creations (snd r) <= creations w + Z.to_nat N)%nat
  /\ (forall orders : list pydict,
        fst r = Done (Some orders) -> (length orders <= Z.to_nat N)%nat)
  /\ (fst (validate_twap_parameters cfg total_quantity N T)
      && fst (validate_symbol symbol) && fst (validate_side side) = false ->
      fst r = Done None /\ calls (snd r) = calls w).
Proof.
  intros N T r.
  cut (exists (result : option (list pydict)) (w' : World),
         r = (Done result, w')
         /\ (creations w' <= creations w + Z.to_nat N)%nat
         /\ (forall orders : list pydict,
               result = Some orders -> (length orders <= Z.to_nat N)%nat)
         /\ (fst (validate_twap_parameters cfg total_quantity N T)
             && fst (validate_symbol symbol) && fst (validate_side side)
             = false -> result = None /\ calls w' = calls w)).
  { intros (result & w' & Hr & Hc & Hlen & Hinv). rewrite Hr. simpl.
    split; [eexists; reflexivity |]. split; [exact Hc |].
    split; [intros orders [= ->]; apply Hlen; reflexivity |].
    intros Hbad. destruct (Hinv Hbad) as [-> Hsame].
    split; [reflexivity | exact Hsame]. }
  destruct (fst (validate_twap_parameters cfg total_quantity N T)
            && fst (validate_symbol symbol) && fst (validate_side side))
    eqn:Hvalid.
  2: { destruct (execute_twap_order_invalid cl cfg tcfg float_of_str symbol
                   side total_quantity chunks interval_seconds use_limit
                   limit_offset_percent w Hvalid) as [text Hr].
       exists None, (logged w ERROR text). split; [exact Hr |].
       split; [unfold creations; simpl; lia |].
       split; [discriminate | intros _; split; reflexivity]. }
  apply andb_true_iff in Hvalid as [Hvalid Hside].
  apply andb_true_iff in Hvalid as [Hvalid Hsym].
  subst r. unfold execute_twap_order. fold N T.
  rewrite Hvalid, Hsym, Hside. simpl.
  unfold bind at 1. unfold logger at 1. simpl. unfold with_locals.
  unfold try_except at 1. unfold bind at 1.
  match goal with
  | |- context [for_each _ _ (?w0, ?l0)] =>
      set (w1 := w0); set (init := l0)
  end.
  pose proof (grows_by_for_each
                (fun s : World * TwapLocals => creations (fst s)) 1
                (range N)
                (twap_chunk cl cfg float_of_str symbol side total_quantity N
                   T use_limit limit_offset_percent)
                (twap_chunk_creations symbol side total_quantity N T
                   use_limit limit_offset_percent) (w1, init)) as Hc.
  pose proof (grows_by_for_each held 1 (range N)
                (twap_chunk cl cfg float_of_str symbol side total_quantity N
                   T use_limit limit_offset_percent)
                (twap_chunk_held symbol side total_quantity N T use_limit
                   limit_offset_percent) (w1, init)) as Hh.
  rewrite length_range, Nat.mul_1_r in Hc, Hh.
  destruct (for_each (range N) _ (w1, init)) as [o [w2 l2]].
  unfold held in Hh. simpl in Hc, Hh.
  change (creations w1) with (creations w) in Hc.
  assert (Hnone : forall orders,
             orders_or_none (executed_orders l2) = Some orders ->
             (length orders <= Z.to_nat N)%nat).
  { intros orders. destruct (executed_orders l2); [discriminate |].
    intros [= <-]. exact Hh. }
  destruct o as [[] | e].
  - unfold bind, locals, pure, in_world, logger, log_error_trace, ret.
    simpl.
    destruct (sum_floats float_of_str 0 (executed_qtys (executed_orders l2)));
      simpl.
    + destruct (calculate_average_price float_of_str (executed_orders l2));
        simpl; eexists _, _; (split; [reflexivity |]);
        (split; [exact Hc |]); (split; [| discriminate]).
      * intros orders [= <-]. exact Hh.
      * exact Hnone.
    + eexists _, _. split; [reflexivity |]. split; [exact Hc |].
      split; [exact Hnone | discriminate].
  - unfold bind, locals, in_world, logger, log_error_trace, ret. simpl.
    eexists _, _. split; [reflexivity |]. split; [exact Hc |].
    split; [exact Hnone | discriminate].
Qed.

End TwapBounds.

(* ===================================================================== *)
(** ** Further properties: grid *)
(* ===================================================================== *)

Section GridModes.
Variable cl : Client.
Variable cfg : ValidatorConfig.
Variable gcfg : GridConfig.
Variable float_of_str : string -> option Q.

Lemma place_grid_order_length
    (symbol side : string) (quantity price : Q) (orders : list pydict)
    (w : World) :
  exists (orders' : list pydict) (w' : World),
    place_grid_order cl cfg symbol side quantity price orders w
    = (Done orders', w')
    /\ (length orders' <= length orders + 1)%nat.
Proof.
  destruct (place_limit_order_run cl cfg symbol side quantity price "GTC"
              false true w) as (o & w' & Hrun & _).
  unfold place_grid_order, bind. rewrite Hrun.
  destruct (if_truthy o); simpl; eexists _, _; (split; [reflexivity |]).
  - rewrite length_app. simpl. lia.
  - lia.
Qed.

(** X17. In long mode the calls after the ticker are, level by level, a
    maker-only BUY for each price at or below the current price, provided
    the order passes the price and quantity checks of [place_limit_order],
    and nothing above it, and no sell order is returned; in short mode a
    maker-only SELL for each price at or above the current price, under
    the same proviso, and nothing below it, and no buy order is
    returned. *)
Theorem create_grid_orders_directional
    (symbol : string) (lower_price upper_price total_quantity : Q)
    (grid_levels : option Z) (w : World) (current_price : Q) :
  let levels := int_or grid_levels (default_grid_levels gcfg) in
  let grid_spacing :=
    ((upper_price - lower_price) / inject_Z (levels - 1))%Q in
  let qty_per_level :=
    format_quantity cfg (total_quantity / inject_Z levels) in
  let grid_prices := generate_grid_prices cfg lower_price grid_spacing levels in
  let long := create_grid_orders cl cfg gcfg float_of_str symbol lower_price
                upper_price total_quantity grid_levels "long" w in
  let short := create_grid_orders cl cfg gcfg float_of_str symbol lower_price
                 upper_price total_quantity grid_levels "short" w in
  fst (validate_grid_parameters cfg lower_price upper_price levels) = true ->
  fst (validate_symbol symbol) = true ->
  (min_spacing gcfg <= grid_spacing_percent lower_price upper_price levels)%Q ->
  ticker_price float_of_str (futures_symbol_ticker cl (calls w) symbol)
  = Some current_price ->
  (calls (snd long)
   = calls w ++ [SymbolTicker symbol]
     ++ concat (map (long_level_calls cfg symbol qty_per_level current_price)
                    grid_prices)
   /\ exists grid : GridResult,
        fst long = Done (Some grid) /\ gr_sell_orders grid = [])
  /\ (calls (snd short)
      = calls w ++ [SymbolTicker symbol]
        ++ concat (map (short_level_calls cfg symbol qty_per_level
                          current_price) grid_prices)
      /\ exists grid : GridResult,
           fst short = Done (Some grid) /\ gr_buy_orders grid = [])
  /\ (forall (side : string) (price : Q),
        fst (validate_side side) = true ->
        grid_level_calls cfg symbol side qty_per_level price
        = if fst (validate_price cfg price)
             && fst (validate_quantity cfg qty_per_level (Some price))
          then [CreateOrder (limit_order_params symbol side qty_per_level
                               price "GTC" false true)]
          else []).
Proof.
  intros levels grid_spacing qty_per_level grid_prices long short Hvalid Hsym
    Hmin Hticker.
  apply Qltb_ge in Hmin.
  assert (Hq : format_quantity cfg qty_per_level = qty_per_level)
    by apply py_round_idempotent.
  pose proof (generate_grid_prices_formatted cfg lower_price grid_spacing
                levels) as Hfmt.
  split; [| split].
  - pose proof (create_grid_orders_placement cl cfg gcfg float_of_str symbol
                  lower_price upper_price total_quantity grid_levels "long" w
                  current_price Hvalid Hsym Hmin Hticker) as Hrun.
    cbv zeta in Hrun.
    fold levels grid_spacing qty_per_level grid_prices in Hrun.
    fold long in Hrun.
    match type of Hrun with
    | context [place_grid_by_mode _ _ _ _ _ _ _ ?w1] =>
        destruct (grid_long_run cl cfg symbol qty_per_level current_price
                    grid_prices Hq Hfmt [] w1) as (b & w2 & Hplace & Hcalls)
    end.
    unfold place_grid_by_mode in Hrun. simpl in Hrun. unfold bind in Hrun.
    rewrite Hplace in Hrun. simpl in Hrun. rewrite Hrun. simpl. split.
    + rewrite Hcalls. simpl. rewrite <- app_assoc. reflexivity.
    + eexists. split; reflexivity.
  - pose proof (create_grid_orders_placement cl cfg gcfg float_of_str symbol
                  lower_price upper_price total_quantity grid_levels "short" w
                  current_price Hvalid Hsym Hmin Hticker) as Hrun.
    cbv zeta in Hrun.
    fold levels grid_spacing qty_per_level grid_prices in Hrun.
    fold short in Hrun.
    match type of Hrun with
    | context [place_grid_by_mode _ _ _ _ _ _ _ ?w1] =>
        destruct (grid_short_run cl cfg symbol qty_per_level current_price
                    grid_prices Hq Hfmt [] w1) as (b & w2 & Hplace & Hcalls)
    end.
    unfold place_grid_by_mode in Hrun. simpl in Hrun. unfold bind in Hrun.
    rewrite Hplace in Hrun. simpl in Hrun. rewrite Hrun. simpl. split.
    + rewrite Hcalls. simpl. rewrite <- app_assoc. reflexivity.
    + eexists. split; reflexivity.
  - intros side price Hside.
    unfold grid_level_calls, limit_checks, limit_check_order. simpl forallb.
    rewrite Hsym, Hside.
    change (fst (validate_time_in_force "GTC")) with true.
    rewrite andb_true_r. reflexivity.
Qed.


(** When a check fails, the spacing is below the minimum or the ticker
    cannot be read, [create_grid_orders] returns no result; its only
    exchange call is the ticker, when it got that far. *)
Lemma create_grid_orders_rejects
    (symbol : string) (lower_price upper_price total_quantity : Q)
    (grid_levels : option Z) (mode : string) (w : World) :
  let levels := int_or grid_levels (default_grid_levels gcfg) in
  let spacing_percent := grid_spacing_percent lower_price upper_price levels in
  let r := create_grid_orders cl cfg gcfg float_of_str symbol lower_price
             upper_price total_quantity grid_levels mode w in
  (fst (validate_grid_parameters cfg lower_price upper_price levels)
   && fst (validate_symbol symbol)
   && negb (Qltb spacing_percent (min_spacing gcfg)) = false ->
   exists text : string, r = (Done None, logged w ERROR text))
  /\ (fst (validate_grid_parameters cfg lower_price upper_price levels)
      && fst (validate_symbol symbol)
      && negb (Qltb spacing_percent (min_spacing gcfg)) = true ->
      ticker_price float_of_str (futures_symbol_ticker cl (calls w) symbol)
      = None ->
      r = (Done None,
           {| calls := calls w ++ [SymbolTicker symbol];
              log := log w
                     ++ removelast (grid_preamble_log gcfg spacing_percent)
                     ++ [(ERROR, "Error in get_current_price")] |})).
Proof.
  intros levels spacing_percent r. subst r.
  unfold create_grid_orders. fold levels.
  fold (grid_spacing_percent lower_price upper_price levels).
  fold spacing_percent.
  destruct (fst (validate_grid_parameters cfg lower_price upper_price levels));
    simpl; [| split; [intros _; eexists; reflexivity | discriminate]].
  destruct (fst (validate_symbol symbol)); simpl;
    [| split; [intros _; eexists; reflexivity | discriminate]].
  destruct (Qltb spacing_percent (min_spacing gcfg)); simpl;
    [split; [intros _; eexists; reflexivity | discriminate] |].
  split; [discriminate |]. intros _ Hticker.
  unfold ticker_price in Hticker. unfold grid_preamble_log.
  unfold bind, try_except, logger, client_symbol_ticker, perform, dict_item,
    or_raise, pure, ret, raise, log_error_trace.
  destruct (Qltb (max_spacing gcfg) spacing_percent); simpl;
    destruct (futures_symbol_ticker cl (calls w) symbol) as [ticker | e];
    simpl; try (rewrite <- !app_assoc; reflexivity);
    (destruct (ticker !! "price") as [v |]; simpl;
     [| rewrite <- !app_assoc; reflexivity]);
    (destruct (py_float float_of_str v); [discriminate |]);
    simpl; rewrite <- !app_assoc; reflexivity.
Qed.

(** X18. When the current price cannot be read (the ticker raises, has no
    price or its price does not convert), the call returns no result, the
    ticker is its only exchange call and the failure is logged. *)
Theorem create_grid_orders_without_price
    (symbol : string) (lower_price upper_price total_quantity : Q)
    (grid_levels : option Z) (mode : string) (w : World) :
  let levels := int_or grid_levels (default_grid_levels gcfg) in
  let r := create_grid_orders cl cfg gcfg float_of_str symbol lower_price
             upper_price total_quantity grid_levels mode w in
  fst (validate_grid_parameters cfg lower_price upper_price levels) = true ->
  fst (validate_symbol symbol) = true ->
  (min_spacing gcfg <= grid_spacing_percent lower_price upper_price levels)%Q ->
  ticker_price float_of_str (futures_symbol_ticker cl (calls w) symbol)
  = None ->
  fst r = Done None
  /\ calls (snd r) = calls w ++ [SymbolTicker symbol]
  /\ last (log (snd r)) = Some (ERROR, "Error in get_current_price").
Proof.
  intros levels r Hvalid Hsym Hmin Hticker.
  apply Qltb_ge in Hmin.
  destruct (create_grid_orders_rejects symbol lower_price upper_price
              total_quantity grid_levels mode w) as [_ Hrej].
  fold levels r in Hrej. rewrite Hvalid, Hsym, Hmin in Hrej.
  rewrite (Hrej eq_refl Hticker). simpl.
  split; [reflexivity |]. split; [reflexivity |].
  rewrite !app_assoc. apply last_snoc.
Qed.

Lemma creations_place_grid_order
    (symbol side : string) (quantity price : Q) (orders : list pydict) :
  grows_by creations 1
    (place_grid_order cl cfg symbol side quantity price orders).
Proof.
  unfold place_grid_order. apply grows_by_bind_l.
  - apply creations_place_limit_order.
  - intros o. destruct (if_truthy o); apply grows_by_ret.
Qed.

Lemma creations_grid_neutral
    (symbol : string) (quantity current_price : Q) (prices : list Q) :
  forall buy_orders sell_orders : list pydict,
    grows_by creations (length prices)
      (grid_neutral cl cfg symbol quantity current_price prices buy_orders
         sell_orders).
Proof.
  induction prices as [| p ps IH]; intros buy_orders sell_orders; simpl.
  - apply grows_by_ret.
  - destruct (Qltb p current_price).
    + apply (grows_by_bind creations 1 (length ps));
        [apply creations_place_grid_order | intros b; apply IH].
    + destruct (Qltb current_price p).
      * apply (grows_by_bind creations 1 (length ps));
          [apply creations_place_grid_order | intros b; apply IH].
      * eapply grows_by_weaken; [| apply IH]. lia.
Qed.

Lemma creations_grid_long
    (symbol : string) (quantity current_price : Q) (prices : list Q) :
  forall buy_orders : list pydict,
    grows_by creations (length prices)
      (grid_long cl cfg symbol quantity current_price prices buy_orders).
Proof.
  induction prices as [| p ps IH]; intros buy_orders; simpl.
  - apply grows_by_ret.
  - destruct (Qleb p current_price).
    + apply (grows_by_bind creations 1 (length ps));
        [apply creations_place_grid_order | intros b; apply IH].
    + eapply grows_by_weaken; [| apply IH]. lia.
Qed.

Lemma creations_grid_short
    (symbol : string) (quantity current_price : Q) (prices : list Q) :
  forall sell_orders : list pydict,
    grows_by creations (length prices)
      (grid_short cl cfg symbol quantity current_price prices sell_orders).
Proof.
  induction prices as [| p ps IH]; intros sell_orders; simpl.
  - apply grows_by_ret.
  - destruct (Qleb current_price p).
    + apply (grows_by_bind creations 1 (length ps));
        [apply creations_place_grid_order | intros b; apply IH].
    + eapply grows_by_weaken; [| apply IH]. lia.
Qed.

Lemma creations_place_grid_by_mode
    (symbol mode : string) (quantity current_price : Q) (prices : list Q) :
  grows_by creations (length prices)
    (place_grid_by_mode cl cfg symbol mode quantity current_price prices).
Proof.
  unfold place_grid_by_mode.
  destruct (String.eqb mode "neutral"); [apply creations_grid_neutral |].
  destruct (String.eqb mode "long").
  { apply grows_by_bind_l; [apply creations_grid_long |].
    intros b. apply grows_by_ret. }
  destruct (String.eqb mode "short").
  { apply grows_by_bind_l; [apply creations_grid_short |].
    intros b. apply grows_by_ret. }
  eapply grows_by_weaken; [| apply grows_by_ret]. lia.
Qed.

(** The orders a loop hands back: at most one more per level. *)
Lemma grid_neutral_counts
    (symbol : string) (quantity current_price : Q) (prices : list Q) :
  forall (buy_orders sell_orders : list pydict) (w : World),
  exists (b s : list pydict) (w' : World),
    grid_neutral cl cfg symbol quantity current_price prices buy_orders
      sell_orders w = (Done (b, s), w')
    /\ (length b + length s
        <= length buy_orders + length sell_orders + length prices)%nat.
Proof.
  induction prices as [| p ps IH]; intros buy_orders sell_orders w; simpl.
  - eexists _, _, _. split; [reflexivity | lia].
  - destruct (Qltb p current_price).
    + destruct (place_grid_order_length symbol "BUY" quantity p buy_orders w)
        as (b1 & w1 & Hrun & Hlen).
      unfold bind. rewrite Hrun.
      destruct (IH b1 sell_orders w1) as (b & s & w2 & Hrest & Hlen2).
      eexists _, _, _. split; [exact Hrest | lia].
    + destruct (Qltb current_price p).
      * destruct (place_grid_order_length symbol "SELL" quantity p
                    sell_orders w) as (s1 & w1 & Hrun & Hlen).
        unfold bind. rewrite Hrun.
        destruct (IH buy_orders s1 w1) as (b & s & w2 & Hrest & Hlen2).
        eexists _, _, _. split; [exact Hrest | lia].
      * destruct (IH buy_orders sell_orders w) as (b & s & w2 & Hrest & Hlen2).
        eexists _, _, _. split; [exact Hrest | lia].
Qed.

Lemma grid_long_counts
    (symbol : string) (quantity current_price : Q) (prices : list Q) :
  forall (buy_orders : list pydict) (w : World),
  exists (b : list pydict) (w' : World),
    grid_long cl cfg symbol quantity current_price prices buy_orders w
    = (Done b, w')
    /\ (length b <= length buy_orders + length prices)%nat.
Proof.
  induction prices as [| p ps IH]; intros buy_orders w; simpl.
  - eexists _, _. split; [reflexivity | lia].
  - destruct (Qleb p current_price).
    + destruct (place_grid_order_length symbol "BUY" quantity p buy_orders w)
        as (b1 & w1 & Hrun & Hlen).
      unfold bind. rewrite Hrun.
      destruct (IH b1 w1) as (b & w2 & Hrest & Hlen2).
      eexists _, _. split; [exact Hrest | lia].
    + destruct (IH buy_orders w) as (b & w2 & Hrest & Hlen2).
      eexists _, _. split; [exact Hrest | lia].
Qed.

Lemma grid_short_counts
    (symbol : string) (quantity current_price : Q) (prices : list Q) :
  forall (sell_orders : list pydict) (w : World),
  exists (s : list pydict) (w' : World),
    grid_short cl cfg symbol quantity current_price prices sell_orders w
    = (Done s, w')
    /\ (length s <= length sell_orders + length prices)%nat.
Proof.
  induction prices as [| p ps IH]; intros sell_orders w; simpl.
  - eexists _, _. split; [reflexivity | lia].
  - destruct (Qleb current_price p).
    + destruct (place_grid_order_length symbol "SELL" quantity p sell_orders
                  w) as (s1 & w1 & Hrun & Hlen).
      unfold bind. rewrite Hrun.
      destruct (IH s1 w1) as (s & w2 & Hrest & Hlen2).
      eexists _, _. split; [exact Hrest | lia].
    + destruct (IH sell_orders w) as (s & w2 & Hrest & Hlen2).
      eexists _, _. split; [exact Hrest | lia].
Qed.

Lemma place_grid_by_mode_counts
    (symbol mode : string) (quantity current_price : Q) (prices : list Q)
    (w : World) :
  exists (b s : list pydict) (w' : World),
    place_grid_by_mode cl cfg symbol mode quantity current_price prices w
    = (Done (b, s), w')
    /\ (length b + length s <= length prices)%nat.
Proof.
  unfold place_grid_by_mode.
  destruct (String.eqb mode "neutral").
  { destruct (grid_neutral_counts symbol quantity current_price prices [] [] w)
      as (b & s & w' & Hrun & Hlen).
    eexists _, _, _. split; [exact Hrun | exact Hlen]. }
  destruct (String.eqb mode "long").
  { destruct (grid_long_counts symbol quantity current_price prices [] w)
      as (b & w' & Hrun & Hlen).
    unfold bind. rewrite Hrun. eexists _, _, _. split; [reflexivity |].
    simpl in *. lia. }
  destruct (String.eqb mode "short").
  { destruct (grid_short_counts symbol quantity current_price prices [] w)
      as (s & w' & Hrun & Hlen).
    unfold bind. rewrite Hrun. eexists _, _, _. split; [reflexivity |].
    simpl in *. lia. }
  eexists _, _, _. split; [reflexivity |]. simpl. lia.
Qed.

(** X19. Creating a grid never raises and sends at most one order per
    level; a returned grid has one price per level and its [total_orders]
    is the number of buy and sell orders it holds, at most the number of
    levels. *)
Theorem create_grid_orders_bounds
    (symbol : string) (lower_price upper_price total_quantity : Q)
    (grid_levels : option Z) (mode : string) (w : World) :
  let levels := int_or grid_levels (default_grid_levels gcfg) in
  let r := create_grid_orders cl cfg gcfg float_of_str symbol lower_price
             upper_price total_quantity grid_levels mode w in
  (exists result : option GridResult, fst r = Done result)
  /\ (creations (snd r) <= creations w + Z.to_nat levels)%nat
  /\ (forall grid : GridResult,
        fst r = Done (Some grid) ->
        gr_total_orders grid
        = Z.of_nat (length (gr_buy_orders grid)
                    + length (gr_sell_orders grid))
        /\ (gr_total_orders grid <= levels)%Z
        /\ length (gr_grid_prices grid) = Z.to_nat levels).
Proof.
  intros levels r.
  cut (exists (result : option GridResult) (w' : World),
         r = (Done result, w')
         /\ (creations w' <= creations w + Z.to_nat levels)%nat
         /\ (forall grid : GridResult,
               result = Some grid ->
               gr_total_orders grid
               = Z.of_nat (length (gr_buy_orders grid)
                           + length (gr_sell_orders grid))
               /\ (gr_total_orders grid <= levels)%Z
               /\ length (gr_grid_prices grid) = Z.to_nat levels)).
  { intros (result & w' & Hr & Hc & Hg). rewrite Hr. simpl.
    split; [eexists; reflexivity |]. split; [exact Hc |].
    intros grid [= ->]. apply Hg. reflexivity. }
  destruct (create_grid_orders_rejects symbol lower_price upper_price
              total_quantity grid_levels mode w) as [Hrej1 Hrej2].
  fold levels r in Hrej1, Hrej2.
  destruct (fst (validate_grid_parameters cfg lower_price upper_price levels))
    eqn:Hvalid; simpl in Hrej1, Hrej2.
  2: { destruct (Hrej1 eq_refl) as [text Hr]. eexists _, _.
       split; [exact Hr |]. split; [unfold creations; simpl; lia |].
       discriminate. }
  destruct (fst (validate_symbol symbol)) eqn:Hsym; simpl in Hrej1, Hrej2.
  2: { destruct (Hrej1 eq_refl) as [text Hr]. eexists _, _.
       split; [exact Hr |]. split; [unfold creations; simpl; lia |].
       discriminate. }
  destruct (Qltb (grid_spacing_percent lower_price upper_price levels)
                 (min_spacing gcfg)) eqn:Hmin; simpl in Hrej1, Hrej2.
  { destruct (Hrej1 eq_refl) as [text Hr]. eexists _, _.
    split; [exact Hr |]. split; [unfold creations; simpl; lia |].
    discriminate. }
  destruct (ticker_price float_of_str
              (futures_symbol_ticker cl (calls w) symbol))
    as [current_price |] eqn:Hticker.
  2: { eexists _, _. split; [exact (Hrej2 eq_refl eq_refl) |].
       split; [| discriminate].
       unfold creations. simpl. rewrite List.filter_app, length_app.
       simpl. lia. }
  pose proof (create_grid_orders_placement cl cfg gcfg float_of_str symbol
                lower_price upper_price total_quantity grid_levels mode w
                current_price Hvalid Hsym Hmin Hticker) as Hrun.
  cbv zeta in Hrun. fold levels r in Hrun.
  match type of Hrun with
  | context [place_grid_by_mode _ _ _ _ ?q _ ?ps ?w1] =>
      destruct (place_grid_by_mode_counts symbol mode q current_price ps w1)
        as (b & s & w2 & Hplace & Hlen);
      pose proof (creations_place_grid_by_mode symbol mode q current_price
                    ps w1) as Hcre
  end.
  rewrite Hplace in Hrun, Hcre. simpl in Hcre.
  rewrite generate_grid_prices_length in Hlen, Hcre.
  eexists _, _. split; [exact Hrun |]. split.
  - unfold creations in *. simpl in *.
    rewrite List.filter_app, length_app in Hcre. simpl in Hcre. lia.
  - intros grid [= <-]. simpl.
    apply validate_grid_parameters_inv in Hvalid as (_ & _ & Hlevels).
    split; [reflexivity |]. split; [lia |].
    apply generate_grid_prices_length.
Qed.
End GridModes.

(* ===================================================================== *)
(** ** Further properties: queries, monitoring and account operations *)
(* ===================================================================== *)

Section Queries.
Variable ex : Exchange.

Lemma get_order_status_run (symbol : string) (order_id : pyval) (d : Desk) :
  exists d' : Desk,
    get_order_status ex symbol order_id d
    = (Done (response_result (futures_get_order ex (requests d) symbol
                                order_id)), d')
    /\ requests d' = requests d ++ [GetOrder symbol order_id].
Proof.
  unfold get_order_status, try_except, bind, ask. simpl.
  destruct (futures_get_order ex (requests d) symbol order_id) as [o | e];
    simpl; eexists; split; reflexivity.
Qed.

Lemma reports_filled_run (status : option pydict) (d : Desk) :
  reports_filled status d
  = match if_truthy status with
    | Some st =>
        match st !! "status" with
        | Some v => (Done (is_filled v), d)
        | None => (Raised (KeyError "status"), d)
        end
    | None => (Done false, d)
    end.
Proof.
  unfold reports_filled. destruct (if_truthy status) as [st |];
    [| reflexivity].
  unfold bind, dict_item, or_raise. destruct (st !! "status"); reflexivity.
Qed.

Lemma on_orders_cancel_order (symbol : string) (order_id : pyval) (d : Desk) :
  exists (b : bool) (d' : Desk),
    on_orders ex (fun cl => cancel_order cl symbol order_id) d = (Done b, d')
    /\ requests d'
       = requests d ++ [OrderCall (CancelOrder symbol order_id)].
Proof.
  unfold on_orders.
  destruct (cancel_order_calls (order_client ex (requests d)) symbol order_id
              {| calls := []; log := journal d |}) as (b & w' & Hrun & Hc).
  rewrite Hrun. eexists _, _. split; [reflexivity |]. simpl.
  rewrite Hc. reflexivity.
Qed.

(** The second half of [monitor_oco_orders]: the stop-loss query and what
    follows it. *)
Lemma monitor_stop_loss_run
    (symbol : string) (tp_order_id sl_order_id : pyval) (d : Desk) :
  let rest :=
    bind (get_order_status ex symbol sl_order_id) (fun sl_status =>
    bind (reports_filled sl_status) (fun sl_filled =>
    if sl_filled then
      bind (desk_logger INFO "Stop loss order {sl_order_id} filled, cancelling take profit") (fun _ =>
      bind (on_orders ex (fun cl => cancel_order cl symbol tp_order_id))
           (fun _ => ret (Some "SL")))
    else ret None)) in
  exists (o : outcome (option string)) (d' : Desk),
    rest d = (o, d')
    /\ match fill_report_of (futures_get_order ex (requests d) symbol
                               sl_order_id) with
       | Filled =>
           o = Done (Some "SL")
           /\ requests d'
              = requests d ++ [GetOrder symbol sl_order_id;
                               OrderCall (CancelOrder symbol tp_order_id)]
       | NotFilled =>
           o = Done None
           /\ requests d' = requests d ++ [GetOrder symbol sl_order_id]
       | Unreadable =>
           (exists e : exn, o = Raised e)
           /\ requests d' = requests d ++ [GetOrder symbol sl_order_id]
       end.
Proof.
  cbv zeta. unfold bind at 1.
  destruct (get_order_status_run symbol sl_order_id d) as (d1 & Hrun1 & Hq1).
  rewrite Hrun1. unfold bind at 1. rewrite reports_filled_run.
  unfold fill_report_of.
  destruct (if_truthy (response_result
                         (futures_get_order ex (requests d) symbol
                            sl_order_id))) as [st |].
  - destruct (st !! "status") as [v |].
    + destruct (is_filled v).
      * unfold bind at 1. unfold desk_logger at 1. unfold bind at 1.
        match goal with
        | |- context [on_orders ex _ ?d2] =>
            destruct (on_orders_cancel_order symbol tp_order_id d2)
              as (b & d3 & Hc & Hq3)
        end.
        rewrite Hc. simpl. eexists _, _. split; [reflexivity |].
        split; [reflexivity |]. rewrite Hq3. simpl.
        rewrite Hq1, <- app_assoc. reflexivity.
      * simpl. eexists _, _. split; [reflexivity |].
        split; [reflexivity | exact Hq1].
    + eexists _, _. split; [reflexivity |].
      split; [eexists; reflexivity | exact Hq1].
  - simpl. eexists _, _. split; [reflexivity |].
    split; [reflexivity | exact Hq1].
Qed.

(** X20. Monitoring an OCO pair never raises and issues at most one
    cancel.  The take-profit status is read first: when it reports FILLED
    the stop-loss is cancelled without its status being read and the
    result is ['TP'], whatever the cancel answers.  Otherwise, when the
    stop-loss reports FILLED the take-profit is cancelled and the result is
    ['SL'].  Otherwise nothing is cancelled and the result is [None]; a
    take-profit answer without a status ends the check before the
    stop-loss is read. *)
Theorem monitor_oco_orders_decision
    (symbol : string) (tp_order_id sl_order_id : pyval) (d : Desk) :
  let r := monitor_oco_orders ex symbol tp_order_id sl_order_id d in
  let tp := fill_report_of (futures_get_order ex (requests d) symbol
                              tp_order_id) in
  let sl := fill_report_of
              (futures_get_order ex
                 (requests d ++ [GetOrder symbol tp_order_id]) symbol
                 sl_order_id) in
  match tp, sl with
  | Filled, _ =>
      fst r = Done (Some "TP")
      /\ requests (snd r)
         = requests d ++ [GetOrder symbol tp_order_id;
                          OrderCall (CancelOrder symbol sl_order_id)]
  | Unreadable, _ =>
      fst r = Done None
      /\ requests (snd r) = requests d ++ [GetOrder symbol tp_order_id]
  | NotFilled, Filled =>
      fst r = Done (Some "SL")
      /\ requests (snd r)
         = requests d ++ [GetOrder symbol tp_order_id;
                          GetOrder symbol sl_order_id;
                          OrderCall (CancelOrder symbol tp_order_id)]
  | NotFilled, _ =>
      fst r = Done None
      /\ requests (snd r)
         = requests d ++ [GetOrder symbol tp_order_id;
                          GetOrder symbol sl_order_id]
  end.
Proof.
  intros r tp sl.
  cut (exists (result : option string) (d' : Desk),
         r = (Done result, d')
         /\ match tp, sl with
            | Filled, _ =>
                result = Some "TP"
                /\ requests d'
                   = requests d ++ [GetOrder symbol tp_order_id;
                                    OrderCall (CancelOrder symbol sl_order_id)]
            | Unreadable, _ =>
                result = None
                /\ requests d' = requests d ++ [GetOrder symbol tp_order_id]
            | NotFilled, Filled =>
                result = Some "SL"
                /\ requests d'
                   = requests d ++ [GetOrder symbol tp_order_id;
                                    GetOrder symbol sl_order_id;
                                    OrderCall (CancelOrder symbol tp_order_id)]
            | NotFilled, _ =>
                result = None
                /\ requests d'
                   = requests d ++ [GetOrder symbol tp_order_id;
                                    GetOrder symbol sl_order_id]
            end).
  { intros (result & d' & Hr & Hshape). rewrite Hr. simpl.
    destruct tp; [| destruct sl |]; destruct Hshape as [-> Hq];
      split; (reflexivity || exact Hq). }
  subst r tp sl. unfold monitor_oco_orders.
  unfold try_except at 1. unfold bind at 1.
  destruct (get_order_status_run symbol tp_order_id d) as (d1 & Hrun1 & Hq1).
  rewrite Hrun1. unfold bind at 1. rewrite reports_filled_run.
  pose proof (monitor_stop_loss_run symbol tp_order_id sl_order_id d1)
    as (o & d2 & Hrest & Hshape).
  cbv zeta in Hrest. rewrite Hq1 in Hshape.
  unfold fill_report_of at 1.
  destruct (if_truthy (response_result
                         (futures_get_order ex (requests d) symbol
                            tp_order_id))) as [st |].
  - destruct (st !! "status") as [v |].
    + destruct (is_filled v).
      * (* take-profit filled *)
        unfold bind at 1. unfold desk_logger at 1.
        unfold bind at 1.
        match goal with
        | |- context [on_orders ex _ ?d3] =>
            destruct (on_orders_cancel_order symbol sl_order_id d3)
              as (b & d4 & Hc & Hq4)
        end.
        rewrite Hc. simpl. eexists _, _. split; [reflexivity |].
        split; [reflexivity |]. rewrite Hq4. simpl.
        rewrite Hq1, <- app_assoc. reflexivity.
      * (* take-profit not filled *)
        rewrite Hrest. rewrite <- !app_assoc in Hshape.
        simpl in Hshape.
        destruct (fill_report_of _);
          [destruct Hshape as [-> Hq]
          |destruct Hshape as [-> Hq]
          |destruct Hshape as [[e ->] Hq]];
          simpl; eexists _, _; (split; [reflexivity |]);
          (split; [reflexivity | exact Hq]).
    + simpl. eexists _, _. split; [reflexivity |].
      split; [reflexivity | exact Hq1].
  - rewrite Hrest. rewrite <- !app_assoc in Hshape.
    simpl in Hshape.
    destruct (fill_report_of _);
      [destruct Hshape as [-> Hq]
      |destruct Hshape as [-> Hq]
      |destruct Hshape as [[e ->] Hq]];
      simpl; eexists _, _; (split; [reflexivity |]);
      (split; [reflexivity | exact Hq]).
Qed.

Variable cfg : ValidatorConfig.
Variable rcfg : RiskConfig.
Variable max_leverage : Z.
Variable float_of_str : string -> option Q.
Variable int_of_str : string -> option Z.

Lemma float_item_run (account : pydict) (key : string) (d : Desk) :
  exists e : exn,
    float_item float_of_str account key d
    = match float_field float_of_str account key with
      | Some q => (Done q, d)
      | None => (Raised e, d)
      end.
Proof.
  unfold float_item, float_field, bind, dict_item, or_raise, pure.
  destruct (account !! key) as [v |]; simpl; [| eexists; reflexivity].
  destruct (py_float float_of_str v) as [q | e];
    [exists OtherError | exists e]; reflexivity.
Qed.

Lemma get_account_balance_run (d : Desk) :
  exists d' : Desk,
    get_account_balance ex float_of_str d
    = (Done (read_balance float_of_str (futures_account ex (requests d))), d')
    /\ requests d' = requests d ++ [FuturesAccount].
Proof.
  unfold get_account_balance, read_balance.
  unfold try_except at 1. unfold bind at 1. unfold ask at 1.
  destruct (futures_account ex (requests d)) as [account | e]; simpl;
    [| eexists; split; reflexivity].
  repeat (unfold bind at 1;
          match goal with
          | |- context [float_item float_of_str account ?k ?d0] =>
              destruct (float_item_run account k d0) as [? He];
              rewrite He; clear He;
              destruct (float_field float_of_str account k);
              [simpl | simpl; eexists; split; reflexivity]
          end).
  simpl. eexists; split; reflexivity.
Qed.

Lemma get_open_orders_run (symbol : string) (d : Desk) :
  exists (orders : list pydict) (d' : Desk),
    get_open_orders ex (Some symbol) d = (Done orders, d')
    /\ Z.of_nat (length orders)
       = open_order_count (futures_get_open_orders ex (requests d)
                             (asked_symbol symbol))
    /\ requests d' = requests d ++ [GetOpenOrders (asked_symbol symbol)].
Proof.
  unfold get_open_orders, try_except, bind, ask. fold (asked_symbol symbol).
  simpl.
  destruct (futures_get_open_orders ex (requests d) (asked_symbol symbol))
    as [orders | e]; simpl; eexists _, _; repeat split; reflexivity.
Qed.

(** X23. The risk check never raises.  It accepts an order exactly when
    its value does not exceed the maximum position size, does not exceed
    the available balance if the balance can be read, and the number of
    open orders is below the maximum, a failed open-orders query counting
    as none; an unreadable balance does not reject.  An order above the
    maximum position size is rejected without any request. *)
Theorem check_risk_limits_verdict
    (symbol : string) (quantity price : Q) (d : Desk) :
  let r := check_risk_limits ex rcfg float_of_str symbol quantity price d in
  let order_value := (quantity * price)%Q in
  let balance := read_balance float_of_str
                   (futures_account ex (requests d)) in
  let open_orders :=
    open_order_count
      (futures_get_open_orders ex (requests d ++ [FuturesAccount])
         (asked_symbol symbol)) in
  (exists verdict : check,
     fst r = Done verdict
     /\ (fst verdict = true
         <-> (order_value <= max_position_size_usdt rcfg)%Q
             /\ (forall b : Balance,
                   balance = Some b -> (order_value <= available_balance b)%Q)
             /\ (open_orders < max_open_orders rcfg)%Z))
  /\ ((max_position_size_usdt rcfg < order_value)%Q ->
      requests (snd r) = requests d).
Proof.
  intros r order_value balance open_orders.
  cut (exists (verdict : check) (d' : Desk),
         r = (Done verdict, d')
         /\ (fst verdict = true
             <-> (order_value <= max_position_size_usdt rcfg)%Q
                 /\ (forall b : Balance,
                       balance = Some b ->
                       (order_value <= available_balance b)%Q)
                 /\ (open_orders < max_open_orders rcfg)%Z)
         /\ ((max_position_size_usdt rcfg < order_value)%Q ->
             requests d' = requests d)).
  { intros (verdict & d' & Hr & Hiff & Hq). rewrite Hr. simpl.
    split; [exists verdict; split; [reflexivity | exact Hiff] | exact Hq]. }
  subst r. unfold check_risk_limits. fold order_value.
  unfold try_except at 1.
  destruct (Qltb (max_position_size_usdt rcfg) order_value) eqn:Hmax.
  { apply Qltb_lt in Hmax. simpl. eexists _, _. split; [reflexivity |].
    split; [| intros _; reflexivity].
    simpl. split; [discriminate |]. intros (Hle & _). exfalso. lra. }
  apply Qltb_ge in Hmax.
  unfold bind at 1.
  destruct (get_account_balance_run d) as (d1 & Hbal & Hq1).
  rewrite Hbal. fold balance.
  assert (Hfuture : open_orders
                    = open_order_count
                        (futures_get_open_orders ex (requests d1)
                           (asked_symbol symbol)))
    by (rewrite Hq1; reflexivity).
  destruct balance as [b |] eqn:Hb.
  - destruct (Qltb (available_balance b) order_value) eqn:Hav.
    + apply Qltb_lt in Hav. simpl. eexists _, _. split; [reflexivity |].
      split; [| intros Hlt; exfalso; lra].
      simpl. split; [discriminate |]. intros (_ & Hle & _).
      specialize (Hle b eq_refl). exfalso. lra.
    + apply Qltb_ge in Hav. unfold bind at 1.
      destruct (get_open_orders_run symbol d1)
        as (orders & d2 & Hopen & Hcount & Hq2).
      rewrite Hopen. rewrite Hcount, <- Hfuture.
      destruct (Z.leb_spec (max_open_orders rcfg) open_orders) as [Hge | Hlt];
        simpl; eexists _, _; (split; [reflexivity |]);
        (split; [| intros Hgt; exfalso; lra]); simpl.
      * split; [discriminate |]. intros (_ & _ & Hlt). lia.
      * split; [| reflexivity]. intros _. split; [exact Hmax |].
        split; [| exact Hlt]. intros b' [= <-]. exact Hav.
  - unfold bind at 1.
    destruct (get_open_orders_run symbol d1)
      as (orders & d2 & Hopen & Hcount & Hq2).
    rewrite Hopen. rewrite Hcount, <- Hfuture.
    destruct (Z.leb_spec (max_open_orders rcfg) open_orders) as [Hge | Hlt];
      simpl; eexists _, _; (split; [reflexivity |]);
      (split; [| intros Hgt; exfalso; lra]); simpl.
    + split; [discriminate |]. intros (_ & _ & Hlt). lia.
    + split; [| reflexivity]. intros _. split; [exact Hmax |].
      split; [| exact Hlt]. intros b' [=].
Qed.


(** X24. A leverage outside [1, max_leverage] is rejected without any
    request; a leverage inside it is sent in exactly one change-leverage
    request and the result is whether the exchange answered. *)
Theorem set_leverage_within_bounds (symbol : string) (leverage : Z) (d : Desk) :
  let r := set_leverage ex max_leverage symbol leverage d in
  if ((1 <=? leverage) && (leverage <=? max_leverage))%Z then
    requests (snd r) = requests d ++ [ChangeLeverage symbol leverage]
    /\ fst r
       = Done (match futures_change_leverage ex (requests d) symbol leverage
               with
               | Done _ => true
               | Raised _ => false
               end)
  else fst r = Done false /\ requests (snd r) = requests d.
Proof.
  unfold set_leverage, validate_leverage.
  destruct (Z.leb_spec 1 leverage) as [H1 | H1];
    destruct (Z.ltb_spec leverage 1) as [H1' | H1']; try lia; simpl;
    [| split; reflexivity].
  destruct (Z.leb_spec leverage max_leverage) as [H2 | H2];
    destruct (Z.ltb_spec max_leverage leverage) as [H2' | H2']; try lia;
    simpl; [| split; reflexivity].
  unfold try_except, bind, ask. simpl.
  destruct (futures_change_leverage ex (requests d) symbol leverage);
    simpl; split; reflexivity.
Qed.

Lemma cancel_all_orders_run (symbol : string) (d : Desk) :
  exists d' : Desk,
    cancel_all_orders ex symbol d
    = (Done (match futures_cancel_all_open_orders ex (requests d) symbol with
             | Done _ => true
             | Raised _ => false
             end), d')
    /\ requests d' = requests d ++ [CancelAllOpenOrders symbol].
Proof.
  unfold cancel_all_orders, try_except, bind, ask. simpl.
  destruct (futures_cancel_all_open_orders ex (requests d) symbol);
    simpl; eexists; split; reflexivity.
Qed.

(** X22. Cancelling a grid issues exactly one cancel-all request for the
    symbol, whatever the grid configuration holds, and returns whether the
    exchange answered. *)
Theorem cancel_grid_cancels_everything
    (symbol : string) (grid_config : GridResult) (d : Desk) :
  let r := cancel_grid ex symbol grid_config d in
  requests (snd r) = requests d ++ [CancelAllOpenOrders symbol]
  /\ fst r
     = Done (match futures_cancel_all_open_orders ex (requests d) symbol with
             | Done _ => true
             | Raised _ => false
             end).
Proof.
  intros r.
  cut (exists d' : Desk,
         r = (Done (match futures_cancel_all_open_orders ex (requests d)
                            symbol with
                    | Done _ => true
                    | Raised _ => false
                    end), d')
         /\ requests d' = requests d ++ [CancelAllOpenOrders symbol]).
  { intros (d' & Hr & Hq). rewrite Hr. split; [exact Hq | reflexivity]. }
  subst r. unfold cancel_grid. unfold try_except at 1. unfold bind at 1.
  unfold desk_logger at 1. unfold bind at 1.
  match goal with
  | |- context [cancel_all_orders ex symbol ?d0] =>
      destruct (cancel_all_orders_run symbol d0) as (d1 & Hrun & Hq)
  end.
  rewrite Hrun. simpl in Hrun, Hq |- *.
  destruct (futures_cancel_all_open_orders ex (requests d) symbol);
    simpl; eexists; split; (exact Hq || reflexivity).
Qed.


Lemma filled_value_loop_run (symbol : string) (orders : list pydict) :
  forall (filled : Z) (total_value : Q) (d : Desk),
  exists (o : outcome (Z * Q)) (d' : Desk) (extra : list request),
    filled_value_loop ex float_of_str symbol orders filled total_value d
    = (o, d')
    /\ requests d' = requests d ++ extra
    /\ Forall (fun q => is_status_query q = true) extra
    /\ (length extra <= length orders)%nat
    /\ (forall (f : Z) (v : Q),
          o = Done (f, v) ->
          (filled <= f <= filled + Z.of_nat (length orders))%Z).
Proof.
  induction orders as [| order rest IH]; intros filled total_value d.
  - simpl. exists (Done (filled, total_value)), d, [].
    split; [reflexivity |]. split; [rewrite app_nil_r; reflexivity |].
    split; [constructor |]. split; [simpl; lia |].
    intros f v [= <- <-]. simpl. lia.
  - cbn [filled_value_loop]. unfold bind at 1. unfold dict_item, or_raise.
    destruct (order !! "orderId") as [order_id |].
    2: { exists (Raised (KeyError "orderId")), d, [].
         split; [reflexivity |]. split; [rewrite app_nil_r; reflexivity |].
         split; [constructor |]. split; [simpl; lia | discriminate]. }
    simpl. unfold bind at 1.
    destruct (get_order_status_run symbol order_id d) as (d1 & Hrun & Hq1).
    rewrite Hrun.
    assert (Hnext : forall (filled' : Z) (value' : Q),
               (filled <= filled' <= filled + 1)%Z ->
               exists (o : outcome (Z * Q)) (d' : Desk) (extra : list request),
                 filled_value_loop ex float_of_str symbol rest filled' value'
                   d1 = (o, d')
                 /\ requests d' = requests d ++ extra
                 /\ Forall (fun q => is_status_query q = true) extra
                 /\ (length extra <= length (order :: rest))%nat
                 /\ (forall (f : Z) (v : Q),
                       o = Done (f, v) ->
                       (filled <= f
                        <= filled + Z.of_nat (length (order :: rest)))%Z)).
    { intros filled' value' Hf.
      destruct (IH filled' value' d1) as (o & d' & extra & Hr & Hq & Hall
                                          & Hlen & Hres).
      exists o, d', (GetOrder symbol order_id :: extra).
      split; [exact Hr |].
      split; [rewrite Hq, Hq1, <- app_assoc; reflexivity |].
      split; [constructor; [reflexivity | exact Hall] |].
      split; [simpl; lia |].
      intros f v Ho. specialize (Hres f v Ho). simpl length. lia. }
    assert (Hstop : forall e : exn,
               exists (o : outcome (Z * Q)) (d' : Desk) (extra : list request),
                 (@Raised (Z * Q) e, d1) = (o, d')
                 /\ requests d' = requests d ++ extra
                 /\ Forall (fun q => is_status_query q = true) extra
                 /\ (length extra <= length (order :: rest))%nat
                 /\ (forall (f : Z) (v : Q),
                       o = Done (f, v) ->
                       (filled <= f
                        <= filled + Z.of_nat (length (order :: rest)))%Z)).
    { intros e. exists (Raised e), d1, [GetOrder symbol order_id].
      split; [reflexivity |]. split; [exact Hq1 |].
      split; [repeat constructor |]. split; [simpl; lia | discriminate]. }
    destruct (if_truthy (response_result _)) as [st |];
      [| apply Hnext; lia].
    unfold bind at 1.
    destruct (st !! "status") as [v |]; simpl; [| apply Hstop].
    destruct (is_filled v); [| apply Hnext; lia].
    unfold bind at 1.
    destruct (float_item_run st "executedQty" d1) as [e1 He1].
    rewrite He1.
    destruct (float_field float_of_str st "executedQty") as [qty |];
      [| apply Hstop].
    unfold bind at 1.
    destruct (float_item_run st "avgPrice" d1) as [e2 He2].
    rewrite He2.
    destruct (float_field float_of_str st "avgPrice") as [price |];
      [| apply Hstop].
    apply Hnext. lia.
Qed.

(** X21. Grid statistics never raise and are read-only: the only requests
    are status queries, at most one per buy and sell order.  The result is
    either the empty dictionary (after any failure) or reports the sizes of
    the two order lists, filled counts between 0 and those sizes, and a
    realized profit equal to the sell value minus the buy value. *)
Theorem get_grid_statistics_read_only
    (symbol : string) (grid_config : GridResult) (d : Desk) :
  let r := get_grid_statistics ex float_of_str symbol grid_config d in
  let buys := length (gr_buy_orders grid_config) in
  let sells := length (gr_sell_orders grid_config) in
  exists (stats : pydict) (extra : list request),
    fst r = Done stats
    /\ requests (snd r) = requests d ++ extra
    /\ Forall (fun q => is_status_query q = true) extra
    /\ (length extra <= buys + sells)%nat
    /\ (stats = ∅
        \/ exists (filled_buys filled_sells : Z) (buy_value sell_value : Q),
             stats
             = list_to_map
                 [("total_buy_orders", VInt (Z.of_nat buys));
                  ("total_sell_orders", VInt (Z.of_nat sells));
                  ("filled_buys", VInt filled_buys);
                  ("filled_sells", VInt filled_sells);
                  ("total_buy_value", VFloat buy_value);
                  ("total_sell_value", VFloat sell_value);
                  ("realized_profit", VFloat (sell_value - buy_value))]
             /\ (0 <= filled_buys <= Z.of_nat buys)%Z
             /\ (0 <= filled_sells <= Z.of_nat sells)%Z).
Proof.
  intros r buys sells.
  cut (exists (stats : pydict) (d' : Desk) (extra : list request),
         r = (Done stats, d')
         /\ requests d' = requests d ++ extra
         /\ Forall (fun q => is_status_query q = true) extra
         /\ (length extra <= buys + sells)%nat
         /\ (stats = ∅
             \/ exists (filled_buys filled_sells : Z)
                       (buy_value sell_value : Q),
                  stats
                  = list_to_map
                      [("total_buy_orders", VInt (Z.of_nat buys));
                       ("total_sell_orders", VInt (Z.of_nat sells));
                       ("filled_buys", VInt filled_buys);
                       ("filled_sells", VInt filled_sells);
                       ("total_buy_value", VFloat buy_value);
                       ("total_sell_value", VFloat sell_value);
                       ("realized_profit", VFloat (sell_value - buy_value))]
                  /\ (0 <= filled_buys <= Z.of_nat buys)%Z
                  /\ (0 <= filled_sells <= Z.of_nat sells)%Z)).
  { intros (stats & d' & extra & Hr & Hrest). rewrite Hr.
    exists stats, extra. split; [reflexivity | exact Hrest]. }
  subst r. unfold get_grid_statistics. cbv zeta.
  unfold try_except at 1. unfold bind at 1.
  destruct (filled_value_loop_run symbol (gr_buy_orders grid_config) 0 0 d)
    as (o1 & d1 & extra1 & Hrun1 & Hq1 & Hall1 & Hlen1 & Hres1).
  rewrite Hrun1.
  destruct o1 as [[filled_buys buy_value] | e1].
  2: { simpl. eexists ∅, _, extra1. split; [reflexivity |].
       split; [exact Hq1 |]. split; [exact Hall1 |].
       split; [fold buys in Hlen1; lia | left; reflexivity]. }
  unfold bind at 1.
  destruct (filled_value_loop_run symbol (gr_sell_orders grid_config) 0 0 d1)
    as (o2 & d2 & extra2 & Hrun2 & Hq2 & Hall2 & Hlen2 & Hres2).
  rewrite Hrun2.
  fold buys in Hlen1, Hres1. fold sells in Hlen2, Hres2.
  assert (Hq : requests d2 = requests d ++ extra1 ++ extra2)
    by (rewrite Hq2, Hq1, <- app_assoc; reflexivity).
  assert (Hall : Forall (fun q => is_status_query q = true)
                        (extra1 ++ extra2))
    by (apply Forall_app; split; assumption).
  assert (Hlen : (length (extra1 ++ extra2) <= buys + sells)%nat)
    by (rewrite length_app; lia).
  destruct o2 as [[filled_sells sell_value] | e2].
  2: { simpl. eexists ∅, _, (extra1 ++ extra2). split; [reflexivity |].
       split; [exact Hq |]. split; [exact Hall |].
       split; [exact Hlen | left; reflexivity]. }
  simpl. eexists _, _, (extra1 ++ extra2). split; [reflexivity |].
  split; [exact Hq |]. split; [exact Hall |]. split; [exact Hlen |].
  right. exists filled_buys, filled_sells, buy_value, sell_value.
  split; [reflexivity |].
  specialize (Hres1 _ _ eq_refl). specialize (Hres2 _ _ eq_refl).
  split; lia.
Qed.


Lemma first_open_position_run (positions : list pydict) (d : Desk) :
  exists (o : outcome (option Position)) (d' : Desk),
    first_open_position float_of_str int_of_str positions d = (o, d')
    /\ requests d' = requests d
    /\ (forall p : Position,
          o = Done (Some p) -> ~ (position_amount p == 0)%Q).
Proof.
  induction positions as [| pos rest IH].
  - simpl. eexists _, _. split; [reflexivity |]. split; [reflexivity |].
    discriminate.
  - cbn [first_open_position]. unfold bind at 1.
    destruct (float_item_run pos "positionAmt" d) as [e0 He0].
    rewrite He0.
    destruct (float_field float_of_str pos "positionAmt") as [amount |].
    2: { eexists _, _. split; [reflexivity |]. split; [reflexivity |].
         discriminate. }
    destruct (Qeq_bool amount 0) eqn:Hzero; simpl; [exact IH |].
    unfold bind at 1. unfold dict_item at 1, or_raise.
    destruct (pos !! "symbol") as [sym |].
    2: { eexists _, _. split; [reflexivity |]. split; [reflexivity |].
         discriminate. }
    simpl. unfold bind at 1. rewrite He0.
    unfold bind at 1.
    destruct (float_item_run pos "entryPrice" d) as [e1 He1]. rewrite He1.
    destruct (float_field float_of_str pos "entryPrice") as [entry |].
    2: { eexists _, _. split; [reflexivity |]. split; [reflexivity |].
         discriminate. }
    unfold bind at 1.
    destruct (float_item_run pos "unRealizedProfit" d) as [e2 He2].
    rewrite He2.
    destruct (float_field float_of_str pos "unRealizedProfit") as [pnl |].
    2: { eexists _, _. split; [reflexivity |]. split; [reflexivity |].
         discriminate. }
    unfold bind at 1. unfold dict_item at 1, or_raise.
    destruct (pos !! "leverage") as [lev |].
    2: { eexists _, _. split; [reflexivity |]. split; [reflexivity |].
         discriminate. }
    simpl. unfold bind at 1. unfold pure at 1.
    destruct (py_int int_of_str lev) as [z |].
    2: { eexists _, _. split; [reflexivity |]. split; [reflexivity |].
         discriminate. }
    unfold bind at 1. unfold dict_item at 1, or_raise.
    destruct (pos !! "marginType") as [margin |].
    2: { eexists _, _. split; [reflexivity |]. split; [reflexivity |].
         discriminate. }
    simpl. eexists _, _. split; [reflexivity |]. split; [reflexivity |].
    intros p [= <-]. simpl. intros Heq.
    apply Qeq_bool_iff in Heq. congruence.
Qed.

Lemma get_position_run (symbol : string) (d : Desk) :
  exists (found : option Position) (d' : Desk),
    get_position ex float_of_str int_of_str symbol d = (Done found, d')
    /\ requests d' = requests d ++ [PositionInformation symbol]
    /\ (forall p : Position,
          found = Some p -> ~ (position_amount p == 0)%Q).
Proof.
  unfold get_position. unfold try_except at 1. unfold bind at 1.
  unfold ask at 1.
  destruct (futures_position_information ex (requests d) symbol)
    as [positions | e].
  2: { simpl. eexists _, _. split; [reflexivity |]. split; [reflexivity |].
       discriminate. }
  unfold bind at 1.
  match goal with
  | |- context [first_open_position _ _ positions ?d0] =>
      destruct (first_open_position_run positions d0)
        as (o & d1 & Hrun & Hq & Hnz)
  end.
  rewrite Hrun. simpl in Hq.
  destruct o as [[p |] | e]; simpl.
  - eexists _, _. split; [reflexivity |]. split; [exact Hq |].
    intros p' [= <-]. apply Hnz. reflexivity.
  - eexists _, _. split; [reflexivity |]. split; [exact Hq |]. discriminate.
  - eexists _, _. split; [reflexivity |]. split; [exact Hq |]. discriminate.
Qed.

Lemma on_orders_place_market_order
    (symbol side : string) (quantity : Q) (reduce_only : bool) (d : Desk) :
  exists (o : option pydict) (d' : Desk),
    on_orders ex
      (fun cl => place_market_order cl cfg symbol side quantity reduce_only) d
    = (Done o, d')
    /\ requests d'
       = requests d
         ++ (if market_checks cfg symbol side quantity then
               [OrderCall
                  (CreateOrder (market_order_params symbol side
                                  (format_quantity cfg quantity)
                                  reduce_only))]
             else [])
    /\ (market_checks cfg symbol side quantity = false -> o = None).
Proof.
  unfold on_orders.
  destruct (place_market_order_calls (order_client ex (requests d)) cfg
              symbol side quantity reduce_only
              {| calls := []; log := journal d |})
    as (o & w' & Hrun & Hc & Ho).
  rewrite Hrun. eexists _, _. split; [reflexivity |]. simpl.
  rewrite Hc. simpl.
  destruct (market_checks cfg symbol side quantity).
  - split; [reflexivity | discriminate].
  - split; [reflexivity | intros _; exact Ho].
Qed.

(** X25. Closing a position never raises.  Without an open position it
    returns [False] after the position query alone.  With an open position
    of amount a (never zero) it sends at most one order after the position
    query: a reduce-only market order of the formatted quantity
    |a| * percentage / 100 on the side opposite to the sign of a, provided
    that quantity passes the market-order checks; it returns [True] only
    when they pass. *)
Theorem close_position_reduces
    (symbol : string) (percentage : Q) (d : Desk) :
  let found := get_position ex float_of_str int_of_str symbol d in
  let r := close_position ex cfg float_of_str int_of_str symbol percentage
             d in
  (exists closed : bool, fst r = Done closed)
  /\ (fst found = Done None ->
      fst r = Done false
      /\ requests (snd r) = requests d ++ [PositionInformation symbol])
  /\ (forall position : Position,
        fst found = Done (Some position) ->
        let amount := position_amount position in
        let side := if Qltb 0 amount then "SELL" else "BUY" in
        let close_qty :=
          format_quantity cfg (Qabs amount * (percentage / 100)) in
        let params := market_order_params symbol side close_qty true in
        ~ (amount == 0)%Q
        /\ requests (snd r)
           = requests d
             ++ PositionInformation symbol
                :: (if market_checks cfg symbol side close_qty then
                      [OrderCall (CreateOrder params)]
                    else [])
        /\ params !! "reduceOnly" = Some (VBool true)
        /\ (fst r = Done true ->
            market_checks cfg symbol side close_qty = true)).
Proof.
  intros found r.
  destruct (get_position_run symbol d) as (pos & d1 & Hfound & Hq1 & Hnz).
  subst found. rewrite Hfound. simpl fst.
  cut (exists (closed : bool) (d' : Desk),
         r = (Done closed, d')
         /\ match pos with
            | None =>
                closed = false
                /\ requests d' = requests d ++ [PositionInformation symbol]
            | Some position =>
                let amount := position_amount position in
                let side := if Qltb 0 amount then "SELL" else "BUY" in
                let close_qty :=
                  format_quantity cfg (Qabs amount * (percentage / 100)) in
                let params := market_order_params symbol side close_qty true in
                requests d'
                = requests d
                  ++ PositionInformation symbol
                     :: (if market_checks cfg symbol side close_qty then
                           [OrderCall (CreateOrder params)]
                         else [])
                /\ (closed = true ->
                    market_checks cfg symbol side close_qty = true)
            end).
  { intros (closed & d' & Hr & Hshape). rewrite Hr. simpl.
    split; [eexists; reflexivity |]. split.
    - intros [= ->]. destruct Hshape as [-> Hq]. split; [reflexivity | exact Hq].
    - intros position [= ->]. cbv zeta in Hshape |- *.
      destruct Hshape as [Hq Hc].
      split; [apply Hnz; reflexivity |]. split; [exact Hq |].
      split; [reflexivity |]. intros [= ->]. apply Hc. reflexivity. }
  subst r. unfold close_position. unfold try_except at 1. unfold bind at 1.
  rewrite Hfound.
  destruct pos as [position |].
  2: { simpl. eexists _, _. split; [reflexivity |].
       split; [reflexivity | exact Hq1]. }
  cbv zeta. unfold bind at 1. unfold desk_logger at 1. unfold bind at 1.
  set (amount := position_amount position).
  set (side := if Qltb 0 amount then "SELL" else "BUY").
  set (close_qty := format_quantity cfg (Qabs amount * (percentage / 100))).
  match goal with
  | |- context [on_orders ex _ ?d2] =>
      destruct (on_orders_place_market_order symbol side close_qty true d2)
        as (o & d3 & Hrun & Hq3 & Hnone)
  end.
  rewrite Hrun. simpl in Hq3.
  assert (Hidem : format_quantity cfg close_qty = close_qty)
    by apply py_round_idempotent.
  rewrite Hidem, Hq1, <- app_assoc in Hq3. simpl in Hq3.
  destruct (market_checks cfg symbol side close_qty) eqn:Hchecks.
  - destruct (if_truthy o) as [order |].
    + unfold bind, dict_item, or_raise, desk_logger, desk_log_error_trace.
      destruct (order !! "orderId"); simpl; eexists _, _;
        (split; [reflexivity |]); (split; [exact Hq3 | reflexivity]).
    + simpl. eexists _, _. split; [reflexivity |].
      split; [exact Hq3 | reflexivity].
  - rewrite (Hnone eq_refl). simpl. eexists _, _. split; [reflexivity |].
    split; [exact Hq3 | discriminate].
Qed.

End Queries.

(* ===================================================================== *)
(** ** Further properties: grid refill *)
(* ===================================================================== *)

Section RefillProperties.

Lemma queries_only_weaken {A : Type} (n n' : nat) (m : M Desk A) :
  (n <= n')%nat -> queries_only n m -> queries_only n' m.
Proof.
  intros Hn Hm d. destruct (Hm d) as (extra & Hq & Hall & Hlen).
  exists extra. split; [exact Hq |]. split; [exact Hall | lia].
Qed.

Lemma queries_only_ret {A : Type} (a : A) : queries_only 0 (@ret Desk A a).
Proof.
  intros d. exists []. simpl. rewrite app_nil_r.
  split; [reflexivity |]. split; [constructor | lia].
Qed.

Lemma queries_only_raise {A : Type} (e : exn) :
  queries_only 0 (@raise Desk A e).
Proof.
  intros d. exists []. simpl. rewrite app_nil_r.
  split; [reflexivity |]. split; [constructor | lia].
Qed.

Lemma queries_only_or_raise {A : Type} (o : option A) (e : exn) :
  queries_only 0 (@or_raise Desk A o e).
Proof. destruct o; [apply queries_only_ret | apply queries_only_raise]. Qed.

Lemma queries_only_pure {A : Type} (o : outcome A) :
  queries_only 0 (@pure Desk A o).
Proof.
  intros d. exists []. simpl. rewrite app_nil_r.
  split; [reflexivity |]. split; [constructor | lia].
Qed.

Lemma queries_only_logger (l : level) (text : string) :
  queries_only 0 (desk_logger l text).
Proof.
  intros d. exists []. simpl. rewrite app_nil_r.
  split; [reflexivity |]. split; [constructor | lia].
Qed.

Lemma queries_only_bind {A B : Type} (n1 n2 : nat) (m : M Desk A)
    (k : A -> M Desk B) :
  queries_only n1 m -> (forall a, queries_only n2 (k a)) ->
  queries_only (n1 + n2) (bind m k).
Proof.
  intros Hm Hk d. unfold bind.
  destruct (Hm d) as (extra1 & Hq1 & Hall1 & Hlen1).
  destruct (m d) as [[a | e] d1]; simpl in *.
  - destruct (Hk a d1) as (extra2 & Hq2 & Hall2 & Hlen2).
    exists (extra1 ++ extra2).
    split; [rewrite Hq2, Hq1, <- app_assoc; reflexivity |].
    split; [apply Forall_app; split; assumption |].
    rewrite length_app. lia.
  - exists extra1. split; [exact Hq1 |]. split; [exact Hall1 | lia].
Qed.

Lemma queries_only_bind_0 {A B : Type} (n : nat) (m : M Desk A)
    (k : A -> M Desk B) :
  queries_only 0 m -> (forall a, queries_only n (k a)) ->
  queries_only n (bind m k).
Proof. intros Hm Hk. apply (queries_only_bind 0 n); assumption. Qed.

Lemma queries_only_bind_l {A B : Type} (n : nat) (m : M Desk A)
    (k : A -> M Desk B) :
  queries_only n m -> (forall a, queries_only 0 (k a)) ->
  queries_only n (bind m k).
Proof.
  intros Hm Hk. apply (queries_only_weaken (n + 0)); [lia |].
  apply queries_only_bind; assumption.
Qed.

Lemma queries_only_try_except {A : Type} (n : nat) (body : M Desk A)
    (handler : exn -> M Desk A) :
  queries_only n body -> (forall e, queries_only 0 (handler e)) ->
  queries_only n (try_except body handler).
Proof.
  intros Hm Hk d. unfold try_except.
  destruct (Hm d) as (extra1 & Hq1 & Hall1 & Hlen1).
  destruct (body d) as [[a | e] d1]; simpl in *.
  - exists extra1. split; [exact Hq1 |]. split; [exact Hall1 | lia].
  - destruct (Hk e d1) as (extra2 & Hq2 & Hall2 & Hlen2).
    exists (extra1 ++ extra2).
    split; [rewrite Hq2, Hq1, <- app_assoc; reflexivity |].
    split; [apply Forall_app; split; assumption |].
    rewrite length_app. lia.
Qed.

Lemma queries_only_for_each {A : Type} (n : nat) (xs : list A)
    (body : A -> M Desk unit) :
  (forall x, queries_only n (body x)) ->
  queries_only (length xs * n) (for_each xs body).
Proof.
  intros Hbody. induction xs as [| x xs IH]; simpl.
  - apply queries_only_ret.
  - apply queries_only_bind; [apply Hbody | intros _; exact IH].
Qed.

Variable ex : Exchange.
Variable cfg : ValidatorConfig.
Variable float_of_str : string -> option Q.

Lemma queries_only_get_order_status (symbol : string) (order_id : pyval) :
  queries_only 1 (get_order_status ex symbol order_id).
Proof.
  intros d. destruct (get_order_status_run ex symbol order_id d)
    as (d' & Hrun & Hq).
  rewrite Hrun. exists [GetOrder symbol order_id].
  split; [exact Hq |]. split; [repeat constructor | simpl; lia].
Qed.

Lemma queries_only_reports_filled (status : option pydict) :
  queries_only 0 (reports_filled status).
Proof.
  unfold reports_filled. destruct (if_truthy status); [| apply queries_only_ret].
  apply queries_only_bind_0; [apply queries_only_or_raise |].
  intros v. apply queries_only_ret.
Qed.

Lemma refill_order_queries_only
    (symbol : string) (grid_config : GridResult) (new_side : string)
    (above : bool) (order : pydict) :
  gr_mode grid_config <> "neutral" ->
  queries_only 1
    (refill_order ex cfg float_of_str symbol grid_config new_side above order).
Proof.
  intros Hmode. apply String.eqb_neq in Hmode. unfold refill_order.
  rewrite Hmode.
  apply queries_only_bind_0; [apply queries_only_or_raise |].
  intros order_id. apply queries_only_bind_l;
    [apply queries_only_get_order_status |].
  intros status. apply queries_only_bind_0;
    [apply queries_only_reports_filled |].
  intros filled. destruct filled; [| apply queries_only_ret].
  apply queries_only_bind_0; [apply queries_only_or_raise |].
  intros _. apply queries_only_bind_0; [apply queries_only_logger |].
  intros _. apply queries_only_ret.
Qed.

(** X26. In a mode other than neutral, monitoring a grid never raises
    and places nothing: its only requests are status queries, at most one
    per buy and sell order. *)
Theorem monitor_and_refill_grid_directional_read_only
    (symbol : string) (grid_config : GridResult) (d : Desk) :
  gr_mode grid_config <> "neutral" ->
  let r := monitor_and_refill_grid ex cfg float_of_str symbol grid_config d in
  (exists result : bool, fst r = Done result)
  /\ exists extra : list request,
       requests (snd r) = requests d ++ extra
       /\ Forall (fun q => is_status_query q = true) extra
       /\ (length extra
           <= length (gr_buy_orders grid_config)
              + length (gr_sell_orders grid_config))%nat.
Proof.
  intros Hmode r. split.
  - subst r. unfold monitor_and_refill_grid, try_except.
    destruct (bind _ _ d) as [[b | e] d']; simpl; eexists; reflexivity.
  - assert (H : queries_only
                  (length (gr_buy_orders grid_config)
                   + length (gr_sell_orders grid_config))
                  (monitor_and_refill_grid ex cfg float_of_str symbol
                     grid_config)).
    { unfold monitor_and_refill_grid. apply queries_only_try_except.
      - cbv zeta.
        apply queries_only_bind.
        + eapply queries_only_weaken;
            [| apply queries_only_for_each; intros order;
               apply refill_order_queries_only; exact Hmode].
          lia.
        + intros _. apply queries_only_bind_l.
          * eapply queries_only_weaken;
              [| apply queries_only_for_each; intros order;
                 apply refill_order_queries_only; exact Hmode].
            lia.
          * intros _. apply queries_only_ret.
      - intros e. apply queries_only_bind_0; [apply queries_only_logger |].
        intros _. apply queries_only_ret. }
    exact (H d).
Qed.


Lemma on_orders_place_limit_order
    (symbol side : string) (quantity price : Q) (time_in_force : string)
    (reduce_only post_only : bool) (d : Desk) :
  exists (o : option pydict) (d' : Desk),
    on_orders ex
      (fun cl => place_limit_order cl cfg symbol side quantity price
                   time_in_force reduce_only post_only) d
    = (Done o, d')
    /\ requests d'
       = requests d
         ++ map OrderCall
              (if limit_checks cfg symbol side quantity price time_in_force
               then [CreateOrder
                       (limit_order_params symbol side
                          (format_quantity cfg quantity)
                          (format_price cfg price) time_in_force reduce_only
                          post_only)]
               else []).
Proof.
  unfold on_orders.
  destruct (place_limit_order_run (order_client ex (requests d)) cfg symbol
              side quantity price time_in_force reduce_only post_only
              {| calls := []; log := journal d |})
    as (o & w' & Hrun & Hc & _).
  rewrite Hrun. eexists _, _. split; [reflexivity |]. simpl.
  rewrite Hc. reflexivity.
Qed.

Lemma float_field_item (order : pydict) (key : string) (q : Q) :
  float_field float_of_str order key = Some q -> is_Some (order !! key).
Proof.
  unfold float_field. destruct (order !! key); [eauto | discriminate].
Qed.

(** One order of a refill loop in neutral mode. *)
Lemma refill_order_run
    (symbol : string) (grid_config : GridResult) (new_side : string)
    (above : bool) (order : pydict) (order_id : pyval) (d : Desk) :
  gr_mode grid_config = "neutral" ->
  gr_grid_levels grid_config <> 1%Z ->
  order !! "orderId" = Some order_id ->
  let grid_spacing :=
    ((gr_upper_price grid_config - gr_lower_price grid_config)
     / inject_Z (gr_grid_levels grid_config - 1))%Q in
  let r := refill_order ex cfg float_of_str symbol grid_config new_side above
             order d in
  match fill_report_of (futures_get_order ex (requests d) symbol order_id)
  with
  | Filled =>
      forall price quantity : Q,
        float_field float_of_str order "price" = Some price ->
        float_field float_of_str order "origQty" = Some quantity ->
        let new_price :=
          format_price cfg (if above then price + grid_spacing
                            else price - grid_spacing)%Q in
        exists d' : Desk,
          r = (Done tt, d')
          /\ requests d'
             = requests d
               ++ GetOrder symbol order_id
                  :: map OrderCall
                       (if limit_checks cfg symbol new_side quantity
                             new_price "GTC" then
                          [CreateOrder
                             (limit_order_params symbol new_side
                                (format_quantity cfg quantity) new_price
                                "GTC" false true)]
                        else [])
  | NotFilled =>
      exists d' : Desk,
        r = (Done tt, d')
        /\ requests d' = requests d ++ [GetOrder symbol order_id]
  | Unreadable => True
  end.
Proof.
  intros Hmode Hlevels Hid grid_spacing r. subst r.
  destruct (refill_order ex cfg float_of_str symbol grid_config new_side
              above order d) as [o d'] eqn:E.
  unfold refill_order in E. rewrite Hmode in E. simpl String.eqb in E.
  cbv iota in E.
  assert (Hl : (gr_grid_levels grid_config - 1 =? 0)%Z = false)
    by (apply Z.eqb_neq; lia).
  rewrite Hl in E. fold grid_spacing in E.
  unfold bind at 1 in E. unfold dict_item at 1, or_raise in E.
  rewrite Hid in E. simpl in E. unfold bind at 1 in E.
  destruct (get_order_status_run ex symbol order_id d) as (d1 & Hrun & Hq1).
  rewrite Hrun in E. unfold bind at 1 in E. rewrite reports_filled_run in E.
  unfold fill_report_of.
  destruct (if_truthy (response_result _)) as [st |].
  2: { simpl in E. injection E as <- <-. eexists.
       split; [reflexivity | exact Hq1]. }
  destruct (st !! "status") as [v |]; [| exact I].
  destruct (is_filled v).
  2: { simpl in E. injection E as <- <-. eexists.
       split; [reflexivity | exact Hq1]. }
  cbv beta iota. intros price quantity Hprice Hqty.
  set (new_price := format_price cfg (if above then price + grid_spacing
                                      else price - grid_spacing)%Q).
  destruct (float_field_item _ _ _ Hprice) as [pv Hpv].
  unfold bind at 1 in E. unfold dict_item at 1, or_raise in E.
  rewrite Hpv in E. simpl in E.
  unfold bind at 1 in E. unfold desk_logger at 1 in E.
  unfold bind at 1 in E. unfold ret at 1 in E.
  unfold bind at 1 in E.
  match type of E with
  | context [float_item float_of_str order "price" ?d2] =>
      destruct (float_item_run float_of_str order "price" d2) as [e1 He1]
  end.
  rewrite He1, Hprice in E. fold new_price in E.
  unfold bind at 1 in E.
  match type of E with
  | context [float_item float_of_str order "origQty" ?d2] =>
      destruct (float_item_run float_of_str order "origQty" d2) as [e2 He2]
  end.
  rewrite He2, Hqty in E.
  unfold bind at 1 in E.
  match type of E with
  | context [on_orders ex _ ?d2] =>
      destruct (on_orders_place_limit_order symbol new_side quantity
                  new_price "GTC" false true d2) as (o1 & d3 & Hplace & Hq3)
  end.
  rewrite Hplace in E.
  assert (Hidem : format_price cfg new_price = new_price)
    by apply py_round_idempotent.
  rewrite Hidem in Hq3. simpl in Hq3. rewrite Hq1, <- app_assoc in Hq3.
  destruct (truthy o1); simpl in E; injection E as <- <-; eexists;
    (split; [reflexivity | exact Hq3]).
Qed.

Lemma refill_loop_run
    (symbol : string) (grid_config : GridResult) (new_side : string)
    (above : bool) (orders : list pydict) :
  gr_mode grid_config = "neutral" ->
  gr_grid_levels grid_config <> 1%Z ->
  let grid_spacing :=
    ((gr_upper_price grid_config - gr_lower_price grid_config)
     / inject_Z (gr_grid_levels grid_config - 1))%Q in
  forall (d : Desk) (h : list request),
    refill_requests ex cfg float_of_str symbol grid_spacing new_side above
      orders (requests d) = Some h ->
    exists d' : Desk,
      for_each orders
        (refill_order ex cfg float_of_str symbol grid_config new_side above) d
      = (Done tt, d')
      /\ requests d' = h.
Proof.
  intros Hmode Hlevels grid_spacing.
  induction orders as [| order rest IH]; intros d h Htrace.
  - simpl in *. injection Htrace as <-. eexists. split; reflexivity.
  - cbn [refill_requests] in Htrace. cbn [for_each]. unfold bind at 1.
    destruct (order !! "orderId") as [order_id |] eqn:Hid; [| discriminate].
    pose proof (refill_order_run symbol grid_config new_side above order
                  order_id d Hmode Hlevels Hid) as Hstep.
    cbv zeta in Hstep. fold grid_spacing in Hstep.
    destruct (fill_report_of _); [| | discriminate].
    + destruct (float_field float_of_str order "price") as [price |];
        [| discriminate].
      destruct (float_field float_of_str order "origQty") as [quantity |];
        [| discriminate].
      destruct (Hstep price quantity eq_refl eq_refl) as (d1 & Hrun & Hq).
      rewrite Hrun. apply IH. rewrite Hq. exact Htrace.
    + destruct Hstep as (d1 & Hrun & Hq).
      rewrite Hrun. apply IH. rewrite Hq. exact Htrace.
Qed.

(** X27. In neutral mode (more than one level, orders and statuses
    readable) monitoring a grid returns [True] after, order by order, a
    status query and, for an order reported FILLED, one maker-only GTC
    replacement of the order's original quantity: a SELL one grid spacing
    above the price of a filled buy order, a BUY one spacing below the
    price of a filled sell order, the price formatted. *)
Theorem monitor_and_refill_grid_neutral
    (symbol : string) (grid_config : GridResult) (d : Desk)
    (after_buys after_sells : list request) :
  let grid_spacing :=
    ((gr_upper_price grid_config - gr_lower_price grid_config)
     / inject_Z (gr_grid_levels grid_config - 1))%Q in
  let r := monitor_and_refill_grid ex cfg float_of_str symbol grid_config d in
  gr_mode grid_config = "neutral" ->
  gr_grid_levels grid_config <> 1%Z ->
  refill_requests ex cfg float_of_str symbol grid_spacing "SELL" true
    (gr_buy_orders grid_config) (requests d) = Some after_buys ->
  refill_requests ex cfg float_of_str symbol grid_spacing "BUY" false
    (gr_sell_orders grid_config) after_buys = Some after_sells ->
  fst r = Done true /\ requests (snd r) = after_sells.
Proof.
  intros grid_spacing r Hmode Hlevels Hbuys Hsells.
  destruct (refill_loop_run symbol grid_config "SELL" true
              (gr_buy_orders grid_config) Hmode Hlevels d after_buys Hbuys)
    as (d1 & Hrun1 & Hq1).
  rewrite <- Hq1 in Hsells.
  destruct (refill_loop_run symbol grid_config "BUY" false
              (gr_sell_orders grid_config) Hmode Hlevels d1 after_sells
              Hsells)
    as (d2 & Hrun2 & Hq2).
  subst r. unfold monitor_and_refill_grid, try_except, bind. cbv zeta.
  rewrite Hrun1, Hrun2. simpl. split; [reflexivity | exact Hq2].
Qed.

End RefillProperties.

(* ===================================================================== *)
(** ** Further properties: configuration lookup *)
(* ===================================================================== *)


Lemma split_dots_nonempty (s : string) : split_dots s <> [].
Proof.
  induction s as [| c s IH]; simpl; [discriminate |].
  destruct (Ascii.eqb c "."); [discriminate |].
  destruct (split_dots s); discriminate.
Qed.

Lemma split_dots_no_dot (s : string) :
  has_dot s = false -> split_dots s = [s].
Proof.
  induction s as [| c s IH]; simpl; [reflexivity |].
  destruct (Ascii.eqb c "."); simpl; [discriminate |].
  intros H. rewrite (IH H). reflexivity.
Qed.

Lemma split_dots_app (key path : string) :
  has_dot key = false ->
  split_dots (key ++ "." ++ path) = key :: split_dots path.
Proof.
  induction key as [| c key IH]; simpl; [reflexivity |].
  destruct (Ascii.eqb c "."); simpl; [discriminate |].
  intros H. rewrite (IH H). reflexivity.
Qed.

Lemma split_dots_pieces (s : string) :
  Forall (fun piece => has_dot piece = false) (split_dots s).
Proof.
  induction s as [| c s IH]; simpl.
  - repeat constructor.
  - destruct (Ascii.eqb c ".") eqn:Hc.
    + constructor; [reflexivity | exact IH].
    + destruct (split_dots s) as [| piece pieces].
      * repeat constructor. simpl. rewrite Hc. reflexivity.
      * inversion IH; subst. constructor; [| assumption].
        simpl. rewrite Hc. simpl. assumption.
Qed.

(** X28. A key without a dot is looked up in the top-level mapping, and a
    dotted path is followed one mapping at a time: looking up
    [key.path] is looking up [path] in the entry of [key]; the default
    comes back when the entry is missing or the value is not a mapping. *)
Theorem config_get_path (loaded default : config) (key path : string) :
  has_dot key = false ->
  config_get loaded key default
  = match loaded with
    | Mapping entries =>
        match entries !! key with
        | Some v => v
        | None => default
        end
    | Scalar _ => default
    end
  /\ config_get loaded (key ++ "." ++ path) default
     = match loaded with
       | Mapping entries =>
           match entries !! key with
           | Some v => config_get v path default
           | None => default
           end
       | Scalar _ => default
       end.
Proof.
  intros Hkey. unfold config_get.
  rewrite split_dots_no_dot, split_dots_app by exact Hkey.
  split; simpl; destruct loaded as [v | entries]; try reflexivity;
    destruct (entries !! key); reflexivity.
Qed.

(** X29. A top-level entry whose key contains a dot cannot be reached:
    adding it changes the result of no lookup. *)
Theorem config_get_dotted_key_unreachable
    (entries : gmap string config) (key key_path : string)
    (v default : config) :
  has_dot key = true ->
  config_get (Mapping (<[key := v]> entries)) key_path default
  = config_get (Mapping entries) key_path default.
Proof.
  intros Hkey. unfold config_get.
  pose proof (split_dots_pieces key_path) as Hpieces.
  destruct (split_dots key_path) as [| piece pieces] eqn:Hs.
  - exfalso. exact (split_dots_nonempty key_path Hs).
  - inversion Hpieces as [| ? ? Hp _]; subst. simpl.
    rewrite lookup_insert_ne; [reflexivity |].
    intros ->. congruence.
Qed.

(* ===================================================================== *)
(** ** Further properties: closed instances *)
(* ===================================================================== *)

Lemma place_market_order_sends_zero_quantity_witness :
  calls (snd (place_market_order filling_client default_validator_config
                "BTCUSDT" "BUY" 0.0004 false empty_world))
  = [CreateOrder (market_order_params "BTCUSDT" "BUY" 0 false)].
Proof.
  pose proof (place_market_order_sends_zero_quantity filling_client
                default_validator_config "BTCUSDT" "BUY" 0.0004 false
                empty_world) as H.
  cbv zeta in H.
  do 4 (lapply H; [clear H; intros H | reflexivity]).
  exact (proj1 H).
Defined.

Lemma place_take_profit_order_limit_price_unchecked_witness :
  let r := place_take_profit_order filling_client default_validator_config
             "BTCUSDT" "SELL" 0.001 52000 (Some (-1)%Q) true empty_world in
  fst (validate_price default_validator_config (-1)) = false
  /\ exists params : pydict,
       calls (snd r) = [CreateOrder params]
       /\ params !! "price" = Some (VFloat (-1)).
Proof.
  split; [reflexivity |].
  pose proof (place_take_profit_order_limit_price_unchecked filling_client
                default_validator_config "BTCUSDT" "SELL" 0.001 52000 (-1)
                true empty_world) as H.
  cbv zeta in H.
  do 4 (lapply H; [clear H; intros H | reflexivity]).
  destruct H as (_ & Hc & _ & Hp & _).
  eexists. split; [exact Hc | exact Hp].
Defined.

Lemma place_oco_order_unidentified_take_profit_witness :
  let r := place_oco_order unidentified_client default_validator_config
             "BTCUSDT" "SELL" 0.001 52000 48000 empty_world in
  fst r = Done None
  /\ List.filter is_creation (calls (snd r)) = calls (snd r)
  /\ length (calls (snd r)) = 2%nat.
Proof.
  pose proof (place_oco_order_unidentified_take_profit unidentified_client
                default_validator_config "BTCUSDT" "SELL" 0.001 52000 48000
                empty_world (list_to_map [("status", VStr "NEW")])) as H.
  cbv zeta in H.
  lapply H; [clear H; intros H | reflexivity].
  lapply H; [clear H; intros H | reflexivity].
  lapply H; [clear H; intros H | discriminate].
  lapply H; [clear H; intros H | reflexivity].
  lapply H; [clear H; intros H | reflexivity].
  destruct H as [Hr Hc]. split; [exact Hr |].
  rewrite Hc. split; reflexivity.
Defined.

Lemma place_oco_with_entry_unprotected_entry_witness :
  let r := place_oco_with_entry filling_client default_validator_config
             "BTCUSDT" "BUY" 0.001 None 48000 52000 empty_world in
  fst r
  = Done (Some (<["entry_order" :=
                    Some (order_response 0 "FILLED" "0.001" "50000")]>
                  (<["oco_orders" := None]> ∅)))
  /\ length (calls (snd r)) = 1%nat.
Proof.
  pose proof (place_oco_with_entry_unprotected_entry filling_client
                default_validator_config "BTCUSDT" "BUY" 0.001 None 48000
                52000 empty_world
                (order_response 0 "FILLED" "0.001" "50000")) as H.
  cbv zeta in H.
  lapply H; [clear H; intros H | reflexivity].
  lapply H; [clear H; intros H | eexists; reflexivity].
  lapply H; [clear H; intros H | reflexivity].
  destruct H as (Hr & params & Hc & _).
  split; [exact Hr |]. rewrite Hc. reflexivity.
Defined.

Lemma get_twap_summary_price_bounds_witness :
  exists (summary : pydict) (lo hi : Q),
    get_twap_summary decimal_float
      [order_response 0 "FILLED" "0.001" "50400";
       order_response 1 "NEW" "0" "0";
       order_response 2 "FILLED" "0.003" "50000"] = Done summary
    /\ summary !! "total_orders" = Some (VInt 3)
    /\ summary !! "min_price" = Some (VFloat lo)
    /\ summary !! "max_price" = Some (VFloat hi)
    /\ (lo == 0)%Q /\ (hi == 50400)%Q.
Proof.
  destruct (get_twap_summary_price_bounds decimal_float
              [order_response 0 "FILLED" "0.001" "50400";
               order_response 1 "NEW" "0" "0";
               order_response 2 "FILLED" "0.003" "50000"])
    as (summary & Hs & Hn
        & [(lo & hi & Hlo & Hhi & Hrl & Hrh & Hb) | (_ & _ & Hnone)]).
  - discriminate.
  - repeat constructor; eexists; vm_compute; reflexivity.
  - exists summary, lo, hi.
    split; [exact Hs |]. split; [exact Hn |].
    split; [exact Hlo |]. split; [exact Hhi |].
    assert (H0 : (lo <= 0 <= hi)%Q).
    { apply Hb. exists (order_response 1 "NEW" "0" "0").
      split; [right; left; reflexivity |]. split; vm_compute; reflexivity. }
    assert (H1 : (lo <= 50400 <= hi)%Q).
    { apply Hb. exists (order_response 0 "FILLED" "0.001" "50400").
      split; [left; reflexivity |]. split; vm_compute; reflexivity. }
    destruct Hrl as (ol & Hinl & _ & Hfl).
    destruct Hrh as (oh & Hinh & _ & Hfh).
    simpl in Hinl, Hinh. split.
    + destruct Hinl as [<- | [<- | [<- | []]]]; vm_compute in Hfl;
        injection Hfl as <-; lra.
    + destruct Hinh as [<- | [<- | [<- | []]]]; vm_compute in Hfh;
        injection Hfh as <-; lra.
  - exfalso. apply (Hnone 50400%Q).
    exists (order_response 0 "FILLED" "0.001" "50400").
    split; [left; reflexivity |]. split; vm_compute; reflexivity.
Defined.

Lemma execute_twap_order_async_unchecked_symbol_witness :
  let r := execute_twap_order_async filling_client default_validator_config
             default_twap_config decimal_float "btcusdt" "BUY" 0.003
             (Some 3%Z) (Some 1%Z) empty_world in
  fst r = Done (Some []) /\ calls (snd r) = [Sleep 1; Sleep 1].
Proof.
  pose proof (execute_twap_order_async_unchecked_symbol filling_client
                default_validator_config default_twap_config decimal_float
                "btcusdt" "BUY" 0.003 (Some 3%Z) (Some 1%Z) empty_world) as H.
  cbv zeta in H.
  do 2 (lapply H; [clear H; intros H | reflexivity]).
  exact H.
Defined.

Lemma create_grid_orders_directional_witness :
  let long := create_grid_orders filling_client default_validator_config
                default_grid_config decimal_float "BTCUSDT" 49000 51000 0.01
                (Some 3%Z) "long" empty_world in
  order_quantities (calls (snd long)) = [0.003; 0.003]%Q.
Proof.
  pose proof (create_grid_orders_directional filling_client
                default_validator_config default_grid_config decimal_float
                "BTCUSDT" 49000 51000 0.01 (Some 3%Z) empty_world 50000) as H.
  cbv zeta in H.
  lapply H; [clear H; intros H | reflexivity].
  lapply H; [clear H; intros H | reflexivity].
  lapply H; [clear H; intros H | vm_compute; discriminate].
  lapply H; [clear H; intros H | reflexivity].
  destruct H as [[Hc _] _]. cbv zeta. rewrite Hc. reflexivity.
Defined.

Lemma create_grid_orders_without_price_witness :
  let r := create_grid_orders blind_client default_validator_config
             default_grid_config decimal_float "BTCUSDT" 49000 51000 0.01
             (Some 3%Z) "neutral" empty_world in
  fst r = Done None /\ calls (snd r) = [SymbolTicker "BTCUSDT"].
Proof.
  pose proof (create_grid_orders_without_price blind_client
                default_validator_config default_grid_config decimal_float
                "BTCUSDT" 49000 51000 0.01 (Some 3%Z) "neutral" empty_world)
    as H.
  cbv zeta in H.
  lapply H; [clear H; intros H | reflexivity].
  lapply H; [clear H; intros H | reflexivity].
  lapply H; [clear H; intros H | vm_compute; discriminate].
  lapply H; [clear H; intros H | reflexivity].
  destruct H as (Hr & Hc & _). split; [exact Hr | exact Hc].
Defined.

Lemma monitor_and_refill_grid_directional_read_only_witness :
  let r := monitor_and_refill_grid filled_exchange default_validator_config
             decimal_float "BTCUSDT" (sample_grid "long") empty_desk in
  (exists result : bool, fst r = Done result)
  /\ exists extra : list request,
       requests (snd r) = extra
       /\ Forall (fun q => is_status_query q = true) extra
       /\ (length extra <= 1)%nat.
Proof.
  apply (monitor_and_refill_grid_directional_read_only filled_exchange
           default_validator_config decimal_float "BTCUSDT"
           (sample_grid "long") empty_desk).
  discriminate.
Defined.

Lemma monitor_and_refill_grid_neutral_witness :
  let r := monitor_and_refill_grid filled_exchange default_validator_config
             decimal_float "BTCUSDT" (sample_grid "neutral") empty_desk in
  fst r = Done true
  /\ requests (snd r)
     = [GetOrder "BTCUSDT" (VInt 7);
        OrderCall
          (CreateOrder
             (limit_order_params "BTCUSDT" "SELL" 0.003 50000 "GTC" false
                true))].
Proof.
  pose proof (monitor_and_refill_grid_neutral filled_exchange
                default_validator_config decimal_float "BTCUSDT"
                (sample_grid "neutral") empty_desk
                [GetOrder "BTCUSDT" (VInt 7);
                 OrderCall
                   (CreateOrder
                      (limit_order_params "BTCUSDT" "SELL" 0.003 50000 "GTC"
                         false true))]
                [GetOrder "BTCUSDT" (VInt 7);
                 OrderCall
                   (CreateOrder
                      (limit_order_params "BTCUSDT" "SELL" 0.003 50000 "GTC"
                         false true))]) as H.
  cbv zeta in H.
  lapply H; [clear H; intros H | reflexivity].
  lapply H; [clear H; intros H | discriminate].
  lapply H; [clear H; intros H | vm_compute; reflexivity].
  lapply H; [clear H; intros H | reflexivity].
  exact H.
Defined.

Lemma config_get_path_witness :
  config_get (Mapping sample_entries) "trading.default_symbol" (Scalar VNone)
  = Scalar (VStr "BTCUSDT")
  /\ config_get (Mapping sample_entries) "trading.missing" (Scalar VNone)
     = Scalar VNone.
Proof.
  split.
  - pose proof (config_get_path (Mapping sample_entries) (Scalar VNone)
                  "trading" "default_symbol") as H.
    lapply H; [clear H; intros [_ H] | reflexivity].
    etransitivity; [exact H | vm_compute; reflexivity].
  - pose proof (config_get_path (Mapping sample_entries) (Scalar VNone)
                  "trading" "missing") as H.
    lapply H; [clear H; intros [_ H] | reflexivity].
    etransitivity; [exact H | vm_compute; reflexivity].
Defined.

Lemma config_get_dotted_key_unreachable_witness :
  config_get
    (Mapping (<["trading.default_symbol" := Scalar (VStr "ETHUSDT")]>
                sample_entries))
    "trading.default_symbol" (Scalar VNone)
  = Scalar (VStr "BTCUSDT").
Proof.
  etransitivity.
  - apply (config_get_dotted_key_unreachable sample_entries
             "trading.default_symbol" "trading.default_symbol"
             (Scalar (VStr "ETHUSDT")) (Scalar VNone)).
    reflexivity.
  - vm_compute. reflexivity.
Defined.
